(** * The query runners of the schema-mutation engine

    A shallow embedding of the per-connection query/transaction session and
    of the schema-changing methods of the MySQL, Postgres, SQL Server and
    SQLite-family query runners, with the properties the specification
    states about them.

    Conventions.
    - A runner object is a record of its mutable fields; a method is a
      function from the runner to a completion and the runner afterwards
      (mutations survive a throw, as they do on the JavaScript object).
    - A promise that settles is [Return] or [Throw]; a promise that is never
      settled is [Pending].
    - A statement is kept as the data its template literal interpolates, one
      constructor per template.
    - Table objects live in an object store and are referred to by address,
      so that an edit through one reference is seen through every other. *)

From Stdlib Require Import ZArith Lia Ascii Recdef.
From stdpp Require Import base option list strings.

Local Open Scope string_scope.
Local Open Scope list_scope.

(** ** JavaScript array helpers *)

(** [arr.indexOf(arr.find(p))] on an array of distinct objects: position of
    the first element satisfying [p], or -1. *)
Fixpoint indexOfFirst {A} (p : A -> bool) (l : list A) : Z :=
  match l with
  | [] => (-1)%Z
  | x :: l' =>
      if p x then 0%Z
      else let i := indexOfFirst p l' in
           if (i <? 0)%Z then (-1)%Z else (i + 1)%Z
  end.

(** [arr.indexOf(s)] on an array of strings. *)
Definition indexOf (s : string) (l : list string) : Z :=
  indexOfFirst (String.eqb s) l.

(** [arr.splice(start, 1)]: a negative [start] counts from the end of the
    array (so -1 removes the last element); past the end nothing is
    removed. *)
Definition splice1 {A} (start : Z) (l : list A) : list A :=
  let len := Z.of_nat (List.length l) in
  let from := if (start <? 0)%Z then Z.max (len + start) 0 else start in
  delete (Z.to_nat from) l.

(** [arr.join(sep)] *)
Fixpoint join (sep : string) (l : list string) : string :=
  match l with
  | [] => EmptyString
  | [x] => x
  | x :: l' => x ++ sep ++ join sep l'
  end.

(** JavaScript truthiness of a string. *)
Definition truthy (s : string) : bool := negb (String.eqb s EmptyString).

Definition truthy_opt (o : option string) : bool :=
  match o with Some s => truthy s | None => false end.

(** ** Data model: Table, TableColumn, TableIndex, ... *)

Inductive GenerationStrategy := increment | uuid | rowid.

Definition GenerationStrategy_eqb (a b : GenerationStrategy) : bool :=
  match a, b with
  | increment, increment | uuid, uuid | rowid, rowid => true
  | _, _ => false
  end.

Definition opt_eqb {A} (eqb : A -> A -> bool) (a b : option A) : bool :=
  match a, b with
  | Some x, Some y => eqb x y
  | None, None => true
  | _, _ => false
  end.

Module TableColumn.
Record t := mk {
  name : string;
  type : string;
  length : string;
  isArray : bool;
  isNullable : bool;
  isPrimary : bool;
  isUnique : bool;
  isGenerated : bool;
  generationStrategy : option GenerationStrategy;
  generatedType : option string;
  default : option string;
  comment : option string
}.

Definition with_name (n : string) (c : t) : t :=
  mk n (type c) (length c) (isArray c) (isNullable c) (isPrimary c)
     (isUnique c) (isGenerated c) (generationStrategy c) (generatedType c)
     (default c) (comment c).

Definition with_isPrimary (b : bool) (c : t) : t :=
  mk (name c) (type c) (length c) (isArray c) (isNullable c) b
     (isUnique c) (isGenerated c) (generationStrategy c) (generatedType c)
     (default c) (comment c).

Definition with_generation (g : bool) (s : option GenerationStrategy)
    (c : t) : t :=
  mk (name c) (type c) (length c) (isArray c) (isNullable c) (isPrimary c)
     (isUnique c) g s (generatedType c) (default c) (comment c).

(** [column.isGenerated && column.generationStrategy === increment] *)
Definition isIncrement (c : t) : bool :=
  isGenerated c && opt_eqb GenerationStrategy_eqb (generationStrategy c) (Some increment).
End TableColumn.

Module TableIndex.
Record t := mk {
  name : string;
  columnNames : list string;
  isUnique : bool;
  isSpatial : bool;
  isFulltext : bool;
  parser : option string;
  where_ : option string
}.

Definition with_name (n : string) (i : t) : t :=
  mk n (columnNames i) (isUnique i) (isSpatial i) (isFulltext i) (parser i) (where_ i).

Definition with_columnNames (cs : list string) (i : t) : t :=
  mk (name i) cs (isUnique i) (isSpatial i) (isFulltext i) (parser i) (where_ i).
End TableIndex.

Module TableForeignKey.
Record t := mk {
  name : string;
  columnNames : list string;
  referencedTableName : string;
  referencedColumnNames : list string;
  onDelete : option string;
  onUpdate : option string
}.

Definition with_name (n : string) (f : t) : t :=
  mk n (columnNames f) (referencedTableName f) (referencedColumnNames f)
     (onDelete f) (onUpdate f).

Definition with_columnNames (cs : list string) (f : t) : t :=
  mk (name f) cs (referencedTableName f) (referencedColumnNames f)
     (onDelete f) (onUpdate f).
End TableForeignKey.

Module TableUnique.
Record t := mk { name : string; columnNames : list string }.
End TableUnique.

Module TableCheck.
Record t := mk { name : string; columnNames : list string; expression : string }.
End TableCheck.

Module TableExclusion.
Record t := mk { name : string; expression : string }.
End TableExclusion.

Module Table.
Record t := mk {
  name : string;
  columns : list TableColumn.t;
  indices : list TableIndex.t;
  foreignKeys : list TableForeignKey.t;
  uniques : list TableUnique.t;
  checks : list TableCheck.t;
  exclusions : list TableExclusion.t;
  engine : option string
}.

Definition with_name (n : string) (tb : t) : t :=
  mk n (columns tb) (indices tb) (foreignKeys tb) (uniques tb) (checks tb)
     (exclusions tb) (engine tb).
Definition with_columns (cs : list TableColumn.t) (tb : t) : t :=
  mk (name tb) cs (indices tb) (foreignKeys tb) (uniques tb) (checks tb)
     (exclusions tb) (engine tb).
Definition with_indices (ixs : list TableIndex.t) (tb : t) : t :=
  mk (name tb) (columns tb) ixs (foreignKeys tb) (uniques tb) (checks tb)
     (exclusions tb) (engine tb).
Definition with_foreignKeys (fs : list TableForeignKey.t) (tb : t) : t :=
  mk (name tb) (columns tb) (indices tb) fs (uniques tb) (checks tb)
     (exclusions tb) (engine tb).
Definition with_uniques (us : list TableUnique.t) (tb : t) : t :=
  mk (name tb) (columns tb) (indices tb) (foreignKeys tb) us (checks tb)
     (exclusions tb) (engine tb).

(** Modelled from the spec: the Table class (schema-builder/table/Table)
    is not part of these sources.  Section 3 gives its fields and section
    4.4 says a mutation clones the table; a clone is a deep copy, so on
    values it is the identity.  It is an object of its own: the methods
    edit it as a local value, and nothing they do to it shows in the
    table it was cloned from before [replaceCachedTable]. *)
Definition clone (tb : t) : t := tb.

(** Modelled from the spec: getter for the columns that belong to the
    primary key. *)
Definition primaryColumns (tb : t) : list TableColumn.t :=
  List.filter TableColumn.isPrimary (columns tb).

(** Modelled from the spec: first column of that name. *)
Definition findColumnByName (n : string) (tb : t) : option TableColumn.t :=
  List.find (fun c => String.eqb (TableColumn.name c) n) (columns tb).

(** Modelled from the spec: appends the column to the column list. *)
Definition addColumn (c : TableColumn.t) (tb : t) : t :=
  with_columns (columns tb ++ [c]) tb.

(** Modelled from the spec: removes the first column carrying the name of
    the given column, if there is one. *)
Definition removeColumn (c : TableColumn.t) (tb : t) : t :=
  let i := indexOfFirst (fun x => String.eqb (TableColumn.name x) (TableColumn.name c))
                        (columns tb) in
  if (i <? 0)%Z then tb else with_columns (splice1 i (columns tb)) tb.
End Table.

(** ** Statements *)

(** The fragment built by [buildCreateColumnSql(column, skipPrimary,
    skipName)]: it is determined by the column and the two flags. *)
Record ColumnSql := {
  sqlColumn : TableColumn.t;
  skipPrimary : bool;
  skipName : bool
}.

Definition buildCreateColumnSql (column : TableColumn.t) (skipPrimary : bool)
    (skipName : bool) : ColumnSql :=
  {| sqlColumn := column; skipPrimary := skipPrimary; skipName := skipName |}.

(** The fragment ends in AUTO_INCREMENT exactly when the column is
    generated with the increment strategy (skipPrimary is not consulted). *)
Definition emitsAutoIncrement (c : ColumnSql) : bool :=
  TableColumn.isIncrement (sqlColumn c).

(** One constructor per statement template of the runners. *)
Inductive Query :=
  (* transaction boundaries *)
  | StartTransaction
  | SetTransactionIsolationLevel (level : string)
  | Commit
  | Rollback
  (* catalog reads of hasDatabase and clearDatabase (MySQL) *)
  | SelectSchemata (database : string)
  | SelectViewDrops (database : string)
  | SelectTableDrops (database : string)
  | SetForeignKeyChecks (on : bool)
  (* catalog reads of clearDatabase (Postgres) *)
  | PgSelectViewDrops (schemas : string)
  | PgSelectMatViewDrops (schemas : string)
  | PgSelectTableDrops (schemas : string)
  | PgSelectEnumDrops (schemas : string)
  (* a statement whose text was read from a result row *)
  | Verbatim (sql : string)
  (* ALTER TABLE t ADD coldef *)
  | AlterAdd (table : string) (def : ColumnSql)
  (* ALTER TABLE t DROP COLUMN c *)
  | AlterDropColumn (table : string) (column : string)
  (* ALTER TABLE t CHANGE old coldef *)
  | AlterChange (table : string) (old : string) (def : ColumnSql)
  (* ALTER TABLE t CHANGE old new coldef-without-name *)
  | AlterChangeRename (table : string) (old new : string) (def : ColumnSql)
  (* ALTER TABLE t DROP PRIMARY KEY *)
  | AlterDropPrimaryKey (table : string)
  (* ALTER TABLE t ADD PRIMARY KEY (cols) *)
  | AlterAddPrimaryKey (table : string) (columnNames : list string)
  (* ALTER TABLE t ADD UNIQUE INDEX i (c) *)
  | AlterAddUniqueIndex (table : string) (index : string) (column : string)
  (* ALTER TABLE t DROP INDEX i *)
  | AlterDropIndex (table : string) (index : string)
  (* ALTER TABLE t DROP INDEX old, ADD [type]INDEX new (cols)[parser] *)
  | AlterRenameIndex (table : string) (old new : string) (index : TableIndex.t)
  (* ALTER TABLE t DROP FOREIGN KEY old, ADD CONSTRAINT new FOREIGN KEY ... *)
  | AlterRenameForeignKey (table : string) (old new : string)
      (foreignKey : TableForeignKey.t)
  (* CREATE [type]INDEX i ON t (cols)[parser] *)
  | CreateIndex (table : string) (index : TableIndex.t)
  (* DROP INDEX i ON t *)
  | DropIndexOn (table : string) (index : string)
  (* RENAME TABLE old TO new *)
  | RenameTable (old new : string)
  (* the begin/commit/rollback primitives of the SQL Server driver *)
  | MssqlBegin (level : option string)
  | MssqlCommit
  | MssqlRollback
  (* ALTER TABLE t ADD coldef, with the fragment of the Postgres runner *)
  | PgAddColumn (table : string) (column : TableColumn.t)
  (* ALTER TABLE t ADD coldef, with the fragment of the SQL Server runner *)
  | MssqlAddColumn (table : string) (column : TableColumn.t)
      (skipIdentity createDefault : bool)
  (* ALTER TABLE t DROP COLUMN "c" (Postgres, SQL Server) *)
  | DropColumn (table column : string)
  (* ALTER TABLE t DROP CONSTRAINT "n" *)
  | DropConstraint (table name : string)
  (* ALTER TABLE t ADD CONSTRAINT "n" PRIMARY KEY (cols) *)
  | AddPrimaryKeyConstraint (table name : string) (columnNames : list string)
  (* ALTER TABLE t ADD CONSTRAINT "n" UNIQUE (cols) *)
  | AddUniqueConstraint (table name : string) (columnNames : list string)
  (* ALTER TABLE t ADD CONSTRAINT "n" CHECK (expression) *)
  | AddCheckConstraint (table name expression : string)
  (* ALTER TABLE t ADD CONSTRAINT "n" DEFAULT d FOR "c" *)
  | AddDefaultConstraint (table name default column : string)
  (* CREATE [UNIQUE ]INDEX "i" ON t [USING GiST ](cols) [WHERE w] *)
  | PgCreateIndex (table : string) (index : TableIndex.t)
  (* DROP INDEX ["schema".]"i", the schema being that of the table *)
  | PgDropIndex (table index : string)
  (* CREATE [UNIQUE ]INDEX "i" ON t (cols) [WHERE w] *)
  | MssqlCreateIndex (table : string) (index : TableIndex.t)
  (* DROP INDEX "i" ON t *)
  | MssqlDropIndex (table index : string)
  (* COMMENT ON COLUMN t."c" IS literal *)
  | PgCommentOnColumn (table column literal : string)
  (* the catalog reads of hasEnumType, getCurrentSchema and
     getUserDefinedTypeName (Postgres) *)
  | PgSelectEnumType (table : string) (column : TableColumn.t)
  | PgSelectCurrentSchema
  | PgSelectUdt (table currentSchema column : string)
  (* CREATE TYPE e AS ENUM(values) and DROP TYPE e: the name is built from
     the table and the column unless one read from the catalog is given *)
  | PgCreateEnumType (table : string) (column : TableColumn.t) (enumName : option string)
  | PgDropEnumType (table : string) (column : TableColumn.t) (enumName : option string).

(** ** Errors and completions *)

Inductive Error :=
  | QueryRunnerAlreadyReleasedError
  | TransactionAlreadyStartedError
  | TransactionNotStartedError
  | QueryFailedError (query : Query) (driverError : string)
  | TypeORMError (message : string)
  | ConnectionIsNotSetError
  (* property access on undefined *)
  | TypeError
  (* rejection coming from a collaborator (pool, subscriber) *)
  | Rejected (reason : string).

(** How an awaited call ends: it returns, it throws, or its promise is
    never settled. *)
Inductive Completion (A : Type) :=
  | Return (a : A)
  | Throw (e : Error)
  | Pending.
Arguments Return {A} a.
Arguments Throw {A} e.
Arguments Pending {A}.

(** ** Collaborators *)

Inductive Reply := Rows (rows : list string) | Failure (err : string).

Inductive BroadcastEvent :=
  | BeforeTransactionStart | AfterTransactionStart
  | BeforeTransactionCommit | AfterTransactionCommit
  | BeforeTransactionRollback | AfterTransactionRollback.

(** The driver, the pool behind it and the subscribers, seen from the
    runner.  The database answers a statement knowing the statements it has
    received before. *)
Class Driver := {
  (* None: the pool hands out a connection; Some reason: it rejects *)
  obtainMasterConnection : option string;
  answer : list Query -> Query -> Reply;
  (* driver.database *)
  database : option string;
  (* driver.connection.isConnected *)
  isConnected : bool;
  (* None: no subscriber promise rejects; Some reason: one does *)
  broadcast : BroadcastEvent -> option string
}.

(** connection.namingStrategy: the first argument is the table name. *)
Class NamingStrategy := {
  indexName : string -> list string -> option string -> string;
  foreignKeyName : string -> list string -> string -> list string -> string;
  uniqueConstraintName : string -> list string -> string;
  checkConstraintName : string -> string -> string;
  primaryKeyName : string -> list string -> string;
  defaultConstraintName : string -> string -> string
}.

(** BaseQueryRunner.isColumnChanged(oldColumn, newColumn, checkDefault,
    checkComment), which these sources only call. *)
Class ColumnDiff := {
  isColumnChanged : TableColumn.t -> TableColumn.t -> bool -> bool -> bool
}.

(** ** The runner object *)

Record QueryRunner := mkRunner {
  isReleased : bool;
  isTransactionActive : bool;
  (* whether a connection has been obtained *)
  databaseConnection : bool;
  (* statements handed to the connection, oldest first *)
  wire : list Query;
  (* object store of Table objects; an address is a position *)
  tables : list Table.t;
  (* the cache: addresses of the loaded tables *)
  loadedTables : list nat;
  (* sqlInMemory *)
  upQueries : list Query;
  downQueries : list Query
}.

Definition set_isReleased (b : bool) (r : QueryRunner) : QueryRunner :=
  mkRunner b (isTransactionActive r) (databaseConnection r) (wire r) (tables r)
           (loadedTables r) (upQueries r) (downQueries r).
Definition set_isTransactionActive (b : bool) (r : QueryRunner) : QueryRunner :=
  mkRunner (isReleased r) b (databaseConnection r) (wire r) (tables r)
           (loadedTables r) (upQueries r) (downQueries r).
Definition set_databaseConnection (b : bool) (r : QueryRunner) : QueryRunner :=
  mkRunner (isReleased r) (isTransactionActive r) b (wire r) (tables r)
           (loadedTables r) (upQueries r) (downQueries r).
Definition set_wire (w : list Query) (r : QueryRunner) : QueryRunner :=
  mkRunner (isReleased r) (isTransactionActive r) (databaseConnection r) w (tables r)
           (loadedTables r) (upQueries r) (downQueries r).
Definition set_tables (ts : list Table.t) (r : QueryRunner) : QueryRunner :=
  mkRunner (isReleased r) (isTransactionActive r) (databaseConnection r) (wire r) ts
           (loadedTables r) (upQueries r) (downQueries r).
Definition set_loadedTables (ls : list nat) (r : QueryRunner) : QueryRunner :=
  mkRunner (isReleased r) (isTransactionActive r) (databaseConnection r) (wire r)
           (tables r) ls (upQueries r) (downQueries r).
Definition set_sqlInMemory (up down : list Query) (r : QueryRunner) : QueryRunner :=
  mkRunner (isReleased r) (isTransactionActive r) (databaseConnection r) (wire r)
           (tables r) (loadedTables r) up down.

(** A method: the runner before, the completion and the runner after. *)
Definition M (A : Type) : Type := QueryRunner -> Completion A * QueryRunner.

Definition ret {A} (a : A) : M A := fun r => (Return a, r).
Definition throw {A} (e : Error) : M A := fun r => (Throw e, r).
Definition never {A} : M A := fun r => (Pending, r).

Definition bind {A B} (m : M A) (k : A -> M B) : M B := fun r =>
  match m r with
  | (Return a, r') => k a r'
  | (Throw e, r') => (Throw e, r')
  | (Pending, r') => (Pending, r')
  end.

Notation "'let*' x ':=' m 'in' k" := (bind m (fun x => k))
  (at level 10, x pattern, m at level 100, k at level 200).
Notation "m ';;' k" := (bind m (fun _ => k))
  (at level 100, k at level 200, right associativity).

Definition modify (f : QueryRunner -> QueryRunner) : M unit :=
  fun r => (Return tt, f r).
Definition gets {A} (f : QueryRunner -> A) : M A := fun r => (Return (f r), r).

(** [try { body } catch (error) { handler(error) }] *)
Definition try_catch {A} (body : M A) (handler : Error -> M A) : M A := fun r =>
  match body r with
  | (Throw e, r') => handler e r'
  | other => other
  end.

(** [if (result.promises.length > 0) await Promise.all(result.promises)]
    after a broadcast. *)
Definition broadcastEvent `{Driver} (ev : BroadcastEvent) : M unit :=
  match broadcast ev with
  | None => ret tt
  | Some reason => throw (Rejected reason)
  end.

(** [for (const x of xs) await f(x)] *)
Fixpoint forEachAwait {A} (f : A -> M unit) (xs : list A) : M unit :=
  match xs with
  | [] => ret tt
  | x :: xs' => f x ;; forEachAwait f xs'
  end.

(** [await Promise.all(xs.map(x => f(x)))] on one connection: every call is
    started, in order, before any reply is looked at; the awaited promise
    rejects with the first rejection (replies arrive in submission order)
    and otherwise resolves once all have. *)
Fixpoint promiseAll {A} (f : A -> M unit) (xs : list A) : M unit :=
  match xs with
  | [] => ret tt
  | x :: xs' => fun r =>
      match f x r with
      | (Return _, r1) => promiseAll f xs' r1
      | (Throw e, r1) => (Throw e, snd (promiseAll f xs' r1))
      | (Pending, r1) =>
          match promiseAll f xs' r1 with
          | (Throw e, r2) => (Throw e, r2)
          | (_, r2) => (Pending, r2)
          end
      end
  end.

(** ** MysqlQueryRunner: the session *)

Module Mysql.
Section Session.
Context `{Driver}.

(** [connect()]: the handle if there is one, else the pool is asked (the
    memoized acquisition promise settles the same way for every
    caller). *)
Definition connect : M unit := fun r =>
  if databaseConnection r then (Return tt, r)
  else match obtainMasterConnection with
       | None => (Return tt, set_databaseConnection true r)
       | Some reason => (Throw (Rejected reason), r)
       end.

Definition release : M unit :=
  modify (set_isReleased true).

Definition query (q : Query) : M (list string) := fun r =>
  if isReleased r then (Throw QueryRunnerAlreadyReleasedError, r)
  else
    match connect r with
    | (Return _, r1) =>
        let r2 := set_wire (wire r1 ++ [q]) r1 in
        match answer (wire r1) q with
        | Failure err => (Throw (QueryFailedError q err), r2)
        | Rows raw => (Return raw, r2)
        end
    | (Throw e, r1) => (Throw e, r1)
    | (Pending, r1) => (Pending, r1)
    end.

Definition query_ (q : Query) : M unit := query q ;; ret tt.

Definition startTransaction (isolationLevel : option string) : M unit :=
  let* active := gets isTransactionActive in
  if active then throw TransactionAlreadyStartedError
  else
    broadcastEvent BeforeTransactionStart ;;
    modify (set_isTransactionActive true) ;;
    (if truthy_opt isolationLevel then
       query_ (SetTransactionIsolationLevel (default EmptyString isolationLevel)) ;;
       query_ StartTransaction
     else query_ StartTransaction) ;;
    broadcastEvent AfterTransactionStart.

Definition commitTransaction : M unit :=
  let* active := gets isTransactionActive in
  if negb active then throw TransactionNotStartedError
  else
    broadcastEvent BeforeTransactionCommit ;;
    query_ Commit ;;
    modify (set_isTransactionActive false) ;;
    broadcastEvent AfterTransactionCommit.

Definition rollbackTransaction : M unit :=
  let* active := gets isTransactionActive in
  if negb active then throw TransactionNotStartedError
  else
    broadcastEvent BeforeTransactionRollback ;;
    query_ Rollback ;;
    modify (set_isTransactionActive false) ;;
    broadcastEvent AfterTransactionRollback.

Definition hasDatabase (db : string) : M bool :=
  let* result := query (SelectSchemata db) in
  ret (negb (Nat.eqb (List.length result) 0)).

(** The statements of clearDatabase between startTransaction and the
    catch. *)
Definition clearDatabase_try (dbName : string) : M unit :=
  let* dropViewQueries := query (SelectViewDrops dbName) in
  promiseAll (fun q => query_ (Verbatim q)) dropViewQueries ;;
  query_ (SetForeignKeyChecks false) ;;
  let* dropQueries := query (SelectTableDrops dbName) in
  promiseAll (fun q => query_ (Verbatim q)) dropQueries ;;
  query_ (SetForeignKeyChecks true) ;;
  commitTransaction.

(** [catch (error) { try { await rollbackTransaction() } catch {} throw error }] *)
Definition clearDatabase_catch (error : Error) : M unit :=
  try_catch rollbackTransaction (fun rollbackError => ret tt) ;;
  throw error.

Definition clearDatabase (db : option string) : M unit :=
  let dbName := if truthy_opt db then db else database in
  if truthy_opt dbName then
    let name := default EmptyString dbName in
    let* isDatabaseExist := hasDatabase name in
    if negb isDatabaseExist then ret tt
    else
      startTransaction None ;;
      try_catch (clearDatabase_try name) clearDatabase_catch
  else throw (TypeORMError "Can not clear database. No database is specified").

(** MySQL has no unique constraints: the entry points always throw. *)
Definition createUniqueConstraint (tableOrName : nat + string)
    (uniqueConstraint : TableUnique.t) : M unit :=
  throw (TypeORMError "MySql does not support unique constraints. Use unique index instead.").

Definition dropUniqueConstraint (tableOrName : nat + string)
    (uniqueOrName : TableUnique.t + string) : M unit :=
  throw (TypeORMError "MySql does not support unique constraints. Use unique index instead.").
End Session.
End Mysql.

(** ** The cache and the statement executor of BaseQueryRunner *)

Section Cache.
Context `{Driver}.

Definition readTable (a : nat) : M Table.t := fun r =>
  match tables r !! a with
  | Some tb => (Return tb, r)
  | None => (Throw TypeError, r)
  end.

(** An assignment to fields of the object at address [a]. *)
Definition writeTable (a : nat) (tb : Table.t) : M unit :=
  modify (fun r => set_tables (<[a := tb]> (tables r)) r).

(** Whether the object at address [a] of the store carries the name. *)
Definition isNamed (store : list Table.t) (n : string) (a : nat) : bool :=
  match store !! a with
  | Some tb => String.eqb (Table.name tb) n
  | None => false
  end.

(** Modelled from the spec: BaseQueryRunner.getCachedTable is not part of
    these sources.  It returns the cached Table of that name; the
    introspection section 4.2 describes for a first access is not
    modelled, a miss throws. *)
Definition getCachedTable (n : string) : M nat := fun r =>
  match List.find (isNamed (tables r) n) (loadedTables r) with
  | Some a => (Return a, r)
  | None => (Throw (TypeORMError "Table does not exist."), r)
  end.

(** The Table the cache holds under a name, if any. *)
Definition cachedTable (n : string) (r : QueryRunner) : option Table.t :=
  match List.find (isNamed (tables r) n) (loadedTables r) with
  | Some a => tables r !! a
  | None => None
  end.

(** Modelled from the spec: BaseQueryRunner.replaceCachedTable is not part
    of these sources.  Section 4.2 calls it an atomic swap of the cache
    entry.  The callers in these sources go on using the Table object
    they passed (changeColumn clones [table] again once dropColumn and
    addColumn have returned, and expects their changes in it), so the swap
    is made on the cached object itself: the first loaded table that
    carries the name of [table] takes the content of [changedTable], in
    one step.  Without such a table nothing happens. *)
Definition replaceCachedTable (table : nat) (changedTable : Table.t) : M unit :=
  let* tb := readTable table in
  modify (fun r =>
    match List.find (isNamed (tables r) (Table.name tb)) (loadedTables r) with
    | Some foundTable => set_tables (<[foundTable := changedTable]> (tables r)) r
    | None => r
    end).

(** [tableOrName instanceof Table ? tableOrName : await getCachedTable(tableOrName)] *)
Definition resolveTable (tableOrName : nat + string) : M nat :=
  match tableOrName with
  | inl a => ret a
  | inr n => getCachedTable n
  end.
End Cache.

(** ** MysqlQueryRunner: schema changes *)

(** The local variables every schema method threads: the two statement
    lists and the clone being edited. *)
Record Plan := mkPlan {
  up : list Query;
  down : list Query;
  clonedTable : Table.t
}.

Definition push (u d : Query) (p : Plan) : Plan :=
  mkPlan (up p ++ [u]) (down p ++ [d]) (clonedTable p).

Definition edit (f : Table.t -> Table.t) (p : Plan) : Plan :=
  mkPlan (up p) (down p) (f (clonedTable p)).

(** Whether a statement of the MySQL runner drops or adds a column. *)
Definition dropsOrAddsColumn (q : Query) : bool :=
  match q with
  | AlterDropColumn _ _ | AlterAdd _ _ => true
  | _ => false
  end.

(** [downQueries.push(d)] with no statement for up. *)
Definition pushDown (d : Query) (p : Plan) : Plan :=
  mkPlan (up p) (down p ++ [d]) (clonedTable p).

(** [x.clone()] with isGenerated = false and generationStrategy = undefined. *)
Definition nonGenerated (c : TableColumn.t) : TableColumn.t :=
  TableColumn.with_generation false None c.

(** [columns.find(column => column.isGenerated && column.generationStrategy === increment)],
    as a position in the array, so that later reads see later edits of the
    object. *)
Definition findGenerated (cols : list TableColumn.t) : option nat :=
  let i := indexOfFirst TableColumn.isIncrement cols in
  if (i <? 0)%Z then None else Some (Z.to_nat i).

Definition columnNamed (n : string) (c : TableColumn.t) : bool :=
  String.eqb (TableColumn.name c) n.

(** [index.columnNames.length === 1 && index.columnNames[0] === name] *)
Definition isColumnIndex (n : string) (i : TableIndex.t) : bool :=
  match TableIndex.columnNames i with
  | [c] => String.eqb c n
  | _ => false
  end.

(** [new TableIndex({name, columnNames, isUnique: true})] *)
Definition newUniqueIndex (n : string) (cols : list string) : TableIndex.t :=
  TableIndex.mk n cols true false false None None.

(** Modelled from the spec: Table.findColumnIndices and
    Table.findColumnForeignKeys select the objects whose column list
    mentions the column. *)
Definition mentions (n : string) (cols : list string) : bool :=
  existsb (String.eqb n) cols.

(** [cols.splice(cols.indexOf(old), 1); cols.push(new)] *)
Definition replaceColumnName (old new : string) (cols : list string) : list string :=
  splice1 (indexOf old cols) cols ++ [new].

(** The part of a table name before its first dot, when it has one. *)
Fixpoint beforeDot (s : string) : option string :=
  match s with
  | EmptyString => None
  | String c s' =>
      if Ascii.eqb c "."%char then Some EmptyString
      else match beforeDot s' with
           | Some p => Some (String c p)
           | None => None
           end
  end.

Module MysqlSchema.
Section Schema.
Context `{Driver} `{NamingStrategy} `{ColumnDiff}.

(** Modelled from the spec: BaseQueryRunner.executeQueries is not part of
    these sources.  Section 4.4: the statements are recorded and all of up
    runs in order through query; a failure propagates with no rollback of
    the statements before it. *)
Definition executeQueries (upQ downQ : list Query) : M unit :=
  modify (fun r => set_sqlInMemory (upQueries r ++ upQ) (downQueries r ++ downQ) r) ;;
  forEachAwait Mysql.query_ upQ.

Definition createIndexSql (table : Table.t) (index : TableIndex.t) : Query :=
  CreateIndex (Table.name table) index.
Definition dropIndexSql (table : Table.t) (index : TableIndex.t) : Query :=
  DropIndexOn (Table.name table) (TableIndex.name index).
Definition createPrimaryKeySql (table : Table.t) (columnNames : list string) : Query :=
  AlterAddPrimaryKey (Table.name table) columnNames.
Definition dropPrimaryKeySql (table : Table.t) : Query :=
  AlterDropPrimaryKey (Table.name table).

(** *** addColumn *)

(** The block under [if (column.isPrimary && skipColumnLevelPrimary)]. *)
Definition addColumn_primary (t : string) (column : TableColumn.t) (p : Plan) : Plan :=
  let generatedColumn := List.find TableColumn.isIncrement (Table.columns (clonedTable p)) in
  let p1 :=
    match generatedColumn with
    | Some g =>
        let nonGeneratedColumn := nonGenerated g in
        push (AlterChange t (TableColumn.name column)
                (buildCreateColumnSql nonGeneratedColumn true false))
             (AlterChange t (TableColumn.name nonGeneratedColumn)
                (buildCreateColumnSql column true false)) p
    | None => p
    end in
  let primaryColumns := Table.primaryColumns (clonedTable p1) in
  let p2 := push (AlterDropPrimaryKey t)
                 (AlterAddPrimaryKey t (List.map TableColumn.name primaryColumns)) p1 in
  let primaryColumns' := primaryColumns ++ [column] in
  let p3 := push (AlterAddPrimaryKey t (List.map TableColumn.name primaryColumns'))
                 (AlterDropPrimaryKey t) p2 in
  match generatedColumn with
  | Some g =>
      let nonGeneratedColumn := nonGenerated g in
      push (AlterChange t (TableColumn.name nonGeneratedColumn)
              (buildCreateColumnSql column true false))
           (AlterChange t (TableColumn.name column)
              (buildCreateColumnSql nonGeneratedColumn true false)) p3
  | None => p3
  end.

(** The block under the comment [create column index]. *)
Definition addColumn_index (table : Table.t) (column : TableColumn.t) (p : Plan) : Plan :=
  let t := Table.name table in
  match List.find (isColumnIndex (TableColumn.name column))
                  (Table.indices (clonedTable p)) with
  | Some columnIndex =>
      push (createIndexSql table columnIndex) (dropIndexSql table columnIndex) p
  | None =>
      if TableColumn.isUnique column then
        let uniqueIndex :=
          newUniqueIndex (indexName t [TableColumn.name column] None)
                         [TableColumn.name column] in
        let p1 := edit (fun c => Table.with_indices (Table.indices c ++ [uniqueIndex]) c) p in
        let p2 := edit (fun c => Table.with_uniques
                      (Table.uniques c ++
                         [TableUnique.mk (TableIndex.name uniqueIndex)
                                         (TableIndex.columnNames uniqueIndex)]) c) p1 in
        push (AlterAddUniqueIndex t (TableIndex.name uniqueIndex) (TableColumn.name column))
             (AlterDropIndex t (TableIndex.name uniqueIndex)) p2
      else p
  end.

(** Everything addColumn does between [table.clone()] and
    [executeQueries]. *)
Definition addColumn_plan (table : Table.t) (column : TableColumn.t) : Plan :=
  let t := Table.name table in
  let p0 := mkPlan [] [] (Table.clone table) in
  let skipColumnLevelPrimary :=
    Nat.ltb 0 (List.length (Table.primaryColumns (clonedTable p0))) in
  let p1 := push (AlterAdd t (buildCreateColumnSql column skipColumnLevelPrimary false))
                 (AlterDropColumn t (TableColumn.name column)) p0 in
  let p2 := if TableColumn.isPrimary column && skipColumnLevelPrimary
            then addColumn_primary t column p1 else p1 in
  addColumn_index table column p2.

Definition addColumn (tableOrName : nat + string) (column : TableColumn.t) : M unit :=
  let* table := resolveTable tableOrName in
  let* tb := readTable table in
  let p := addColumn_plan tb column in
  executeQueries (up p) (down p) ;;
  replaceCachedTable table (Table.addColumn column (clonedTable p)).

(** *** dropColumn *)

(** [columns[i].isPrimary = b] on the clone. *)
Definition setPrimaryAt (i : nat) (b : bool) (tb : Table.t) : Table.t :=
  match Table.columns tb !! i with
  | Some c => Table.with_columns (<[i := TableColumn.with_isPrimary b c]> (Table.columns tb)) tb
  | None => tb
  end.

(** [const c = clonedTable.columns.find(c => c.name === n); c!.isPrimary = b]:
    a TypeError when no column carries the name. *)
Definition setPrimaryByName (n : string) (b : bool) (p : Plan) : Completion Plan :=
  let i := indexOfFirst (columnNamed n) (Table.columns (clonedTable p)) in
  if (i <? 0)%Z then Throw TypeError
  else Return (edit (setPrimaryAt (Z.to_nat i) b) p).

(** The strip of AUTO_INCREMENT that precedes a change of the primary
    key, for the generated column at position [gi]. *)
Definition stripGenerated (t : string) (gi : option nat) (p : Plan) : Plan :=
  match gi with
  | Some i =>
      match Table.columns (clonedTable p) !! i with
      | Some generatedColumn =>
          let nonGeneratedColumn := nonGenerated generatedColumn in
          push (AlterChange t (TableColumn.name generatedColumn)
                  (buildCreateColumnSql nonGeneratedColumn true false))
               (AlterChange t (TableColumn.name nonGeneratedColumn)
                  (buildCreateColumnSql generatedColumn true false)) p
      | None => p
      end
  | None => p
  end.

(** The statements that bring AUTO_INCREMENT back. *)
Definition restoreGenerated (t : string) (gi : option nat) (p : Plan) : Plan :=
  match gi with
  | Some i =>
      match Table.columns (clonedTable p) !! i with
      | Some generatedColumn =>
          let nonGeneratedColumn := nonGenerated generatedColumn in
          push (AlterChange t (TableColumn.name nonGeneratedColumn)
                  (buildCreateColumnSql generatedColumn true false))
               (AlterChange t (TableColumn.name generatedColumn)
                  (buildCreateColumnSql nonGeneratedColumn true false)) p
      | None => p
      end
  | None => p
  end.

(** The block under [if (column.isPrimary)]. *)
Definition dropColumn_primary (t : string) (column : TableColumn.t) (p : Plan)
    : Completion Plan :=
  let gi := findGenerated (Table.columns (clonedTable p)) in
  let p1 := stripGenerated t gi p in
  let columnNames := List.map TableColumn.name (Table.primaryColumns (clonedTable p1)) in
  let p2 := push (AlterDropPrimaryKey t) (AlterAddPrimaryKey t columnNames) p1 in
  match setPrimaryByName (TableColumn.name column) false p2 with
  | Return p3 =>
      let primaryColumns := Table.primaryColumns (clonedTable p3) in
      let p4 :=
        if Nat.ltb 0 (List.length primaryColumns)
        then push (AlterAddPrimaryKey t (List.map TableColumn.name primaryColumns))
                  (AlterDropPrimaryKey t) p3
        else p3 in
      let restore :=
        match gi with
        | Some i =>
            match Table.columns (clonedTable p4) !! i with
            | Some g => negb (String.eqb (TableColumn.name g) (TableColumn.name column))
            | None => false
            end
        | None => false
        end in
      Return (if restore then restoreGenerated t gi p4 else p4)
  | Throw e => Throw e
  | Pending => Pending
  end.

(** The block under the comment [drop column index]. *)
Definition dropColumn_index (table : Table.t) (column : TableColumn.t) (p : Plan) : Plan :=
  let t := Table.name table in
  let indices := Table.indices (clonedTable p) in
  match List.find (isColumnIndex (TableColumn.name column)) indices with
  | Some columnIndex =>
      let i := indexOfFirst (isColumnIndex (TableColumn.name column)) indices in
      let p1 := edit (Table.with_indices (splice1 i indices)) p in
      push (dropIndexSql table columnIndex) (createIndexSql table columnIndex) p1
  | None =>
      if TableColumn.isUnique column then
        let uniqueName := uniqueConstraintName t [TableColumn.name column] in
        let isFoundUnique := fun u => String.eqb (TableUnique.name u) uniqueName in
        let p1 :=
          edit (fun c =>
                  let i := indexOfFirst isFoundUnique (Table.uniques c) in
                  if (i <? 0)%Z then c
                  else Table.with_uniques (splice1 i (Table.uniques c)) c) p in
        let indexName_ := indexName t [TableColumn.name column] None in
        let isFoundIndex := fun x => String.eqb (TableIndex.name x) indexName_ in
        let p2 :=
          edit (fun c =>
                  let i := indexOfFirst isFoundIndex (Table.indices c) in
                  if (i <? 0)%Z then c
                  else Table.with_indices (splice1 i (Table.indices c)) c) p1 in
        push (AlterDropIndex t indexName_)
             (AlterAddUniqueIndex t indexName_ (TableColumn.name column)) p2
      else p
  end.

(** Everything dropColumn does between [table.clone()] and
    [executeQueries]. *)
Definition dropColumn_plan (table : Table.t) (column : TableColumn.t) : Completion Plan :=
  let t := Table.name table in
  let p0 := mkPlan [] [] (Table.clone table) in
  let afterPrimary :=
    if TableColumn.isPrimary column then dropColumn_primary t column p0 else Return p0 in
  match afterPrimary with
  | Return p1 =>
      let p2 := dropColumn_index table column p1 in
      Return (push (AlterDropColumn t (TableColumn.name column))
                   (AlterAdd t (buildCreateColumnSql column true false)) p2)
  | Throw e => Throw e
  | Pending => Pending
  end.

(** A pure computation that may throw, inside a method. *)
Definition lift {A} (c : Completion A) : M A := fun r => (c, r).

Definition dropColumn (tableOrName : nat + string) (columnOrName : TableColumn.t + string)
    : M unit :=
  let* table := resolveTable tableOrName in
  let* tb := readTable table in
  let found :=
    match columnOrName with
    | inl c => Some c
    | inr n => Table.findColumnByName n tb
    end in
  match found with
  | None => throw (TypeORMError "Column was not found in table")
  | Some column =>
      let* p := lift (dropColumn_plan tb column) in
      executeQueries (up p) (down p) ;;
      replaceCachedTable table (Table.removeColumn column (clonedTable p))
  end.

(** *** changeColumn *)

(** The condition under which changeColumn recreates the column. *)
Definition mustRecreate (oldColumn newColumn : TableColumn.t) : bool :=
  (negb (Bool.eqb (TableColumn.isGenerated newColumn) (TableColumn.isGenerated oldColumn))
   && negb (opt_eqb GenerationStrategy_eqb (TableColumn.generationStrategy newColumn) (Some uuid)))
  || negb (String.eqb (TableColumn.type oldColumn) (TableColumn.type newColumn))
  || negb (String.eqb (TableColumn.length oldColumn) (TableColumn.length newColumn))
  || negb (opt_eqb String.eqb (TableColumn.generatedType oldColumn)
                              (TableColumn.generatedType newColumn)).

(** The body of [findColumnIndices(oldColumn).forEach(index => ...)]: for
    every index that mentions the old name, in array order, the statement
    pair and the edited index. *)
Fixpoint renameIndices (t tableName oldName newName : string) (ixs : list TableIndex.t)
    : list (Query * Query) * list TableIndex.t :=
  match ixs with
  | [] => ([], [])
  | index :: rest =>
      let '(qs, rest') := renameIndices t tableName oldName newName rest in
      if mentions oldName (TableIndex.columnNames index) then
        let index1 :=
          TableIndex.with_columnNames
            (replaceColumnName oldName newName (TableIndex.columnNames index)) index in
        let newIndexName :=
          indexName tableName (TableIndex.columnNames index1) (TableIndex.where_ index1) in
        ((AlterRenameIndex t (TableIndex.name index1) newIndexName index1,
          AlterRenameIndex t newIndexName (TableIndex.name index1) index1) :: qs,
         TableIndex.with_name newIndexName index1 :: rest')
      else (qs, index :: rest')
  end.

(** The body of [findColumnForeignKeys(oldColumn).forEach(foreignKey => ...)]. *)
Fixpoint renameForeignKeys (t tableName oldName newName : string)
    (fks : list TableForeignKey.t) : list (Query * Query) * list TableForeignKey.t :=
  match fks with
  | [] => ([], [])
  | foreignKey :: rest =>
      let '(qs, rest') := renameForeignKeys t tableName oldName newName rest in
      if mentions oldName (TableForeignKey.columnNames foreignKey) then
        let fk1 :=
          TableForeignKey.with_columnNames
            (replaceColumnName oldName newName (TableForeignKey.columnNames foreignKey))
            foreignKey in
        let newForeignKeyName :=
          foreignKeyName tableName (TableForeignKey.columnNames fk1)
            (TableForeignKey.referencedTableName fk1)
            (TableForeignKey.referencedColumnNames fk1) in
        ((AlterRenameForeignKey t (TableForeignKey.name fk1) newForeignKeyName fk1,
          AlterRenameForeignKey t newForeignKeyName (TableForeignKey.name fk1) fk1) :: qs,
         TableForeignKey.with_name newForeignKeyName fk1 :: rest')
      else (qs, foreignKey :: rest')
  end.

Definition pushAll (qs : list (Query * Query)) (p : Plan) : Plan :=
  mkPlan (up p ++ List.map fst qs) (down p ++ List.map snd qs) (clonedTable p).

(** The block under [if (newColumn.name !== oldColumn.name)]; it also
    yields oldColumn as the block leaves it (renamed). *)
Definition changeColumn_rename (t : string) (oldColumn newColumn : TableColumn.t)
    (p : Plan) : Completion (Plan * TableColumn.t) :=
  let oldName := TableColumn.name oldColumn in
  let newName := TableColumn.name newColumn in
  let p1 := push (AlterChangeRename t oldName newName (buildCreateColumnSql oldColumn true true))
                 (AlterChangeRename t newName oldName (buildCreateColumnSql oldColumn true true))
                 p in
  let '(iqs, indices') :=
    renameIndices t (Table.name (clonedTable p1)) oldName newName
                  (Table.indices (clonedTable p1)) in
  let p2 := edit (Table.with_indices indices') (pushAll iqs p1) in
  let '(fqs, foreignKeys') :=
    renameForeignKeys t (Table.name (clonedTable p2)) oldName newName
                      (Table.foreignKeys (clonedTable p2)) in
  let p3 := edit (Table.with_foreignKeys foreignKeys') (pushAll fqs p2) in
  let i := indexOfFirst (columnNamed oldName) (Table.columns (clonedTable p3)) in
  match (if (i <? 0)%Z then None else Table.columns (clonedTable p3) !! Z.to_nat i) with
  | Some oldTableColumn =>
      Return (edit (fun c => Table.with_columns
                      (<[Z.to_nat i := TableColumn.with_name newName oldTableColumn]>
                         (Table.columns c)) c) p3,
              TableColumn.with_name newName oldColumn)
  | None => Throw TypeError
  end.

(** The block under [if (newColumn.isPrimary !== oldColumn.isPrimary)]. *)
Definition changeColumn_primary (t : string) (newColumn : TableColumn.t) (p : Plan)
    : Completion Plan :=
  let gi := findGenerated (Table.columns (clonedTable p)) in
  let p1 := stripGenerated t gi p in
  let primaryColumns := List.map TableColumn.name (Table.primaryColumns (clonedTable p1)) in
  let p2 :=
    if Nat.ltb 0 (List.length primaryColumns)
    then push (AlterDropPrimaryKey t) (AlterAddPrimaryKey t primaryColumns) p1
    else p1 in
  let afterKey :=
    if TableColumn.isPrimary newColumn then
      let primaryColumns' := primaryColumns ++ [TableColumn.name newColumn] in
      match setPrimaryByName (TableColumn.name newColumn) true p2 with
      | Return p3 =>
          Return (push (AlterAddPrimaryKey t primaryColumns') (AlterDropPrimaryKey t) p3)
      | other => other
      end
    else
      let primaryColumns' :=
        splice1 (indexOf (TableColumn.name newColumn) primaryColumns) primaryColumns in
      match setPrimaryByName (TableColumn.name newColumn) false p2 with
      | Return p3 =>
          Return (if Nat.ltb 0 (List.length primaryColumns')
                  then push (AlterAddPrimaryKey t primaryColumns') (AlterDropPrimaryKey t) p3
                  else p3)
      | other => other
      end in
  match afterKey with
  | Return p4 => Return (restoreGenerated t gi p4)
  | other => other
  end.

(** [index.columnNames.length === 1 && index.isUnique === true &&
    !!index.columnNames.find(columnName => columnName === name)] *)
Definition isUniqueIndexOf (n : string) (i : TableIndex.t) : bool :=
  Nat.eqb (List.length (TableIndex.columnNames i)) 1
  && TableIndex.isUnique i
  && match List.find (fun columnName => String.eqb columnName n) (TableIndex.columnNames i) with
     | Some found => truthy found
     | None => false
     end.

(** The block under [if (newColumn.isUnique !== oldColumn.isUnique)]. *)
Definition changeColumn_unique (t : string) (newColumn : TableColumn.t) (p : Plan)
    : Completion Plan :=
  let n := TableColumn.name newColumn in
  if TableColumn.isUnique newColumn then
    let uniqueIndex := newUniqueIndex (indexName t [n] None) [n] in
    let p1 := edit (fun c => Table.with_indices (Table.indices c ++ [uniqueIndex]) c) p in
    let p2 := edit (fun c => Table.with_uniques
                  (Table.uniques c ++
                     [TableUnique.mk (TableIndex.name uniqueIndex)
                                     (TableIndex.columnNames uniqueIndex)]) c) p1 in
    Return (push (AlterAddUniqueIndex t (TableIndex.name uniqueIndex) n)
                 (AlterDropIndex t (TableIndex.name uniqueIndex)) p2)
  else
    let indices := Table.indices (clonedTable p) in
    match List.find (isUniqueIndexOf n) indices with
    | Some uniqueIndex =>
        let p1 := edit (Table.with_indices
                          (splice1 (indexOfFirst (isUniqueIndexOf n) indices) indices)) p in
        let isTableUnique :=
          fun u => String.eqb (TableUnique.name u) (TableIndex.name uniqueIndex) in
        let p2 := edit (fun c => Table.with_uniques
                      (splice1 (indexOfFirst isTableUnique (Table.uniques c))
                               (Table.uniques c)) c) p1 in
        Return (push (AlterDropIndex t (TableIndex.name uniqueIndex))
                     (AlterAddUniqueIndex t (TableIndex.name uniqueIndex) n) p2)
    | None => Throw TypeError
    end.

(** The else branch after the rename block: isColumnChanged, primary key,
    unique. *)
Definition changeColumn_rest (t : string) (oldColumn newColumn : TableColumn.t) (p : Plan)
    : Completion Plan :=
  let p1 :=
    if isColumnChanged oldColumn newColumn true true
    then push (AlterChange t (TableColumn.name oldColumn)
                 (buildCreateColumnSql newColumn true false))
              (AlterChange t (TableColumn.name newColumn)
                 (buildCreateColumnSql oldColumn true false)) p
    else p in
  let afterPrimary :=
    if negb (Bool.eqb (TableColumn.isPrimary newColumn) (TableColumn.isPrimary oldColumn))
    then changeColumn_primary t newColumn p1 else Return p1 in
  match afterPrimary with
  | Return p2 =>
      if negb (Bool.eqb (TableColumn.isUnique newColumn) (TableColumn.isUnique oldColumn))
      then changeColumn_unique t newColumn p2 else Return p2
  | other => other
  end.

(** [oldColumn.name = newColumn.name] when oldColumn is the table's own
    column object (it was found by name): the rename is visible through
    the table that was passed in. *)
Definition renameInPlace (table : nat) (oldName newName : string) : M unit :=
  let* tb := readTable table in
  let i := indexOfFirst (columnNamed oldName) (Table.columns tb) in
  match (if (i <? 0)%Z then None else Table.columns tb !! Z.to_nat i) with
  | Some c =>
      writeTable table
        (Table.with_columns (<[Z.to_nat i := TableColumn.with_name newName c]> (Table.columns tb)) tb)
  | None => ret tt
  end.

(** A column object handed in by the caller is an object of its own; a
    column given by name is looked up in the table and is the table's own
    object. *)
Definition changeColumn (tableOrName : nat + string)
    (oldColumnOrName : TableColumn.t + string) (newColumn : TableColumn.t) : M unit :=
  let* table := resolveTable tableOrName in
  let* tb := readTable table in
  let found :=
    match oldColumnOrName with
    | inl c => Some c
    | inr n => Table.findColumnByName n tb
    end in
  match found with
  | None => throw (TypeORMError "Column was not found in the table.")
  | Some oldColumn =>
      if mustRecreate oldColumn newColumn then
        dropColumn (inl table) (inl oldColumn) ;;
        addColumn (inl table) newColumn ;;
        let* tb' := readTable table in
        let clonedTable := Table.clone tb' in
        executeQueries [] [] ;;
        replaceCachedTable table clonedTable
      else
        let t := Table.name tb in
        let p0 := mkPlan [] [] (Table.clone tb) in
        let* afterRename :=
          (if negb (String.eqb (TableColumn.name newColumn) (TableColumn.name oldColumn))
           then
             let* renamed := lift (changeColumn_rename t oldColumn newColumn p0) in
             (match oldColumnOrName with
              | inr n => renameInPlace table n (TableColumn.name newColumn)
              | inl _ => ret tt
              end) ;;
             ret renamed
           else ret (p0, oldColumn)) in
        let p1 := fst afterRename in
        let oldColumn1 := snd afterRename in
        let* p2 := lift (changeColumn_rest t oldColumn1 newColumn p1) in
        executeQueries (up p2) (down p2) ;;
        replaceCachedTable table (clonedTable p2)
  end.

Definition renameColumn (tableOrName : nat + string)
    (oldTableColumnOrName : TableColumn.t + string)
    (newTableColumnOrName : TableColumn.t + string) : M unit :=
  let* table := resolveTable tableOrName in
  let* tb := readTable table in
  let found :=
    match oldTableColumnOrName with
    | inl c => Some c
    | inr n => Table.findColumnByName n tb
    end in
  match found with
  | None => throw (TypeORMError "Column was not found in the table.")
  | Some oldColumn =>
      let newColumn :=
        match newTableColumnOrName with
        | inl c => c
        | inr n => TableColumn.with_name n oldColumn
        end in
      changeColumn (inl table) oldTableColumnOrName newColumn
  end.

(** *** Primary keys *)

(** [columnNames.find(columnName => columnName === column.name)] used as a
    condition: the found string must also be truthy. *)
Definition findsName (columnNames : list string) (c : TableColumn.t) : bool :=
  match List.find (fun columnName => String.eqb columnName (TableColumn.name c)) columnNames with
  | Some found => truthy found
  | None => false
  end.

Definition createPrimaryKey (tableOrName : nat + string) (columnNames : list string)
    : M unit :=
  let* table := resolveTable tableOrName in
  let* tb := readTable table in
  let clonedTable := Table.clone tb in
  executeQueries [createPrimaryKeySql tb columnNames] [dropPrimaryKeySql tb] ;;
  replaceCachedTable table
    (Table.with_columns
       (List.map (fun column =>
                    if findsName columnNames column
                    then TableColumn.with_isPrimary true column else column)
                 (Table.columns clonedTable)) clonedTable).

(** Everything updatePrimaryKeys does between [table.clone()] and
    [executeQueries]. *)
Definition updatePrimaryKeys_plan (table : Table.t) (columns : list TableColumn.t)
    : Completion Plan :=
  let t := Table.name table in
  let p0 := mkPlan [] [] (Table.clone table) in
  let columnNames := List.map TableColumn.name columns in
  let gi := findGenerated (Table.columns (clonedTable p0)) in
  let p1 := stripGenerated t gi p0 in
  let primaryColumns := Table.primaryColumns (clonedTable p1) in
  let p2 :=
    if Nat.ltb 0 (List.length primaryColumns)
    then push (AlterDropPrimaryKey t)
              (AlterAddPrimaryKey t (List.map TableColumn.name primaryColumns)) p1
    else p1 in
  let p3 :=
    edit (fun c => Table.with_columns
            (List.map (fun column =>
                         if negb (indexOf (TableColumn.name column) columnNames =? -1)%Z
                         then TableColumn.with_isPrimary true column else column)
                      (Table.columns c)) c) p2 in
  let p4 := push (AlterAddPrimaryKey t columnNames) (AlterDropPrimaryKey t) p3 in
  let newOrExistGeneratedColumn :=
    match gi with
    | Some i => Table.columns (clonedTable p4) !! i
    | None => List.find TableColumn.isIncrement columns
    end in
  match newOrExistGeneratedColumn with
  | Some g =>
      let nonGeneratedColumn := nonGenerated g in
      let p5 := push (AlterChange t (TableColumn.name nonGeneratedColumn)
                        (buildCreateColumnSql g true false))
                     (AlterChange t (TableColumn.name g)
                        (buildCreateColumnSql nonGeneratedColumn true false)) p4 in
      let i := indexOfFirst (columnNamed (TableColumn.name g)) (Table.columns (clonedTable p5)) in
      match (if (i <? 0)%Z then None else Table.columns (clonedTable p5) !! Z.to_nat i) with
      | Some changedGeneratedColumn =>
          Return (edit (fun c => Table.with_columns
                          (<[Z.to_nat i :=
                               TableColumn.with_generation true (Some increment)
                                 changedGeneratedColumn]> (Table.columns c)) c) p5)
      | None => Throw TypeError
      end
  | None => Return p4
  end.

Definition updatePrimaryKeys (tableOrName : nat + string) (columns : list TableColumn.t)
    : M unit :=
  let* table := resolveTable tableOrName in
  let* tb := readTable table in
  let* p := lift (updatePrimaryKeys_plan tb columns) in
  executeQueries (up p) (down p) ;;
  replaceCachedTable table (clonedTable p).

(** No clone here: after the statements ran, the columns of the table
    that was passed in are edited. *)
Definition dropPrimaryKey (tableOrName : nat + string) : M unit :=
  let* table := resolveTable tableOrName in
  let* tb := readTable table in
  executeQueries
    [dropPrimaryKeySql tb]
    [createPrimaryKeySql tb (List.map TableColumn.name (Table.primaryColumns tb))] ;;
  let* tb' := readTable table in
  writeTable table
    (Table.with_columns
       (List.map (fun column =>
                    if TableColumn.isPrimary column
                    then TableColumn.with_isPrimary false column else column)
                 (Table.columns tb')) tb').

(** *** renameTable *)

Fixpoint renameTableIndices (newTableName : string) (ixs : list TableIndex.t)
    : list (Query * Query) * list TableIndex.t :=
  match ixs with
  | [] => ([], [])
  | index :: rest =>
      let '(qs, rest') := renameTableIndices newTableName rest in
      let newIndexName :=
        indexName newTableName (TableIndex.columnNames index) (TableIndex.where_ index) in
      ((AlterRenameIndex newTableName (TableIndex.name index) newIndexName index,
        AlterRenameIndex newTableName newIndexName (TableIndex.name index) index) :: qs,
       TableIndex.with_name newIndexName index :: rest')
  end.

Fixpoint renameTableForeignKeys (newTableName : string) (fks : list TableForeignKey.t)
    : list (Query * Query) * list TableForeignKey.t :=
  match fks with
  | [] => ([], [])
  | foreignKey :: rest =>
      let '(qs, rest') := renameTableForeignKeys newTableName rest in
      let newForeignKeyName :=
        foreignKeyName newTableName (TableForeignKey.columnNames foreignKey)
          (TableForeignKey.referencedTableName foreignKey)
          (TableForeignKey.referencedColumnNames foreignKey) in
      ((AlterRenameForeignKey newTableName (TableForeignKey.name foreignKey)
          newForeignKeyName foreignKey,
        AlterRenameForeignKey newTableName newForeignKeyName
          (TableForeignKey.name foreignKey) foreignKey) :: qs,
       TableForeignKey.with_name newForeignKeyName foreignKey :: rest')
  end.

(** Everything renameTable does before [executeQueries]; the table of the
    plan is newTable. *)
Definition renameTable_plan (oldTable : Table.t) (newTableName : string) : Plan :=
  let dbName := beforeDot (Table.name oldTable) in
  let newName :=
    if truthy_opt dbName then (default EmptyString dbName ++ "." ++ newTableName)%string
    else newTableName in
  let p0 := mkPlan [] [] (Table.with_name newName (Table.clone oldTable)) in
  let p1 := push (RenameTable (Table.name oldTable) newName)
                 (RenameTable newName (Table.name oldTable)) p0 in
  let '(iqs, indices') := renameTableIndices newName (Table.indices (clonedTable p1)) in
  let p2 := edit (Table.with_indices indices') (pushAll iqs p1) in
  let '(fqs, foreignKeys') :=
    renameTableForeignKeys newName (Table.foreignKeys (clonedTable p2)) in
  edit (Table.with_foreignKeys foreignKeys') (pushAll fqs p2).

(** After the statements ran, the old table object itself is renamed, and
    then takes the place of the table of that name in the cache (which is
    that object itself, when it was a cached one). *)
Definition renameTable (oldTableOrName : nat + string) (newTableName : string) : M unit :=
  let* oldTable := resolveTable oldTableOrName in
  let* tb := readTable oldTable in
  let p := renameTable_plan tb newTableName in
  executeQueries (up p) (down p) ;;
  let* tb' := readTable oldTable in
  writeTable oldTable (Table.with_name (Table.name (clonedTable p)) tb') ;;
  replaceCachedTable oldTable (clonedTable p).
End Schema.
End MysqlSchema.

(** ** PostgresQueryRunner: the session *)

Module Postgres.
Section Session.
Context `{Driver}.

Definition connect : M unit := Mysql.connect.

(** [release()] is releasePostgresConnection: nothing when already
    released, else the flag is set and the handle goes back to the pool. *)
Definition release : M unit := fun r =>
  if isReleased r then (Return tt, r)
  else (Return tt, set_isReleased true r).

(** The connection is awaited outside the try: its rejection is thrown as
    it is; a driver error is wrapped. *)
Definition query (q : Query) : M (list string) := fun r =>
  if isReleased r then (Throw QueryRunnerAlreadyReleasedError, r)
  else
    match connect r with
    | (Return _, r1) =>
        let r2 := set_wire (wire r1 ++ [q]) r1 in
        match answer (wire r1) q with
        | Failure err => (Throw (QueryFailedError q err), r2)
        | Rows raw => (Return raw, r2)
        end
    | (Throw e, r1) => (Throw e, r1)
    | (Pending, r1) => (Pending, r1)
    end.

Definition query_ (q : Query) : M unit := query q ;; ret tt.

Definition startTransaction (isolationLevel : option string) : M unit :=
  let* active := gets isTransactionActive in
  if active then throw TransactionAlreadyStartedError
  else
    broadcastEvent BeforeTransactionStart ;;
    modify (set_isTransactionActive true) ;;
    query_ StartTransaction ;;
    (if truthy_opt isolationLevel
     then query_ (SetTransactionIsolationLevel (default EmptyString isolationLevel))
     else ret tt) ;;
    broadcastEvent AfterTransactionStart.

Definition commitTransaction : M unit :=
  let* active := gets isTransactionActive in
  if negb active then throw TransactionNotStartedError
  else
    broadcastEvent BeforeTransactionCommit ;;
    query_ Commit ;;
    modify (set_isTransactionActive false) ;;
    broadcastEvent AfterTransactionCommit.

Definition rollbackTransaction : M unit :=
  let* active := gets isTransactionActive in
  if negb active then throw TransactionNotStartedError
  else
    broadcastEvent BeforeTransactionRollback ;;
    query_ Rollback ;;
    modify (set_isTransactionActive false) ;;
    broadcastEvent AfterTransactionRollback.

Definition dropEnumTypes (schemaNames : string) : M unit :=
  let* dropQueries := query (PgSelectEnumDrops schemaNames) in
  promiseAll (fun q => query_ (Verbatim q)) dropQueries.

(** The statements of clearDatabase between startTransaction and the
    catch; [schemaNamesString] is computed from the entity metadata and
    the driver options. *)
Definition clearDatabase_try (schemaNamesString : string) : M unit :=
  let* dropViewQueries := query (PgSelectViewDrops schemaNamesString) in
  promiseAll (fun q => query_ (Verbatim q)) dropViewQueries ;;
  let* dropMatViewQueries := query (PgSelectMatViewDrops schemaNamesString) in
  promiseAll (fun q => query_ (Verbatim q)) dropMatViewQueries ;;
  let* dropTableQueries := query (PgSelectTableDrops schemaNamesString) in
  promiseAll (fun q => query_ (Verbatim q)) dropTableQueries ;;
  dropEnumTypes schemaNamesString ;;
  commitTransaction.

Definition clearDatabase_catch (error : Error) : M unit :=
  try_catch rollbackTransaction (fun rollbackError => ret tt) ;;
  throw error.

Definition clearDatabase (schemaNamesString : string) : M unit :=
  startTransaction None ;;
  try_catch (clearDatabase_try schemaNamesString) clearDatabase_catch.

(** The condition under which changeColumn recreates the column. *)
Definition mustRecreate (oldColumn newColumn : TableColumn.t) : bool :=
  negb (String.eqb (TableColumn.type oldColumn) (TableColumn.type newColumn))
  || negb (String.eqb (TableColumn.length oldColumn) (TableColumn.length newColumn))
  || negb (Bool.eqb (TableColumn.isArray newColumn) (TableColumn.isArray oldColumn)).
End Session.
End Postgres.

(** ** SqlServerQueryRunner: the session *)

Module SqlServer.
Section Session.
Context `{Driver}.

Definition connect : M unit := ret tt.

Definition release : M unit := modify (set_isReleased true).

(** The promise of startTransaction is settled by the callback of
    [begin]: an error resets the flag and rejects.  The pool is awaited in
    an executor without a catch, so its rejection leaves the promise
    unsettled; so does nothing else: the after-start subscribers are
    awaited in the executor too, and do not decide the outcome. *)
Definition startTransaction (isolationLevel : option string) : M unit :=
  let* released := gets isReleased in
  if released then throw QueryRunnerAlreadyReleasedError
  else
    let* active := gets isTransactionActive in
    if active then throw TransactionAlreadyStartedError
    else
      broadcastEvent BeforeTransactionStart ;;
      modify (set_isTransactionActive true) ;;
      match obtainMasterConnection with
      | Some reason => never
      | None =>
          modify (set_databaseConnection true) ;;
          let level := if truthy_opt isolationLevel then isolationLevel else None in
          fun r =>
            let r1 := set_wire (wire r ++ [MssqlBegin level]) r in
            match answer (wire r) (MssqlBegin level) with
            | Failure err => (Throw (Rejected err), set_isTransactionActive false r1)
            | Rows _ => (Return tt, r1)
            end
      end.

(** The callback of [commit]: on success the flag is reset, then the
    after-commit subscribers are awaited before the promise resolves; if
    one of them rejects the promise is left unsettled. *)
Definition commitTransaction : M unit :=
  let* released := gets isReleased in
  if released then throw QueryRunnerAlreadyReleasedError
  else
    let* active := gets isTransactionActive in
    if negb active then throw TransactionNotStartedError
    else
      broadcastEvent BeforeTransactionCommit ;;
      fun r =>
        let r1 := set_wire (wire r ++ [MssqlCommit]) r in
        match answer (wire r) MssqlCommit with
        | Failure err => (Throw (Rejected err), r1)
        | Rows _ =>
            let r2 := set_databaseConnection false (set_isTransactionActive false r1) in
            match broadcast AfterTransactionCommit with
            | None => (Return tt, r2)
            | Some _ => (Pending, r2)
            end
        end.

Definition rollbackTransaction : M unit :=
  let* released := gets isReleased in
  if released then throw QueryRunnerAlreadyReleasedError
  else
    let* active := gets isTransactionActive in
    if negb active then throw TransactionNotStartedError
    else
      broadcastEvent BeforeTransactionRollback ;;
      fun r =>
        let r1 := set_wire (wire r ++ [MssqlRollback]) r in
        match answer (wire r) MssqlRollback with
        | Failure err => (Throw (Rejected err), r1)
        | Rows _ =>
            let r2 := set_databaseConnection false (set_isTransactionActive false r1) in
            match broadcast AfterTransactionRollback with
            | None => (Return tt, r2)
            | Some _ => (Pending, r2)
            end
        end.

(** [query] when no other query of the session is outstanding (the queue
    of outstanding queries is the subject of [Chain] below). *)
Definition query (q : Query) : M (list string) := fun r =>
  if isReleased r then (Throw QueryRunnerAlreadyReleasedError, r)
  else
    match obtainMasterConnection with
    | Some reason => (Throw (Rejected reason), r)
    | None =>
        let r1 := set_wire (wire r ++ [q]) r in
        match answer (wire r) q with
        | Failure err => (Throw (QueryFailedError q err), r1)
        | Rows raw => (Return raw, r1)
        end
    end.

(** The condition under which changeColumn recreates the column. *)
Definition mustRecreate (oldColumn newColumn : TableColumn.t) : bool :=
  (negb (Bool.eqb (TableColumn.isGenerated newColumn) (TableColumn.isGenerated oldColumn))
   && negb (opt_eqb GenerationStrategy_eqb (TableColumn.generationStrategy newColumn) (Some uuid)))
  || negb (String.eqb (TableColumn.type newColumn) (TableColumn.type oldColumn))
  || negb (String.eqb (TableColumn.length newColumn) (TableColumn.length oldColumn)).
End Session.
End SqlServer.

(** ** The SQLite family: SqliteQueryRunner, SqljsQueryRunner,
    NativescriptQueryRunner *)

Module Sqlite.
Section Session.
Context `{Driver}.

(** The statement is run on the single connection of the driver; a busy
    reply that is retried shows here as the reply of the last attempt. *)
Definition run (q : Query) : M (list string) := fun r =>
  let r1 := set_wire (wire r ++ [q]) r in
  match answer (wire r) q with
  | Failure err => (Throw (QueryFailedError q err), r1)
  | Rows raw => (Return raw, r1)
  end.

Definition query (q : Query) : M (list string) := fun r =>
  if isReleased r then (Throw QueryRunnerAlreadyReleasedError, r)
  else if negb isConnected then (Throw ConnectionIsNotSetError, r)
  else run q r.
End Session.
End Sqlite.

Module Sqljs.
Section Session.
Context `{Driver}.

Definition query (q : Query) : M (list string) := fun r =>
  if isReleased r then (Throw QueryRunnerAlreadyReleasedError, r)
  else Sqlite.run q r.
End Session.
End Sqljs.

Module Nativescript.
Section Session.
Context `{Driver}.

Definition query (q : Query) : M (list string) := fun r =>
  if isReleased r then (Throw QueryRunnerAlreadyReleasedError, r)
  else Sqlite.run q r.
End Session.
End Nativescript.

(** ** SqlServerQueryRunner.query and its queryResponsibilityChain

    Several calls of [query] can be outstanding at once, so a call is not a
    function here but an entry in a list of calls, each at the point where
    it is suspended.  The session moves by events: a new call of [query],
    or the driver calling back for the request it holds.  After each event
    every continuation whose awaited promise has settled runs (microtasks
    drain before the next callback). *)

Module Chain.

(** The two promises a call creates. *)
Inductive PromiseId :=
  | waitingPromise (call : nat)
  | promise (call : nat).

Definition PromiseId_eqb (a b : PromiseId) : bool :=
  match a, b with
  | waitingPromise i, waitingPromise j => Nat.eqb i j
  | promise i, promise j => Nat.eqb i j
  | _, _ => false
  end.

(** Where a call stands. *)
Inductive Phase :=
  (* suspended at [await Promise.all(otherWaitingPromises)] *)
  | Awaiting (otherWaitingPromises : list PromiseId)
  (* [request.query] was called; the driver will call back with the reply *)
  | InFlight (reply : Reply)
  (* the promise the caller holds has settled *)
  | Finished (result : Completion (list string)).

Record Call := mkCall { sql : Query; phase : Phase }.

Record Session := mkSession {
  isReleased : bool;
  queryResponsibilityChain : list PromiseId;
  (* the promises settled so far, in the order they settled; None is
     resolved, Some e is rejected with e *)
  settled : list (PromiseId * option Error);
  calls : list Call;
  (* the statements the driver has received, oldest first *)
  received : list Query
}.

Definition start : Session := mkSession false [] [] [] [].

Inductive Event :=
  (* a call of query(q) *)
  | Submit (q : Query)
  (* the driver calls back for the oldest request it holds *)
  | Callback.

(** How [Promise.all(others)] stands. *)
Inductive AllState := AllResolved | AllRejected (e : Error) | AllPending.

Definition isIn (ps : list PromiseId) (p : PromiseId) : bool :=
  existsb (PromiseId_eqb p) ps.

Definition promiseAllState (others : list PromiseId)
    (log : list (PromiseId * option Error)) : AllState :=
  match List.find (fun entry => isIn others (fst entry) && bool_decide (is_Some (snd entry))) log with
  | Some (_, Some e) => AllRejected e
  | _ =>
      if forallb (isIn (List.map fst log)) others then AllResolved else AllPending
  end.

Definition setPhase (k : nat) (ph : Phase) (s : Session) : Session :=
  match calls s !! k with
  | Some c =>
      mkSession (isReleased s) (queryResponsibilityChain s) (settled s)
                (<[k := mkCall (sql c) ph]> (calls s)) (received s)
  | None => s
  end.

Section Steps.
Context `{Driver}.

(** The call [k] creates [promise]: the pool is awaited, the statement is
    given to [request.query], and the promise is pushed on the chain. *)
Definition issue (k : nat) (q : Query) (s : Session) : Session :=
  match obtainMasterConnection with
  | Some reason =>
      setPhase k (Finished (Throw (Rejected reason)))
        (mkSession (isReleased s) (queryResponsibilityChain s ++ [promise k])
                   (settled s ++ [(promise k, Some (Rejected reason))])
                   (calls s) (received s))
  | None =>
      setPhase k (InFlight (answer (received s) q))
        (mkSession (isReleased s) (queryResponsibilityChain s ++ [promise k])
                   (settled s) (calls s) (received s ++ [q]))
  end.

(** The continuation of call [k] after its await, if the awaited promise
    has settled: a rejection is thrown out of [query], otherwise the call
    goes on to issue its statement. *)
Definition resume (k : nat) (s : Session) : Session :=
  match calls s !! k with
  | Some (mkCall q (Awaiting others)) =>
      match promiseAllState others (settled s) with
      | AllRejected e => setPhase k (Finished (Throw e)) s
      | AllResolved => issue k q s
      | AllPending => s
      end
  | _ => s
  end.

(** All continuations that can run, in the order of the calls. *)
Definition drain (s : Session) : Session :=
  fold_left (fun st k => resume k st) (seq 0 (List.length (calls s))) s.

(** A call of [query(q)]. *)
Definition submit (q : Query) (s : Session) : Session :=
  let k := List.length (calls s) in
  if isReleased s then
    mkSession (isReleased s) (queryResponsibilityChain s) (settled s)
              (calls s ++ [mkCall q (Finished (Throw QueryRunnerAlreadyReleasedError))])
              (received s)
  else if Nat.ltb 0 (List.length (queryResponsibilityChain s)) then
    let otherWaitingPromises := queryResponsibilityChain s in
    drain (mkSession (isReleased s)
                     (queryResponsibilityChain s ++ [waitingPromise k])
                     (settled s)
                     (calls s ++ [mkCall q (Awaiting otherWaitingPromises)])
                     (received s))
  else
    issue k q (mkSession (isReleased s) (queryResponsibilityChain s) (settled s)
                         (calls s ++ [mkCall q (Awaiting [])]) (received s)).

Definition isInFlight (c : Call) : bool :=
  match phase c with InFlight _ => true | _ => false end.

(** [resolveChain]: the two splices, at the positions computed before
    either of them. *)
Definition resolveChain (k : nat) (chain : list PromiseId) : list PromiseId :=
  let promiseIndex := indexOfFirst (PromiseId_eqb (promise k)) chain in
  let waitingPromiseIndex := indexOfFirst (PromiseId_eqb (waitingPromise k)) chain in
  let chain1 := if (promiseIndex =? -1)%Z then chain else splice1 promiseIndex chain in
  if (waitingPromiseIndex =? -1)%Z then chain1 else splice1 waitingPromiseIndex chain1.

(** The callback of [request.query] for the oldest request in flight. *)
Definition callback (s : Session) : Session :=
  let i := indexOfFirst isInFlight (calls s) in
  if (i <? 0)%Z then s
  else
    let k := Z.to_nat i in
    match calls s !! k with
    | Some (mkCall q (InFlight reply)) =>
        let chain := resolveChain k (queryResponsibilityChain s) in
        match reply with
        | Failure err =>
            (* resolveChain(); return fail(new QueryFailedError(...)) *)
            drain (setPhase k (Finished (Throw (QueryFailedError q err)))
                     (mkSession (isReleased s) chain
                        (settled s ++ [(waitingPromise k, None);
                                       (promise k, Some (QueryFailedError q err))])
                        (calls s) (received s)))
        | Rows raw =>
            (* ok(result); resolveChain() *)
            drain (setPhase k (Finished (Return raw))
                     (mkSession (isReleased s) chain
                        (settled s ++ [(promise k, None); (waitingPromise k, None)])
                        (calls s) (received s)))
        end
    | _ => s
    end.

Definition step (s : Session) (ev : Event) : Session :=
  match ev with
  | Submit q => submit q s
  | Callback => callback s
  end.

Definition run (evs : list Event) (s : Session) : Session :=
  fold_left step evs s.

(** The outcome the caller of the k-th call observes, once there is one. *)
Definition outcome (k : nat) (s : Session) : option (Completion (list string)) :=
  match calls s !! k with
  | Some (mkCall _ (Finished result)) => Some result
  | _ => None
  end.
End Steps.
End Chain.

(** ** What the statements do to the persisted table

    The specification speaks of persisted states in which a column carries
    the identity attribute (AUTO_INCREMENT) with or without a primary key
    covering it.  Of a persisted table this keeps those two attributes: the
    columns that carry the identity attribute and the columns of the
    primary key.  CHANGE redefines a column (it is AUTO_INCREMENT exactly
    when the new definition says so, and keeps its place in the key under
    its new name); ADD adds one; DROP COLUMN removes one. *)

Module Persisted.
Record State := mkState {
  identity : list string;
  primaryKey : list string
}.

Definition without (n : string) (l : list string) : list string :=
  List.filter (fun c => negb (String.eqb c n)) l.

Definition renamed (old new : string) (l : list string) : list string :=
  List.map (fun c => if String.eqb c old then new else c) l.

Definition redefine (old new : string) (auto : bool) (s : State) : State :=
  mkState (without old (identity s) ++ (if auto then [new] else []))
          (renamed old new (primaryKey s)).

Definition apply (s : State) (q : Query) : State :=
  match q with
  | AlterChange _ old def =>
      redefine old (TableColumn.name (sqlColumn def)) (emitsAutoIncrement def) s
  | AlterChangeRename _ old new def =>
      redefine old new (emitsAutoIncrement def) s
  | AlterAdd _ def =>
      let n := TableColumn.name (sqlColumn def) in
      mkState (identity s ++ (if emitsAutoIncrement def then [n] else []))
              (primaryKey s ++
                 (if TableColumn.isPrimary (sqlColumn def) && negb (skipPrimary def)
                  then [n] else []))
  | AlterDropColumn _ n => mkState (without n (identity s)) (without n (primaryKey s))
  | AlterDropPrimaryKey _ => mkState (identity s) []
  | AlterAddPrimaryKey _ cols => mkState (identity s) cols
  | _ => s
  end.

(** The state after each statement of the list, in order. *)
Fixpoint states (s : State) (qs : list Query) : list State :=
  match qs with
  | [] => []
  | q :: qs' => apply s q :: states (apply s q) qs'
  end.

Definition final (s : State) (qs : list Query) : State := fold_left apply qs s.

(** The states strictly inside the run: after the first statement and
    before the last. *)
Definition intermediate (s : State) (qs : list Query) : list State :=
  removelast (states s qs).

(** Every identity column belongs to the primary key. *)
Definition covered (s : State) : bool :=
  forallb (fun c => mentions c (primaryKey s)) (identity s).

(** The persisted attributes that agree with a Table object. *)
Definition ofTable (tb : Table.t) : State :=
  mkState (List.map TableColumn.name (List.filter TableColumn.isIncrement (Table.columns tb)))
          (List.map TableColumn.name (Table.primaryColumns tb)).

(** What a statement does to the list of identity columns alone (it does
    not depend on the key), and the lists a run goes through. *)
Definition identityStep (ids : list string) (q : Query) : list string :=
  identity (apply (mkState ids []) q).

Fixpoint identityTrace (ids : list string) (qs : list Query) : list (list string) :=
  match qs with
  | [] => []
  | q :: qs' => identityStep ids q :: identityTrace (identityStep ids q) qs'
  end.
End Persisted.

(** ** Fixtures for the closed examples *)

Module Fixture.
(** A naming strategy in the style of the default one (prefix, table and
    column names), without the hashing. *)
Definition naming : NamingStrategy := {|
  indexName := fun t cols _ => ("IDX_" ++ t ++ "_" ++ join "_" cols)%string;
  foreignKeyName := fun t cols _ _ => ("FK_" ++ t ++ "_" ++ join "_" cols)%string;
  uniqueConstraintName := fun t cols => ("UQ_" ++ t ++ "_" ++ join "_" cols)%string;
  checkConstraintName := fun t e => ("CHK_" ++ t ++ "_" ++ e)%string;
  primaryKeyName := fun t cols => ("PK_" ++ t ++ "_" ++ join "_" cols)%string;
  defaultConstraintName := fun t c => ("DF_" ++ t ++ "_" ++ c)%string
|}.

(** A comparison of the attributes of the definition that changeColumn
    handles in no block of its own: nullability, and the default and the
    comment when they are to be checked.  The name, type, length, key,
    unique and generation attributes are not looked at. *)
Definition diff : ColumnDiff := {|
  isColumnChanged := fun a b checkDefault checkComment =>
    negb (Bool.eqb (TableColumn.isNullable a) (TableColumn.isNullable b))
    || (checkDefault
        && negb (opt_eqb String.eqb (TableColumn.default a) (TableColumn.default b)))
    || (checkComment
        && negb (opt_eqb String.eqb (TableColumn.comment a) (TableColumn.comment b)))
|}.

(** A database that accepts every statement and returns no rows. *)
Definition accepting : Driver := {|
  obtainMasterConnection := None;
  answer := fun _ _ => Rows [];
  database := Some "test";
  isConnected := true;
  broadcast := fun _ => None
|}.

(** A database holding one view and one table, on which dropping the
    table fails, and so does ROLLBACK. *)
Definition failingDrop : Driver := {|
  obtainMasterConnection := None;
  answer := fun _ q =>
    match q with
    | SelectSchemata _ => Rows ["test"]
    | SelectViewDrops _ => Rows ["DROP VIEW v"]
    | SelectTableDrops _ => Rows ["DROP TABLE a"; "DROP TABLE b"]
    | PgSelectTableDrops _ => Rows ["DROP TABLE a"; "DROP TABLE b"]
    | Verbatim "DROP TABLE a" => Failure "permission denied"
    | Rollback => Failure "connection lost"
    | _ => Rows []
    end;
  database := Some "test";
  isConnected := true;
  broadcast := fun _ => None
|}.

(** A database on which the statement [boom] fails. *)
Definition failingStatement : Driver := {|
  obtainMasterConnection := None;
  answer := fun _ q =>
    match q with
    | Verbatim "boom" => Failure "syntax error"
    | _ => Rows []
    end;
  database := Some "test";
  isConnected := true;
  broadcast := fun _ => None
|}.

Definition column (n ty len : string) (primary unique : bool) : TableColumn.t :=
  TableColumn.mk n ty len false false primary unique false None None None None.

(** t(id int primary key, name varchar(50)) *)
Definition t0 : Table.t :=
  Table.mk "t" [column "id" "int" EmptyString true false; column "name" "varchar" "50" false false]
           [] [] [] [] [] None.

Definition email : TableColumn.t := column "email" "varchar" "255" false true.

(** A fresh runner whose cache holds [tb]. *)
Definition runnerWith (tb : Table.t) : QueryRunner :=
  mkRunner false false false [] [tb] [0] [] [].

(** t with the unique column email as addColumn leaves it, and a check
    on email. *)
Definition withEmail : Table.t :=
  Table.mk "t"
    [column "id" "int" EmptyString true false; column "name" "varchar" "50" false false; email]
    [newUniqueIndex "IDX_t_email" ["email"]]
    []
    [TableUnique.mk "IDX_t_email" ["email"]]
    [TableCheck.mk "CHK_email" ["email"] "email <> ''"]
    [] None.

(** t with the unique column email as addColumn leaves it. *)
Definition withEmailOnly : Table.t :=
  Table.mk "t"
    [column "id" "int" EmptyString true false; column "name" "varchar" "50" false false; email]
    [newUniqueIndex "IDX_t_email" ["email"]]
    []
    [TableUnique.mk "IDX_t_email" ["email"]]
    [] [] None.

(** t(id int primary key auto_increment) *)
Definition counter : Table.t :=
  Table.mk "t"
    [TableColumn.mk "id" "int" EmptyString false false true false true (Some increment) None None None]
    [] [] [] [] [] None.
End Fixture.

(** ** JavaScript string helpers *)

Module Js.
(** [s.indexOf(c) !== -1] for a one-character [c]. *)
Fixpoint includes (c : ascii) (s : string) : bool :=
  match s with
  | EmptyString => false
  | String a s' => Ascii.eqb a c || includes c s'
  end.

(** [s.split(c)] for a one-character separator; the array is never
    empty. *)
Fixpoint split (c : ascii) (s : string) : list string :=
  match s with
  | EmptyString => [EmptyString]
  | String a s' =>
      if Ascii.eqb a c then EmptyString :: split c s'
      else match split c s' with
           | part :: parts => String a part :: parts
           | [] => [String a EmptyString]
           end
  end.

(** [s.lastIndexOf(c)]: position of the last occurrence, or -1. *)
Fixpoint lastIndexOf (c : ascii) (s : string) : Z :=
  match s with
  | EmptyString => (-1)%Z
  | String a s' =>
      let i := lastIndexOf c s' in
      if (0 <=? i)%Z then (i + 1)%Z
      else if Ascii.eqb a c then 0%Z else (-1)%Z
  end.

(** [s.substr(start, length)]: a negative [start] counts from the end; a
    [length] that is not positive gives the empty string. *)
Definition substr (start len : Z) (s : string) : string :=
  let n := Z.of_nat (String.length s) in
  let from := if (start <? 0)%Z then Z.max (n + start) 0 else start in
  if (len <=? 0)%Z then EmptyString
  else String.substring (Z.to_nat from) (Z.to_nat len) s.

(** [s.substring(start, end)]: both ends are clamped to the string and
    swapped when out of order. *)
Definition substring (start end_ : Z) (s : string) : string :=
  let n := Z.of_nat (String.length s) in
  let clamp := fun i => Z.min (Z.max i 0) n in
  let a := Z.min (clamp start) (clamp end_) in
  let b := Z.max (clamp start) (clamp end_) in
  String.substring (Z.to_nat a) (Z.to_nat (b - a)) s.

(** [s.replace(/c/g, by)] for a one-character pattern. *)
Fixpoint replaceAll (c : ascii) (by_ : string) (s : string) : string :=
  match s with
  | EmptyString => EmptyString
  | String a s' =>
      if Ascii.eqb a c then (by_ ++ replaceAll c by_ s')%string
      else String a (replaceAll c by_ s')
  end.
End Js.

(** The characters the templates wrap names and literals in. *)
Definition backtick : string := String (Ascii.ascii_of_nat 96) EmptyString.
Definition dquote : string := String (Ascii.ascii_of_nat 34) EmptyString.
Definition quote : string := String (Ascii.ascii_of_nat 39) EmptyString.
Definition backslash : string := String (Ascii.ascii_of_nat 92) EmptyString.

(** ** MysqlQueryRunner: names, paths and comments *)

Module MysqlText.
Section Text.
Context `{Driver}.

Record ParsedTableName := mkParsed {
  parsedDatabase : option string;
  parsedTableName : option string
}.

(** [parseTableName(target)], on the name of the target.  With a dot in
    the name the two fields are the first two elements of the split (the
    second always exists then); without, the database of the driver and
    the name. *)
Definition parseTableName (tableName : string) : ParsedTableName :=
  let parts := Js.split "." tableName in
  mkParsed
    (if Js.includes "." tableName then parts !! 0%nat else database)
    (if Js.includes "." tableName then parts !! 1%nat else Some tableName).

(** [escapeComment(comment)] *)
Definition escapeComment (comment : option string) : string :=
  match comment with
  | None => (quote ++ quote)%string
  | Some c =>
      if Nat.eqb (String.length c) 0 then (quote ++ quote)%string
      else
        let c1 := Js.replaceAll (Ascii.ascii_of_nat 92) (backslash ++ backslash) c in
        let c2 := Js.replaceAll (Ascii.ascii_of_nat 39) (quote ++ quote) c1 in
        let c3 := Js.replaceAll Ascii.zero EmptyString c2 in
        (quote ++ c3 ++ quote)%string
  end.

(** [escapePath(target, disableEscape)], on the name of the target. *)
Definition escapePath (tableName : string) (disableEscape : bool) : string :=
  join "." (List.map (fun i => if disableEscape then i else (backtick ++ i ++ backtick)%string)
                     (Js.split "." tableName)).
End Text.
End MysqlText.


(** ** PostgresQueryRunner: names, paths and comments *)

Module PostgresText.
(** What the functions read of the driver: [driver.options.schema] and
    [connection.driver.maxAliasLength]. *)
Class Options := {
  schema : option string;
  maxAliasLength : nat
}.

Section Text.
Context `{Options}.

(** [parts[i]] where the array is known to be that long. *)
Definition part (i : nat) (parts : list string) : string :=
  default EmptyString (parts !! i).

(** [extractSchema(target)], on the name of the target. *)
Definition extractSchema (tableName : string) : option string :=
  if negb (Js.includes "." tableName) then schema
  else Js.split "." tableName !! 0%nat.

(** [escapeComment(comment)] *)
Definition escapeComment (comment : option string) : string :=
  match comment with
  | None => "NULL"
  | Some c =>
      if Nat.eqb (String.length c) 0 then "NULL"
      else
        let c1 := Js.replaceAll (Ascii.ascii_of_nat 39) (quote ++ quote) c in
        let c2 := Js.replaceAll Ascii.zero EmptyString c1 in
        (quote ++ c2 ++ quote)%string
  end.

(** [escapePath(target, disableEscape)], on the name of the target. *)
Definition escapePath (target : string) (disableEscape : bool) : string :=
  let tableName :=
    if negb (Js.includes "." target) && truthy_opt schema
    then (default EmptyString schema ++ "." ++ target)%string
    else target in
  join "." (List.map (fun i => if disableEscape then i else (dquote ++ i ++ dquote)%string)
                     (Js.split "." tableName)).

Record ParsedTableName := mkParsed {
  parsedSchema : string;
  parsedTableName : string
}.

(** [parseTableName(target)]: the two fields are SQL expressions, a quoted
    literal or the call [current_schema()]. *)
Definition parseTableName (tableName : string) : ParsedTableName :=
  if negb (Js.includes "." tableName) then
    mkParsed (if truthy_opt schema
              then (quote ++ default EmptyString schema ++ quote)%string
              else "current_schema()")
             (quote ++ tableName ++ quote)%string
  else
    mkParsed (quote ++ part 0 (Js.split "." tableName) ++ quote)%string
             (quote ++ part 1 (Js.split "." tableName) ++ quote)%string.

(** The local [seqName] of buildSequenceName. *)
Definition seqName (tableName columnName : string) : string :=
  let name := (tableName ++ "_" ++ columnName ++ "_seq")%string in
  if Nat.ltb maxAliasLength (String.length name) then
    (Js.substring 0 29 tableName ++ "_"
     ++ Js.substring 0 (Z.max 29 (63 - Z.of_nat (String.length tableName) - 5)) columnName
     ++ "_seq")%string
  else name.

(** [buildSequenceName(table, columnOrName, currentSchema, disableEscape,
    skipSchema)], on the names of the table and the column. *)
Definition buildSequenceName (table columnName : string) (currentSchema : option string)
    (disableEscape skipSchema : bool) : string :=
  let dotted := Js.includes "." table in
  let schemaOfTable := if dotted then Js.split "." table !! 0%nat else None in
  let tableName := if dotted then part 1 (Js.split "." table) else table in
  let name := seqName tableName columnName in
  if truthy_opt schemaOfTable
     && negb (opt_eqb String.eqb schemaOfTable currentSchema)
     && negb skipSchema
  then
    let s := default EmptyString schemaOfTable in
    if disableEscape then (s ++ "." ++ name)%string
    else (dquote ++ s ++ dquote ++ "." ++ dquote ++ name ++ dquote)%string
  else
    if disableEscape then name else (dquote ++ name ++ dquote)%string.
End Text.
End PostgresText.

(** ** SqlServerQueryRunner: names, paths and defaults *)

Module SqlServerText.
(** [driver.options.schema] *)
Class Options := {
  schema : option string
}.

(** [removeParenthesisFromDefault(defaultValue)]: the function calls
    itself on a string that is shorter by the opening parenthesis at
    least. *)
Function removeParenthesisFromDefault (defaultValue : string)
    {measure String.length defaultValue} : string :=
  if negb (String.eqb (Js.substr 0 1 defaultValue) "(") then defaultValue
  else removeParenthesisFromDefault
         (Js.substr 1 (Js.lastIndexOf ")" defaultValue - 1) defaultValue).
Proof.
  intros defaultValue Hopen.
  destruct defaultValue as [| a s]; [discriminate |].
  unfold Js.substr. change (1 <? 0)%Z with false. cbv iota.
  destruct (_ <=? 0)%Z; [cbn; lia |].
  change (Z.to_nat 1) with 1%nat. cbn [String.substring String.length].
  generalize (Z.to_nat (Js.lastIndexOf ")" (String a s) - 1)). intros m.
  assert (Hle : forall t k, String.length (String.substring 0 k t) <= String.length t).
  { induction t as [| b t IH]; intros k.
    - destruct k; cbn; lia.
    - destruct k; cbn; [lia |]. specialize (IH k). lia. }
  specialize (Hle s m). lia.
Defined.

Section Text.
Context `{Driver} `{Options}.

(** [buildForeignKeyName(fkName, schemaName, dbName)] *)
Definition buildForeignKeyName (fkName : string) (schemaName dbName : option string) : string :=
  let joined1 := if truthy_opt schemaName
                 then (default EmptyString schemaName ++ "." ++ fkName)%string else fkName in
  if truthy_opt dbName then (default EmptyString dbName ++ "." ++ joined1)%string else joined1.

(** [escapePath(target, disableEscape)], on the name of the target. *)
Definition escapePath (target : string) (disableEscape : bool) : string :=
  let name :=
    if truthy_opt schema then
      let s := default EmptyString schema in
      if negb (Js.includes "." target) then (s ++ "." ++ target)%string
      else
        match Js.split "." target with
        | [dbName; _; tableName] => (dbName ++ "." ++ s ++ "." ++ tableName)%string
        | _ => target
        end
    else target in
  join "." (List.map (fun i => if String.eqb i EmptyString then i
                               else if disableEscape then i
                               else (dquote ++ i ++ dquote)%string)
                     (Js.split "." name)).

Record ParsedTableName := mkParsed {
  parsedDatabase : option string;
  parsedSchema : string;
  parsedName : string
}.

(** [schema || SCHEMA_NAME()] *)
Definition orSchemaName (s : option string) : string :=
  if truthy_opt s then default EmptyString s else "SCHEMA_NAME()".

(** [parseTableName(target, schema)], on the name of the target. *)
Definition parseTableName (tableName : string) (schemaArg : option string) : ParsedTableName :=
  match Js.split "." tableName with
  | [db; s; n] =>
      mkParsed (Some db) (if String.eqb s EmptyString then orSchemaName schemaArg else s) n
  | [s; n] => mkParsed database s n
  | _ =>
      mkParsed database
               (if truthy_opt schema then default EmptyString schema
                else orSchemaName schemaArg)
               tableName
  end.
End Text.
End SqlServerText.


(** ** String literals

    What a MySQL (or, without the backslash rule, a Postgres) server reads
    when the text is the body of a quoted literal: a quote must be
    followed by a second quote, and with [backslashes] a backslash takes
    the character after it. *)

Module Literal.
Inductive Pending := Nothing | AfterQuote | AfterBackslash.

Fixpoint scan (backslashes : bool) (p : Pending) (body : string) : bool :=
  match body with
  | EmptyString => match p with Nothing => true | _ => false end
  | String a body' =>
      match p with
      | AfterBackslash => scan backslashes Nothing body'
      | AfterQuote => Ascii.eqb a (Ascii.ascii_of_nat 39) && scan backslashes Nothing body'
      | Nothing =>
          if Ascii.eqb a (Ascii.ascii_of_nat 39) then scan backslashes AfterQuote body'
          else if backslashes && Ascii.eqb a (Ascii.ascii_of_nat 92)
               then scan backslashes AfterBackslash body'
               else scan backslashes Nothing body'
      end
  end.

(** The body never ends the literal it is in. *)
Definition staysInside (backslashes : bool) (body : string) : bool :=
  scan backslashes Nothing body.
End Literal.


(** ** ExpoQueryRunner: the transaction methods

    The Expo runner sends no BEGIN, COMMIT or ROLLBACK: it keeps the flag
    and the transaction object the driver hands to [query].  The
    transaction object is kept as whether there is one. *)

Module Expo.
Record Runner := mkRunner {
  isTransactionActive : bool;
  (* typeof this.transaction !== undefined *)
  transaction : bool
}.

Section Session.
Context `{Driver}.

(** [if (result.promises.length > 0) await Promise.all(result.promises)] *)
Definition broadcastThen (ev : BroadcastEvent) (r : Runner)
    (k : Runner -> Completion unit * Runner) : Completion unit * Runner :=
  match broadcast ev with
  | None => k r
  | Some reason => (Throw (Rejected reason), r)
  end.

Definition startTransaction (r : Runner) : Completion unit * Runner :=
  if isTransactionActive r && transaction r then (Throw TransactionAlreadyStartedError, r)
  else
    broadcastThen BeforeTransactionStart r (fun r0 =>
      let r1 := mkRunner true (transaction r0) in
      broadcastThen AfterTransactionStart r1 (fun r2 => (Return tt, r2))).

Definition commitTransaction (r : Runner) : Completion unit * Runner :=
  if negb (isTransactionActive r) && negb (transaction r)
  then (Throw TransactionNotStartedError, r)
  else
    broadcastThen BeforeTransactionCommit r (fun r0 =>
      let r1 := mkRunner false false in
      broadcastThen AfterTransactionCommit r1 (fun r2 => (Return tt, r2))).

Definition rollbackTransaction (r : Runner) : Completion unit * Runner :=
  if negb (isTransactionActive r) && negb (transaction r)
  then (Throw TransactionNotStartedError, r)
  else
    broadcastThen BeforeTransactionRollback r (fun r0 =>
      let r1 := mkRunner false false in
      broadcastThen AfterTransactionRollback r1 (fun r2 => (Return tt, r2))).
End Session.
End Expo.

(** ** PostgresQueryRunner: databases *)

Module PostgresSchema.
Section Schema.
Context `{Driver}.

(** Modelled from the spec: BaseQueryRunner.executeQueries is not part of
    these sources.  Section 4.4: the statements are recorded and all of up
    runs in order through query. *)
Definition executeQueries (upQ downQ : list Query) : M unit :=
  modify (fun r => set_sqlInMemory (upQueries r ++ upQ) (downQueries r ++ downQ) r) ;;
  forEachAwait Postgres.query_ upQ.

Definition hasDatabase (db : string) : M bool :=
  let* result :=
    Postgres.query (Verbatim ("SELECT * FROM pg_database WHERE datname='" ++ db ++ "';")) in
  ret (negb (Nat.eqb (List.length result) 0)).

Definition createDatabaseUp (db : string) : Query :=
  Verbatim ("CREATE DATABASE " ++ dquote ++ db ++ dquote).
Definition createDatabaseDown (db : string) : Query :=
  Verbatim ("DROP DATABASE " ++ dquote ++ db ++ dquote).

(** [createDatabase(database, ifNotExist)] *)
Definition createDatabase (db : string) (ifNotExist : bool) : M unit :=
  let create := executeQueries [createDatabaseUp db] [createDatabaseDown db] in
  if ifNotExist then
    let* databaseAlreadyExists := hasDatabase db in
    if databaseAlreadyExists then ret tt else create
  else create.
End Schema.
End PostgresSchema.

(** ** PostgresQueryRunner: addColumn, dropColumn and the recreating
    changeColumn *)

(** [column.type === enum || column.type === simple-enum] *)
Definition isEnumColumn (column : TableColumn.t) : bool :=
  String.eqb (TableColumn.type column) "enum"
  || String.eqb (TableColumn.type column) "simple-enum".

(** [check.columnNames.length === 1 && check.columnNames[0] === name] *)
Definition isColumnCheck (n : string) (c : TableCheck.t) : bool :=
  match TableCheck.columnNames c with
  | [x] => String.eqb x n
  | _ => false
  end.

(** [unique.columnNames.length === 1 && unique.columnNames[0] === name] *)
Definition isColumnUnique (n : string) (u : TableUnique.t) : bool :=
  match TableUnique.columnNames u with
  | [x] => String.eqb x n
  | _ => false
  end.

(** The blocks that addColumn and dropColumn of the Postgres and of the SQL
    Server runner have word for word in common. *)
Section ConstraintBlocks.
Context `{NamingStrategy}.

(** addColumn, under [if (column.isPrimary)]: the key is dropped when
    there is one, and created again with the new column. *)
Definition addColumn_primaryKey (t : string) (column : TableColumn.t) (p : Plan) : Plan :=
  let primaryColumns := Table.primaryColumns (clonedTable p) in
  let p1 :=
    if Nat.ltb 0 (List.length primaryColumns) then
      let pkName := primaryKeyName (Table.name (clonedTable p))
                                   (List.map TableColumn.name primaryColumns) in
      push (DropConstraint t pkName)
           (AddPrimaryKeyConstraint t pkName (List.map TableColumn.name primaryColumns)) p
    else p in
  let primaryColumns' := primaryColumns ++ [column] in
  let pkName := primaryKeyName (Table.name (clonedTable p1))
                               (List.map TableColumn.name primaryColumns') in
  push (AddPrimaryKeyConstraint t pkName (List.map TableColumn.name primaryColumns'))
       (DropConstraint t pkName) p1.

(** addColumn, under [if (column.isUnique)]. *)
Definition addColumn_unique (t : string) (column : TableColumn.t) (p : Plan) : Plan :=
  let uniqueConstraint :=
    TableUnique.mk (uniqueConstraintName t [TableColumn.name column])
                   [TableColumn.name column] in
  let p1 := edit (fun c => Table.with_uniques (Table.uniques c ++ [uniqueConstraint]) c) p in
  push (AddUniqueConstraint t (TableUnique.name uniqueConstraint) [TableColumn.name column])
       (DropConstraint t (TableUnique.name uniqueConstraint)) p1.

(** dropColumn, under [if (column.isPrimary)]: the key is dropped, the
    column of the clone leaves it, and the key is created again when
    columns are left in it. *)
Definition dropColumn_primaryKey (t : string) (column : TableColumn.t) (p : Plan)
    : Completion Plan :=
  let primaryColumns := Table.primaryColumns (clonedTable p) in
  let pkName := primaryKeyName (Table.name (clonedTable p))
                               (List.map TableColumn.name primaryColumns) in
  let p1 := push (DropConstraint t pkName)
                 (AddPrimaryKeyConstraint t pkName (List.map TableColumn.name primaryColumns))
                 p in
  match MysqlSchema.setPrimaryByName (TableColumn.name column) false p1 with
  | Return p2 =>
      let primaryColumns' := Table.primaryColumns (clonedTable p2) in
      Return
        (if Nat.ltb 0 (List.length primaryColumns') then
           let pkName' := primaryKeyName (Table.name (clonedTable p2))
                                         (List.map TableColumn.name primaryColumns') in
           push (AddPrimaryKeyConstraint t pkName' (List.map TableColumn.name primaryColumns'))
                (DropConstraint t pkName') p2
         else p2)
  | other => other
  end.

(** dropColumn, the blocks [drop column check] and [drop column unique]. *)
Definition dropColumn_check (t : string) (column : TableColumn.t) (p : Plan) : Plan :=
  let checks := Table.checks (clonedTable p) in
  match List.find (isColumnCheck (TableColumn.name column)) checks with
  | Some columnCheck =>
      let i := indexOfFirst (isColumnCheck (TableColumn.name column)) checks in
      push (DropConstraint t (TableCheck.name columnCheck))
           (AddCheckConstraint t (TableCheck.name columnCheck)
              (TableCheck.expression columnCheck))
           (edit (fun c => Table.mk (Table.name c) (Table.columns c) (Table.indices c)
                             (Table.foreignKeys c) (Table.uniques c) (splice1 i checks)
                             (Table.exclusions c) (Table.engine c)) p)
  | None => p
  end.

Definition dropColumn_unique (t : string) (column : TableColumn.t) (p : Plan) : Plan :=
  let uniques := Table.uniques (clonedTable p) in
  match List.find (isColumnUnique (TableColumn.name column)) uniques with
  | Some columnUnique =>
      let i := indexOfFirst (isColumnUnique (TableColumn.name column)) uniques in
      push (DropConstraint t (TableUnique.name columnUnique))
           (AddUniqueConstraint t (TableUnique.name columnUnique)
              (TableUnique.columnNames columnUnique))
           (edit (Table.with_uniques (splice1 i uniques)) p)
  | None => p
  end.
End ConstraintBlocks.

Module PostgresColumns.
Section Columns.
Context `{Driver} `{NamingStrategy}.

(** [hasEnumType(table, column)] *)
Definition hasEnumType (t : string) (column : TableColumn.t) : M bool :=
  let* result := Postgres.query (PgSelectEnumType t column) in
  ret (negb (Nat.eqb (List.length result) 0)).

(** [getCurrentSchema()]: the first row of the reply; with no row the
    property is read of undefined. *)
Definition getCurrentSchema : M string :=
  let* rows := Postgres.query PgSelectCurrentSchema in
  match rows with
  | row :: _ => ret row
  | [] => throw TypeError
  end.

(** [getUserDefinedTypeName(table, column)]: schema and name of the type
    are read off the first row of the reply, which is kept here as it
    is. *)
Definition getUserDefinedTypeName (t : string) (column : TableColumn.t) : M string :=
  let* currentSchema := getCurrentSchema in
  let* result := Postgres.query (PgSelectUdt t currentSchema (TableColumn.name column)) in
  match result with
  | row :: _ => ret row
  | [] => throw TypeError
  end.

(** *** addColumn *)

(** The block under [if (column.type === enum ...)] at the head of
    addColumn. *)
Definition addColumn_enum (t : string) (column : TableColumn.t) (p : Plan) : M Plan :=
  if isEnumColumn column then
    let* hasEnum := hasEnumType t column in
    if negb hasEnum
    then ret (push (PgCreateEnumType t column None) (PgDropEnumType t column None) p)
    else ret p
  else ret p.

(** From the ADD to [executeQueries]. *)
Definition addColumn_plan (t : string) (column : TableColumn.t) (p : Plan) : Plan :=
  let p1 := push (PgAddColumn t column) (DropColumn t (TableColumn.name column)) p in
  let p2 := if TableColumn.isPrimary column then addColumn_primaryKey t column p1 else p1 in
  let p3 :=
    match List.find (isColumnIndex (TableColumn.name column))
                    (Table.indices (clonedTable p2)) with
    | Some columnIndex =>
        push (PgCreateIndex t columnIndex) (PgDropIndex t (TableIndex.name columnIndex)) p2
    | None => p2
    end in
  let p4 := if TableColumn.isUnique column then addColumn_unique t column p3 else p3 in
  if truthy_opt (TableColumn.comment column) then
    let literal := PostgresText.escapeComment (TableColumn.comment column) in
    push (PgCommentOnColumn t (TableColumn.name column) literal)
         (PgCommentOnColumn t (TableColumn.name column) literal) p4
  else p4.

Definition addColumn (tableOrName : nat + string) (column : TableColumn.t) : M unit :=
  let* table := resolveTable tableOrName in
  let* tb := readTable table in
  let t := Table.name tb in
  let* p0 := addColumn_enum t column (mkPlan [] [] (Table.clone tb)) in
  let p := addColumn_plan t column p0 in
  PostgresSchema.executeQueries (up p) (down p) ;;
  replaceCachedTable table (Table.addColumn column (clonedTable p)).

(** *** dropColumn *)

(** From [table.clone()] to the DROP COLUMN. *)
Definition dropColumn_plan (table : Table.t) (column : TableColumn.t) : Completion Plan :=
  let t := Table.name table in
  let p0 := mkPlan [] [] (Table.clone table) in
  let afterPrimary :=
    if TableColumn.isPrimary column then dropColumn_primaryKey t column p0 else Return p0 in
  match afterPrimary with
  | Return p1 =>
      let indices := Table.indices (clonedTable p1) in
      let p2 :=
        match List.find (isColumnIndex (TableColumn.name column)) indices with
        | Some columnIndex =>
            let i := indexOfFirst (isColumnIndex (TableColumn.name column)) indices in
            push (PgDropIndex t (TableIndex.name columnIndex)) (PgCreateIndex t columnIndex)
                 (edit (Table.with_indices (splice1 i indices)) p1)
        | None => p1
        end in
      let p3 := dropColumn_check t column p2 in
      let p4 := dropColumn_unique t column p3 in
      Return (push (DropColumn t (TableColumn.name column)) (PgAddColumn t column) p4)
  | other => other
  end.

(** The block [drop enum type] that follows. *)
Definition dropColumn_enum (t : string) (column : TableColumn.t) (p : Plan) : M Plan :=
  if isEnumColumn column then
    let* hasEnum := hasEnumType t column in
    if hasEnum then
      let* enumType := getUserDefinedTypeName t column in
      ret (push (PgDropEnumType t column (Some enumType))
                (PgCreateEnumType t column (Some enumType)) p)
    else ret p
  else ret p.

Definition dropColumn (tableOrName : nat + string) (columnOrName : TableColumn.t + string)
    : M unit :=
  let* table := resolveTable tableOrName in
  let* tb := readTable table in
  let found :=
    match columnOrName with
    | inl c => Some c
    | inr n => Table.findColumnByName n tb
    end in
  match found with
  | None => throw (TypeORMError "Column was not found in table")
  | Some column =>
      let* p0 := MysqlSchema.lift (dropColumn_plan tb column) in
      let* p := dropColumn_enum (Table.name tb) column p0 in
      PostgresSchema.executeQueries (up p) (down p) ;;
      replaceCachedTable table (Table.removeColumn column (clonedTable p))
  end.

(** *** changeColumn *)

Section ChangeColumn.
(** The else branch of changeColumn, where the column is changed in
    place, together with the executeQueries and replaceCachedTable that
    follow it, is not modelled: it is a parameter, and what is proved of
    changeColumn holds whatever it does. *)
Variable changeInPlace : nat -> Table.t -> TableColumn.t -> TableColumn.t -> M unit.

Definition changeColumn (tableOrName : nat + string)
    (oldTableColumnOrName : TableColumn.t + string) (newColumn : TableColumn.t) : M unit :=
  let* table := resolveTable tableOrName in
  let* tb := readTable table in
  let found :=
    match oldTableColumnOrName with
    | inl c => Some c
    | inr n => Table.findColumnByName n tb
    end in
  match found with
  | None => throw (TypeORMError "Column was not found in the table.")
  | Some oldColumn =>
      if Postgres.mustRecreate oldColumn newColumn then
        dropColumn (inl table) (inl oldColumn) ;;
        addColumn (inl table) newColumn ;;
        let* tb' := readTable table in
        let clonedTable := Table.clone tb' in
        PostgresSchema.executeQueries [] [] ;;
        replaceCachedTable table clonedTable
      else changeInPlace table tb oldColumn newColumn
  end.
End ChangeColumn.
End Columns.
End PostgresColumns.

(** ** SqlServerQueryRunner: addColumn, dropColumn and the recreating
    changeColumn *)

Module SqlServerColumns.
Section Columns.
Context `{Driver} `{NamingStrategy}.

Definition query_ (q : Query) : M unit := SqlServer.query q ;; ret tt.

(** Modelled from the spec: BaseQueryRunner.executeQueries is not part of
    these sources.  Section 4.4: the statements are recorded and all of up
    runs in order through query. *)
Definition executeQueries (upQ downQ : list Query) : M unit :=
  modify (fun r => set_sqlInMemory (upQueries r ++ upQ) (downQueries r ++ downQ) r) ;;
  forEachAwait query_ upQ.

(** Everything addColumn does between [table.clone()] and
    [executeQueries]. *)
Definition addColumn_plan (table : Table.t) (column : TableColumn.t) : Plan :=
  let t := Table.name table in
  let p0 := mkPlan [] [] (Table.clone table) in
  let p1 := push (MssqlAddColumn t column false true)
                 (DropColumn t (TableColumn.name column)) p0 in
  let p2 := if TableColumn.isPrimary column then addColumn_primaryKey t column p1 else p1 in
  let p3 :=
    match List.find (isColumnIndex (TableColumn.name column))
                    (Table.indices (clonedTable p2)) with
    | Some columnIndex =>
        push (MssqlCreateIndex t columnIndex) (MssqlDropIndex t (TableIndex.name columnIndex))
             p2
    | None => p2
    end in
  let p4 := if TableColumn.isUnique column then addColumn_unique t column p3 else p3 in
  match TableColumn.default column with
  | Some _ => pushDown (DropConstraint t (defaultConstraintName t (TableColumn.name column))) p4
  | None => p4
  end.

Definition addColumn (tableOrName : nat + string) (column : TableColumn.t) : M unit :=
  let* table := resolveTable tableOrName in
  let* tb := readTable table in
  let p := addColumn_plan tb column in
  executeQueries (up p) (down p) ;;
  replaceCachedTable table (Table.addColumn column (clonedTable p)).

(** Everything dropColumn does between [table.clone()] and
    [executeQueries]. *)
Definition dropColumn_plan (table : Table.t) (column : TableColumn.t) : Completion Plan :=
  let t := Table.name table in
  let p0 := mkPlan [] [] (Table.clone table) in
  let afterPrimary :=
    if TableColumn.isPrimary column then dropColumn_primaryKey t column p0 else Return p0 in
  match afterPrimary with
  | Return p1 =>
      let indices := Table.indices (clonedTable p1) in
      let p2 :=
        match List.find (isColumnIndex (TableColumn.name column)) indices with
        | Some columnIndex =>
            let i := indexOfFirst (isColumnIndex (TableColumn.name column)) indices in
            push (MssqlDropIndex t (TableIndex.name columnIndex))
                 (MssqlCreateIndex t columnIndex)
                 (edit (Table.with_indices (splice1 i indices)) p1)
        | None => p1
        end in
      let p3 := dropColumn_check t column p2 in
      let p4 := dropColumn_unique t column p3 in
      let p5 :=
        match TableColumn.default column with
        | Some d =>
            let defaultName := defaultConstraintName t (TableColumn.name column) in
            push (DropConstraint t defaultName)
                 (AddDefaultConstraint t defaultName d (TableColumn.name column)) p4
        | None => p4
        end in
      Return (push (DropColumn t (TableColumn.name column))
                   (MssqlAddColumn t column false false) p5)
  | other => other
  end.

Definition dropColumn (tableOrName : nat + string) (columnOrName : TableColumn.t + string)
    : M unit :=
  let* table := resolveTable tableOrName in
  let* tb := readTable table in
  let found :=
    match columnOrName with
    | inl c => Some c
    | inr n => Table.findColumnByName n tb
    end in
  match found with
  | None => throw (TypeORMError "Column was not found in table")
  | Some column =>
      let* p := MysqlSchema.lift (dropColumn_plan tb column) in
      executeQueries (up p) (down p) ;;
      replaceCachedTable table (Table.removeColumn column (clonedTable p))
  end.

Section ChangeColumn.
(** The else branch of changeColumn, where the column is changed in
    place and which ends in its own executeQueries and
    replaceCachedTable, is not modelled: it is a parameter, and what is
    proved of changeColumn holds whatever it does. *)
Variable changeInPlace : nat -> Table.t -> TableColumn.t -> TableColumn.t -> M unit.

(** In the recreating branch nothing follows the two calls: the clone
    made after them is not used. *)
Definition changeColumn (tableOrName : nat + string)
    (oldTableColumnOrName : TableColumn.t + string) (newColumn : TableColumn.t) : M unit :=
  let* table := resolveTable tableOrName in
  let* tb := readTable table in
  let found :=
    match oldTableColumnOrName with
    | inl c => Some c
    | inr n => Table.findColumnByName n tb
    end in
  match found with
  | None => throw (TypeORMError "Column was not found in the table.")
  | Some oldColumn =>
      if SqlServer.mustRecreate oldColumn newColumn then
        dropColumn (inl table) (inl oldColumn) ;;
        addColumn (inl table) newColumn
      else changeInPlace table tb oldColumn newColumn
  end.
End ChangeColumn.
End Columns.
End SqlServerColumns.

(** ** Further fixtures *)

Module Sample.
(** A database on which START TRANSACTION, the begin of the SQL Server
    driver and COMMIT fail. *)
Definition refusing : Driver := {|
  obtainMasterConnection := None;
  answer := fun _ q =>
    match q with
    | StartTransaction => Failure "too many connections"
    | MssqlBegin _ => Failure "too many connections"
    | Commit => Failure "deadlock"
    | MssqlCommit => Failure "deadlock"
    | _ => Rows []
    end;
  database := Some "test";
  isConnected := true;
  broadcast := fun _ => None
|}.

(** What [populated] answers, whatever came before. *)
Definition populatedReply (q : Query) : list string :=
  match q with
  | SelectSchemata _ => ["test"]
  | SelectViewDrops _ => ["DROP VIEW v"]
  | SelectTableDrops _ => ["DROP TABLE a"; "DROP TABLE b"]
  | PgSelectViewDrops _ => ["DROP VIEW v"]
  | PgSelectMatViewDrops _ => ["DROP MATERIALIZED VIEW m"]
  | PgSelectTableDrops _ => ["DROP TABLE a"; "DROP TABLE b"]
  | PgSelectEnumDrops _ => ["DROP TYPE e"]
  | Verbatim "SELECT * FROM pg_database WHERE datname='test';" => ["test"]
  | _ => []
  end.

(** A database [test] holding views, tables and an enum type, which
    accepts every statement. *)
Definition populated : Driver := {|
  obtainMasterConnection := None;
  answer := fun _ q => Rows (populatedReply q);
  database := Some "test";
  isConnected := true;
  broadcast := fun _ => None
|}.

(** A database on which no column can be added. *)
Definition readOnly : Driver := {|
  obtainMasterConnection := None;
  answer := fun _ q =>
    match q with
    | AlterAdd _ _ => Failure "read only"
    | _ => Rows []
    end;
  database := Some "test";
  isConnected := true;
  broadcast := fun _ => None
|}.

(** A runner with no table loaded. *)
Definition fresh : QueryRunner := mkRunner false false false [] [] [] [] [].
End Sample.

(** ** The runner after a statement

    The runner of the MySQL and Postgres sessions once a statement has
    been handed to the connection: the connection is held and the
    statement is the last on the wire. *)
Definition afterSend (q : Query) (r : QueryRunner) : QueryRunner :=
  set_wire (wire r ++ [q]) (set_databaseConnection true r).

(** The runner after a list of statements, sent in order. *)
Definition afterSendAll (qs : list Query) (r : QueryRunner) : QueryRunner :=
  fold_left (fun r' q => afterSend q r') qs r.

(** ** PostgresQueryRunner.clearDatabase: the schemas it clears *)

Module PostgresClear.
Section Schemas.
Context `{PostgresText.Options}.

(** The [filter] and [forEach] over [connection.entityMetadatas]: the
    schemas of the metadata that have one, each once, in the order of
    their first occurrence. *)
Fixpoint collect (metadataSchemas : list (option string)) (schemas : list string)
    : list string :=
  match metadataSchemas with
  | [] => schemas
  | m :: rest =>
      if truthy_opt m then
        let s := default EmptyString m in
        let isSchemaExist := existsb (fun schema => String.eqb schema s) schemas in
        collect rest (if negb isSchemaExist then schemas ++ [s] else schemas)
      else collect rest schemas
  end.

(** The array [schemas] after the push of the default schema. *)
Definition schemas (metadataSchemas : list (option string)) : list string :=
  collect metadataSchemas []
  ++ [if truthy_opt PostgresText.schema then default EmptyString PostgresText.schema
      else "current_schema()"].

Definition schemaNamesString (metadataSchemas : list (option string)) : string :=
  join ", " (List.map (fun name => if String.eqb name "current_schema()" then name
                                   else (quote ++ name ++ quote)%string)
                      (schemas metadataSchemas)).
End Schemas.
End PostgresClear.

(** ** A SQL Server session used one query at a time *)

Section OneAtATime.
Context `{Driver}.

(** What the caller of [query(q)] gets for a reply of the driver. *)
Definition completionOf (q : Query) (reply : Reply) : Completion (list string) :=
  match reply with
  | Rows raw => Return raw
  | Failure err => Throw (QueryFailedError q err)
  end.

(** The calls of a session on which each query was answered before the
    next was made, after the statements [history]. *)
Fixpoint finished (history : list Query) (qs : list Query) : list Chain.Call :=
  match qs with
  | [] => []
  | q :: rest =>
      Chain.mkCall q (Chain.Finished (completionOf q (answer history q)))
      :: finished (history ++ [q]) rest
  end.
End OneAtATime.

(** * Proof automation *)

(** Case analysis on the guards of a plan, innermost scrutinee first, until
    the equation [Hplan] is between two completions. *)
Ltac plan_cases Hplan :=
  repeat (match type of Hplan with
          | context [match ?x with _ => _ end] =>
              lazymatch x with
              | context [match _ with _ => _ end] => fail
              | _ => let E := fresh "E" in destruct x eqn:E
              end
          end; try discriminate Hplan).

(** * Properties *)

(** ** The session: release, transactions, clearDatabase *)

Section SessionFacts.
Context `{Driver}.

Lemma mysql_connect_flags (r r' : QueryRunner) (c : Completion unit) :
  Mysql.connect r = (c, r') ->
  isReleased r' = isReleased r /\ isTransactionActive r' = isTransactionActive r
  /\ wire r' = wire r /\ c <> Pending.
Proof.
  unfold Mysql.connect. destruct (databaseConnection r).
  - intros [= <- <-]. repeat split; discriminate.
  - destruct obtainMasterConnection; intros [= <- <-]; repeat split; discriminate.
Qed.

Lemma mysql_query_flags (q : Query) (r r' : QueryRunner) (c : Completion (list string)) :
  Mysql.query q r = (c, r') ->
  isReleased r' = isReleased r /\ isTransactionActive r' = isTransactionActive r
  /\ c <> Pending.
Proof.
  unfold Mysql.query. destruct (isReleased r) eqn:Hrel.
  - intros [= <- <-]. repeat split; [done | discriminate].
  - destruct (Mysql.connect r) as [c0 r1] eqn:Hc.
    apply mysql_connect_flags in Hc as (Hr & Ha & Hw & Hp).
    destruct c0 as [[]|e|]; [| | done].
    + destruct (answer (wire r1) q); intros [= <- <-]; cbn;
        repeat split; try congruence; discriminate.
    + intros [= <- <-]. repeat split; try congruence; discriminate.
Qed.

Lemma mysql_query__flags (q : Query) (r r' : QueryRunner) (c : Completion unit) :
  Mysql.query_ q r = (c, r') ->
  isReleased r' = isReleased r /\ isTransactionActive r' = isTransactionActive r
  /\ c <> Pending.
Proof.
  unfold Mysql.query_, bind, ret.
  destruct (Mysql.query q r) as [c0 r1] eqn:Hq.
  apply mysql_query_flags in Hq as (Hr & Ha & Hp).
  destruct c0; [| | done]; intros [= <- <-]; repeat split; congruence || discriminate.
Qed.
End SessionFacts.

Section Transactions.
Context `{Driver}.

Lemma broadcastEvent_inv (ev : BroadcastEvent) (r r' : QueryRunner) (c : Completion unit) :
  broadcastEvent ev r = (c, r') -> r' = r /\ c <> Pending.
Proof.
  unfold broadcastEvent. destruct (broadcast ev); intros [= <- <-]; split; done.
Qed.

Lemma mysql_start_active (lvl : option string) (r : QueryRunner) :
  isTransactionActive r = true ->
  Mysql.startTransaction lvl r = (Throw TransactionAlreadyStartedError, r).
Proof. intros Ha. unfold Mysql.startTransaction, bind, gets. by rewrite Ha. Qed.











End Transactions.

Section PostgresTransactions.
Context `{Driver}.

Lemma postgres_start_active (lvl : option string) (r : QueryRunner) :
  isTransactionActive r = true ->
  Postgres.startTransaction lvl r = (Throw TransactionAlreadyStartedError, r).
Proof. intros Ha. unfold Postgres.startTransaction, bind, gets. by rewrite Ha. Qed.

End PostgresTransactions.

Section ClearDatabase.
Context `{Driver}.

Lemma postgres_query_is_mysql_query (q : Query) : Postgres.query q = Mysql.query q.
Proof. reflexivity. Qed.

Lemma postgres_commit_is_mysql_commit : Postgres.commitTransaction = Mysql.commitTransaction.
Proof. reflexivity. Qed.

Lemma postgres_rollback_is_mysql_rollback :
  Postgres.rollbackTransaction = Mysql.rollbackTransaction.
Proof. reflexivity. Qed.

Lemma mysql_rollback_settles (r : QueryRunner) :
  fst (Mysql.rollbackTransaction r) <> Pending.
Proof.
  unfold Mysql.rollbackTransaction, bind, gets, modify.
  destruct (isTransactionActive r); cbn; [| discriminate].
  destruct (broadcastEvent BeforeTransactionRollback r) as [c0 r0] eqn:Hb.
  apply broadcastEvent_inv in Hb as [-> Hp].
  destruct c0; [| discriminate | done].
  destruct (Mysql.query_ Rollback r) as [c1 r2] eqn:Hq1.
  apply mysql_query__flags in Hq1 as (_ & _ & Hp1).
  destruct c1; [| discriminate | done].
  destruct (broadcastEvent AfterTransactionRollback _) as [c3 r3] eqn:Hb3.
  apply broadcastEvent_inv in Hb3 as [-> Hp3]. exact Hp3.
Qed.

(** The catch block: whatever the rollback does, the error it was given
    is the one thrown, and the runner is the one the rollback left. *)
Lemma mysql_catch_rethrows (error : Error) (r : QueryRunner) :
  Mysql.clearDatabase_catch error r = (Throw error, snd (Mysql.rollbackTransaction r)).
Proof.
  unfold Mysql.clearDatabase_catch, bind, try_catch, throw, ret.
  pose proof (mysql_rollback_settles r) as Hp.
  destruct (Mysql.rollbackTransaction r) as [[[]|e|] r']; cbn in *; done.
Qed.

Lemma postgres_catch_rethrows (error : Error) (r : QueryRunner) :
  Postgres.clearDatabase_catch error r
  = (Throw error, snd (Postgres.rollbackTransaction r)).
Proof. apply mysql_catch_rethrows. Qed.

(** A property of the runner that every step keeps is kept by a bind, by
    Promise.all over the steps and by a try with a handler that keeps
    it. *)
Lemma bind_keeps {A B} (P : QueryRunner -> Prop) (m : M A) (k : A -> M B) :
  (forall r c r', m r = (c, r') -> P r -> P r') ->
  (forall a r c r', k a r = (c, r') -> P r -> P r') ->
  forall r c r', bind m k r = (c, r') -> P r -> P r'.
Proof.
  intros Hm Hk r c r'. unfold bind.
  destruct (m r) as [[a|e|] r1] eqn:Hrun.
  - intros Hrest Hp. exact (Hk a r1 c r' Hrest (Hm _ _ _ Hrun Hp)).
  - intros [= <- <-] Hp. exact (Hm _ _ _ Hrun Hp).
  - intros [= <- <-] Hp. exact (Hm _ _ _ Hrun Hp).
Qed.

Lemma promiseAll_keeps {A} (P : QueryRunner -> Prop) (f : A -> M unit) (xs : list A) :
  (forall x r c r', f x r = (c, r') -> P r -> P r') ->
  forall r c r', promiseAll f xs r = (c, r') -> P r -> P r'.
Proof.
  intros Hf. induction xs as [|x xs IH]; intros r c r'.
  - intros [= <- <-]. done.
  - cbn [promiseAll].
    destruct (f x r) as [[[]|e|] r1] eqn:Hx.
    + intros Hrest Hp. exact (IH _ _ _ Hrest (Hf _ _ _ _ Hx Hp)).
    + destruct (promiseAll f xs r1) as [c2 r2] eqn:Hrest.
      intros [= <- <-] Hp. exact (IH _ _ _ Hrest (Hf _ _ _ _ Hx Hp)).
    + destruct (promiseAll f xs r1) as [c2 r2] eqn:Hrest.
      intros Heq Hp.
      assert (r' = r2) as -> by (destruct c2; by injection Heq).
      exact (IH _ _ _ Hrest (Hf _ _ _ _ Hx Hp)).
Qed.

Ltac keeps :=
  apply (bind_keeps (fun s => isReleased s = false /\ databaseConnection s = true)).

(** A live session with a connection stays one through every query. *)
Lemma mysql_query_keeps (q : Query) (r r' : QueryRunner) (c : Completion (list string)) :
  Mysql.query q r = (c, r') ->
  isReleased r = false /\ databaseConnection r = true ->
  isReleased r' = false /\ databaseConnection r' = true.
Proof.
  unfold Mysql.query, Mysql.connect. intros Hrun [Hr Hc]. rewrite Hr, Hc in Hrun.
  destruct (answer (wire r) q); injection Hrun as <- <-; by split.
Qed.

Lemma mysql_query__keeps (q : Query) (r r' : QueryRunner) (c : Completion unit) :
  Mysql.query_ q r = (c, r') ->
  isReleased r = false /\ databaseConnection r = true ->
  isReleased r' = false /\ databaseConnection r' = true.
Proof.
  unfold Mysql.query_. keeps.
  - intros ? ? ?. apply mysql_query_keeps.
  - intros _ ? ? ? [= <- <-]. done.
Qed.

(** A query that returns was sent: the session is live and connected. *)
Lemma mysql_query__returns (q : Query) (r r' : QueryRunner) :
  Mysql.query_ q r = (Return tt, r') ->
  isReleased r' = false /\ databaseConnection r' = true.
Proof.
  unfold Mysql.query_, bind, ret, Mysql.query, Mysql.connect.
  destruct (isReleased r) eqn:Hr; [discriminate |].
  destruct (databaseConnection r) eqn:Hc.
  - destruct (answer (wire r) q); [| discriminate]. intros [= <-]. by split.
  - destruct obtainMasterConnection; [discriminate |]. cbn.
    destruct (answer (wire r) q); [| discriminate]. intros [= <-]. by split.
Qed.

Lemma mysql_start_connected (lvl : option string) (r r' : QueryRunner) :
  Mysql.startTransaction lvl r = (Return tt, r') ->
  isReleased r' = false /\ databaseConnection r' = true.
Proof.
  unfold Mysql.startTransaction, bind, gets, modify.
  destruct (isTransactionActive r); [discriminate |].
  destruct (broadcastEvent BeforeTransactionStart r) as [c0 r0] eqn:Hb.
  apply broadcastEvent_inv in Hb as [-> _].
  destruct c0; [| discriminate | discriminate].
  set (r1 := set_isTransactionActive true r).
  destruct (truthy_opt lvl).
  - destruct (Mysql.query_ _ r1) as [[[]| |] r2] eqn:Hq1; [| discriminate | discriminate].
    destruct (Mysql.query_ StartTransaction r2) as [[[]| |] r3] eqn:Hq2;
      [| discriminate | discriminate].
    intros Hb. apply broadcastEvent_inv in Hb as [-> _].
    exact (mysql_query__returns _ _ _ Hq2).
  - destruct (Mysql.query_ StartTransaction r1) as [[[]| |] r2] eqn:Hq1;
      [| discriminate | discriminate].
    intros Hb. apply broadcastEvent_inv in Hb as [-> _].
    exact (mysql_query__returns _ _ _ Hq1).
Qed.

Lemma postgres_start_connected (lvl : option string) (r r' : QueryRunner) :
  Postgres.startTransaction lvl r = (Return tt, r') ->
  isReleased r' = false /\ databaseConnection r' = true.
Proof.
  unfold Postgres.startTransaction, bind, gets, modify.
  destruct (isTransactionActive r); [discriminate |].
  destruct (broadcastEvent BeforeTransactionStart r) as [c0 r0] eqn:Hb.
  apply broadcastEvent_inv in Hb as [-> _].
  destruct c0; [| discriminate | discriminate].
  set (r1 := set_isTransactionActive true r).
  destruct (Postgres.query_ StartTransaction r1) as [[[]| |] r2] eqn:Hq1;
    [| discriminate | discriminate].
  apply (mysql_query__returns StartTransaction) in Hq1.
  destruct (truthy_opt lvl).
  - destruct (Postgres.query_ _ r2) as [[[]| |] r3] eqn:Hq2; [| discriminate | discriminate].
    intros Hb. apply broadcastEvent_inv in Hb as [-> _].
    exact (mysql_query__keeps _ _ _ _ Hq2 Hq1).
  - cbn. intros Hb. apply broadcastEvent_inv in Hb as [-> _]. exact Hq1.
Qed.

Lemma mysql_commit_keeps (r r' : QueryRunner) (c : Completion unit) :
  Mysql.commitTransaction r = (c, r') ->
  isReleased r = false /\ databaseConnection r = true ->
  isReleased r' = false /\ databaseConnection r' = true.
Proof.
  unfold Mysql.commitTransaction. keeps.
  - intros ? ? ? [= <- <-]. done.
  - intros active. destruct (negb active).
    + intros ? ? ? [= <- <-]. done.
    + keeps.
      * intros ? ? ? Hb. apply broadcastEvent_inv in Hb as [-> _]. done.
      * intros _. keeps; [intros ? ? ?; apply mysql_query__keeps |].
        intros _. keeps; [intros ? ? ? [= <- <-]; done |].
        intros _ ? ? ? Hb. apply broadcastEvent_inv in Hb as [-> _]. done.
Qed.

Lemma drops_keep (qs : list string) (r r' : QueryRunner) (c : Completion unit) :
  promiseAll (fun q => Mysql.query_ (Verbatim q)) qs r = (c, r') ->
  isReleased r = false /\ databaseConnection r = true ->
  isReleased r' = false /\ databaseConnection r' = true.
Proof.
  apply (promiseAll_keeps (fun r => isReleased r = false /\ databaseConnection r = true)).
  intros ? ? ? ?. apply mysql_query__keeps.
Qed.

Lemma mysql_try_keeps (name : string) (r r' : QueryRunner) (c : Completion unit) :
  Mysql.clearDatabase_try name r = (c, r') ->
  isReleased r = false /\ databaseConnection r = true ->
  isReleased r' = false /\ databaseConnection r' = true.
Proof.
  unfold Mysql.clearDatabase_try.
  keeps; [intros ? ? ?; apply mysql_query_keeps |]. intros views.
  keeps; [intros ? ? ?; apply drops_keep |]. intros _.
  keeps; [intros ? ? ?; apply mysql_query__keeps |]. intros _.
  keeps; [intros ? ? ?; apply mysql_query_keeps |]. intros drops.
  keeps; [intros ? ? ?; apply drops_keep |]. intros _.
  keeps; [intros ? ? ?; apply mysql_query__keeps |]. intros _.
  intros ? ? ?. apply mysql_commit_keeps.
Qed.

Lemma postgres_try_keeps (schemas : string) (r r' : QueryRunner) (c : Completion unit) :
  Postgres.clearDatabase_try schemas r = (c, r') ->
  isReleased r = false /\ databaseConnection r = true ->
  isReleased r' = false /\ databaseConnection r' = true.
Proof.
  unfold Postgres.clearDatabase_try, Postgres.dropEnumTypes.
  keeps; [intros ? ? ?; apply mysql_query_keeps |]. intros views.
  keeps; [intros ? ? ?; apply drops_keep |]. intros _.
  keeps; [intros ? ? ?; apply mysql_query_keeps |]. intros matViews.
  keeps; [intros ? ? ?; apply drops_keep |]. intros _.
  keeps; [intros ? ? ?; apply mysql_query_keeps |]. intros drops.
  keeps; [intros ? ? ?; apply drops_keep |]. intros _.
  keeps.
  - keeps; [intros ? ? ?; apply mysql_query_keeps |]. intros enums.
    intros ? ? ?; apply drops_keep.
  - intros _ ? ? ?. apply mysql_commit_keeps.
Qed.

(** What the rollback of the catch block does to a live, connected session.
    With the transaction still open and no subscriber objecting, ROLLBACK
    is the one statement it puts on the wire, and the flag goes down when
    the database accepts it and stays up when it refuses.  With the
    transaction already closed, or a subscriber objecting, the rollback
    throws before any statement and the runner is as it was. *)
Lemma mysql_rollback_attempt (r : QueryRunner) :
  isReleased r = false /\ databaseConnection r = true ->
  let r' := snd (Mysql.rollbackTransaction r) in
  (isTransactionActive r = true -> broadcast BeforeTransactionRollback = None ->
     wire r' = wire r ++ [Rollback]
     /\ isTransactionActive r'
        = match answer (wire r) Rollback with Rows _ => false | Failure _ => true end)
  /\ (isTransactionActive r = false \/ broadcast BeforeTransactionRollback <> None ->
      r' = r).
Proof.
  intros [Hr Hc]. split.
  - intros Ha Hb.
    cbv [Mysql.rollbackTransaction bind gets modify broadcastEvent
         Mysql.query_ Mysql.query Mysql.connect ret throw].
    rewrite Ha. cbn. rewrite Hb, Hr, Hc.
    destruct (answer (wire r) Rollback); cbn; [| by rewrite Ha].
    destruct (broadcast AfterTransactionRollback); by split.
  - intros Hcase.
    cbv [Mysql.rollbackTransaction bind gets modify broadcastEvent throw ret].
    destruct (isTransactionActive r) eqn:Ha; cbn; [| reflexivity].
    destruct Hcase as [? | Hb]; [done |].
    destruct (broadcast BeforeTransactionRollback); [reflexivity | done].
Qed.
End ClearDatabase.

(** C2. In clearDatabase, when startTransaction has returned and a later
    step of the try block throws [e], the caller gets [e], the original
    error, whatever the rollback of the catch block does.  The rollback is
    attempted on the runner [r2] the failure left: when the transaction is
    still open there and no subscriber objects, ROLLBACK is the one
    statement put on the wire after those of the try block, and the flag
    follows the answer of the database (a refused ROLLBACK is swallowed);
    when the failing step was the commit's own bookkeeping, so the
    transaction is closed already, or a subscriber objects, the rollback
    throws before any statement, that error is swallowed, and the runner
    stays [r2].  MySQL runner for a database given by the argument or, when
    the argument is missing or empty, by the driver; Postgres runner. *)
Theorem clearDatabase_rethrows_original_error `{Driver} (e : Error)
    (db : option string) (name schemas : string) (r r0 r1 r2 : QueryRunner) :
  ((if truthy_opt db then db else database) = Some name ->
   truthy name = true ->
   Mysql.hasDatabase name r = (Return true, r0) ->
   Mysql.startTransaction None r0 = (Return tt, r1) ->
   Mysql.clearDatabase_try name r1 = (Throw e, r2) ->
   exists r3,
     Mysql.clearDatabase db r = (Throw e, r3)
     /\ (isTransactionActive r2 = true -> broadcast BeforeTransactionRollback = None ->
         wire r3 = wire r2 ++ [Rollback]
         /\ isTransactionActive r3
            = match answer (wire r2) Rollback with Rows _ => false | Failure _ => true end)
     /\ (isTransactionActive r2 = false \/ broadcast BeforeTransactionRollback <> None ->
         r3 = r2))
  /\ (Postgres.startTransaction None r = (Return tt, r1) ->
      Postgres.clearDatabase_try schemas r1 = (Throw e, r2) ->
      exists r3,
        Postgres.clearDatabase schemas r = (Throw e, r3)
        /\ (isTransactionActive r2 = true -> broadcast BeforeTransactionRollback = None ->
            wire r3 = wire r2 ++ [Rollback]
            /\ isTransactionActive r3
               = match answer (wire r2) Rollback with Rows _ => false | Failure _ => true end)
        /\ (isTransactionActive r2 = false \/ broadcast BeforeTransactionRollback <> None ->
            r3 = r2)).
Proof.
  split.
  - intros Hname Hdb Hhas Hstart Htry.
    exists (snd (Mysql.rollbackTransaction r2)). split.
    + unfold Mysql.clearDatabase. rewrite Hname.
      cbv [truthy_opt default from_option id]. rewrite Hdb.
      unfold bind at 1. rewrite Hhas. cbn [negb].
      unfold bind at 1. rewrite Hstart.
      unfold try_catch. rewrite Htry. apply mysql_catch_rethrows.
    + apply mysql_rollback_attempt.
      apply (mysql_try_keeps _ _ _ _ Htry), (mysql_start_connected _ _ _ Hstart).
  - intros Hstart Htry.
    exists (snd (Postgres.rollbackTransaction r2)). split.
    + unfold Postgres.clearDatabase.
      unfold bind at 1. rewrite Hstart.
      unfold try_catch. rewrite Htry. apply postgres_catch_rethrows.
    + apply mysql_rollback_attempt.
      apply (postgres_try_keeps _ _ _ _ Htry), (postgres_start_connected _ _ _ Hstart).
Qed.

(** On a database where dropping a table fails and ROLLBACK fails too, the
    caller of clearDatabase sees the failure of the drop, on the database
    the driver names and on the Postgres schemas alike; every drop and then
    ROLLBACK went to the connection, and the transaction stays open. *)
Lemma clearDatabase_rethrows_original_error_witness :
  let H := Fixture.failingDrop in
  let r := Fixture.runnerWith Fixture.t0 in
  let failure := QueryFailedError (Verbatim "DROP TABLE a") "permission denied" in
  fst (Mysql.clearDatabase None r) = Throw failure
  /\ wire (snd (Mysql.clearDatabase None r))
     = [SelectSchemata "test"; StartTransaction; SelectViewDrops "test";
        Verbatim "DROP VIEW v"; SetForeignKeyChecks false; SelectTableDrops "test";
        Verbatim "DROP TABLE a"; Verbatim "DROP TABLE b"; Rollback]
  /\ isTransactionActive (snd (Mysql.clearDatabase None r)) = true
  /\ fst (Postgres.clearDatabase "'public'" r) = Throw failure
  /\ wire (snd (Postgres.clearDatabase "'public'" r))
     = [StartTransaction; PgSelectViewDrops "'public'";
        PgSelectMatViewDrops "'public'"; PgSelectTableDrops "'public'";
        Verbatim "DROP TABLE a"; Verbatim "DROP TABLE b"; Rollback].
Proof.
  intros H r failure.
  set (r0 := snd (Mysql.hasDatabase "test" r)).
  set (r1 := snd (Mysql.startTransaction None r0)).
  set (r2 := snd (Mysql.clearDatabase_try "test" r1)).
  set (r3 := snd (Postgres.startTransaction None r)).
  set (r4 := snd (Postgres.clearDatabase_try "'public'" r3)).
  destruct (clearDatabase_rethrows_original_error failure None "test" "x" r r0 r1 r2)
    as [Hmysql _].
  destruct (clearDatabase_rethrows_original_error failure None "x" "'public'" r r r3 r4)
    as [_ Hpg].
  destruct Hmysql as (m & Hm & Hsent & _); try (vm_compute; reflexivity).
  destruct Hpg as (p & Hp & Hpsent & _); try (vm_compute; reflexivity).
  destruct Hsent as [Hwire Hflag]; try (vm_compute; reflexivity).
  destruct Hpsent as [Hpwire _]; try (vm_compute; reflexivity).
  rewrite Hm, Hp. cbn [fst snd]. rewrite Hwire, Hflag, Hpwire.
  repeat split; vm_compute; reflexivity.
Defined.

(** C3. On every runner, [query] on a session whose released flag is set
    throws QueryRunnerAlreadyReleasedError and leaves the runner as it was:
    nothing is handed to the connection, whether or not a connection was
    ever obtained.  For the runners whose [release] is in these sources the
    session is the one [release] leaves; for the SQLite family and the
    queue of the SQL Server runner it is any session with the flag set. *)
Theorem query_after_release_fails `{Driver} (q : Query) (r : QueryRunner)
    (chain : list Chain.PromiseId) (settled : list (Chain.PromiseId * option Error))
    (calls : list Chain.Call) (received : list Query) :
  let released := set_isReleased true r in
  let session := Chain.mkSession true chain settled calls received in
  Mysql.query q (snd (Mysql.release r))
    = (Throw QueryRunnerAlreadyReleasedError, snd (Mysql.release r))
  /\ Postgres.query q (snd (Postgres.release r))
    = (Throw QueryRunnerAlreadyReleasedError, snd (Postgres.release r))
  /\ SqlServer.query q (snd (SqlServer.release r))
    = (Throw QueryRunnerAlreadyReleasedError, snd (SqlServer.release r))
  /\ Sqlite.query q released = (Throw QueryRunnerAlreadyReleasedError, released)
  /\ Sqljs.query q released = (Throw QueryRunnerAlreadyReleasedError, released)
  /\ Nativescript.query q released = (Throw QueryRunnerAlreadyReleasedError, released)
  /\ Chain.received (Chain.submit q session) = received
  /\ Chain.outcome (List.length calls) (Chain.submit q session)
     = Some (Throw QueryRunnerAlreadyReleasedError).
Proof.
  intros released session.
  split; [reflexivity |].
  split.
  { unfold Postgres.release.
    destruct (isReleased r) eqn:Hr; cbn; [| reflexivity].
    unfold Postgres.query. by rewrite Hr. }
  do 5 (split; [reflexivity |]).
  unfold Chain.outcome, Chain.submit. cbn.
  rewrite lookup_app_r by reflexivity. by rewrite Nat.sub_diag.
Qed.

(** C9. On the MySQL runner createUniqueConstraint and dropUniqueConstraint
    throw for every input, and leave the runner as it was: no statement is
    recorded or sent. *)
Theorem unique_constraint_entry_points_unsupported `{Driver}
    (tableOrName : nat + string) (uniqueConstraint : TableUnique.t)
    (uniqueOrName : TableUnique.t + string) (r : QueryRunner) :
  Mysql.createUniqueConstraint tableOrName uniqueConstraint r
    = (Throw (TypeORMError
                "MySql does not support unique constraints. Use unique index instead."), r)
  /\ Mysql.dropUniqueConstraint tableOrName uniqueOrName r
    = (Throw (TypeORMError
                "MySql does not support unique constraints. Use unique index instead."), r).
Proof. split; reflexivity. Qed.



(** ** The queue of the SQL Server runner *)

Section ChainFacts.
Context `{Driver}.

(** With the first query in flight, the second is queued behind it and
    its statement is not with the driver yet. *)
Lemma second_query_waits (q1 q2 : Query) :
  obtainMasterConnection = None ->
  let s := Chain.run [Chain.Submit q1; Chain.Submit q2] Chain.start in
  Chain.received s = [q1]
  /\ Chain.queryResponsibilityChain s = [Chain.promise 0; Chain.waitingPromise 1]
  /\ Chain.phase <$> Chain.calls s
     = [Chain.InFlight (answer [] q1); Chain.Awaiting [Chain.promise 0]].
Proof.
  intros Hpool. cbn. unfold Chain.issue. rewrite Hpool. cbn.
  unfold Chain.drain, Chain.resume. cbn. repeat split.
Qed.

(** When the first query succeeds the second one is issued after it. *)
Lemma second_query_follows (q1 q2 : Query) (rows : list string) :
  obtainMasterConnection = None ->
  answer [] q1 = Rows rows ->
  let s := Chain.run [Chain.Submit q1; Chain.Submit q2; Chain.Callback] Chain.start in
  Chain.received s = [q1; q2]
  /\ Chain.outcome 0 s = Some (Return rows).
Proof.
  intros Hpool Hanswer. cbn. unfold Chain.issue. rewrite Hpool. cbn.
  unfold Chain.drain, Chain.resume. cbn.
  unfold Chain.callback. cbn. rewrite Hanswer. cbn.
  unfold Chain.issue. rewrite Hpool. cbn. split; reflexivity.
Qed.

(** Once no request is in flight a callback changes nothing. *)
Lemma callback_idle (s : Chain.Session) :
  indexOfFirst Chain.isInFlight (Chain.calls s) = (-1)%Z ->
  Chain.callback s = s.
Proof. intros Hidle. unfold Chain.callback. by rewrite Hidle. Qed.

Lemma callbacks_idle (n : nat) (s : Chain.Session) :
  indexOfFirst Chain.isInFlight (Chain.calls s) = (-1)%Z ->
  Chain.run (replicate n Chain.Callback) s = s.
Proof.
  intros Hidle. induction n as [| n IH]; [reflexivity |].
  cbn. rewrite callback_idle by exact Hidle. exact IH.
Qed.
End ChainFacts.

(** C5, where the code departs from it.  Two queries are submitted one
    after the other on one SQL Server session and the statement of the
    first fails in the driver.  The second call was awaiting the promise of
    the first; that promise rejects, so the second call is thrown out of
    its await with the error of the first: its statement never reaches the
    driver, however many callbacks follow. *)
Theorem failed_query_cancels_queued_sibling `{Driver} (q1 q2 : Query) (err : string)
    (n : nat) :
  obtainMasterConnection = None ->
  answer [] q1 = Failure err ->
  let s := Chain.run [Chain.Submit q1; Chain.Submit q2; Chain.Callback] Chain.start in
  Chain.outcome 0 s = Some (Throw (QueryFailedError q1 err))
  /\ Chain.outcome 1 s = Some (Throw (QueryFailedError q1 err))
  /\ Chain.received (Chain.run (replicate n Chain.Callback) s) = [q1].
Proof.
  intros Hpool Hanswer s.
  assert (Hs : s = Chain.mkSession false [Chain.waitingPromise 1]
                 [(Chain.waitingPromise 0, None);
                  (Chain.promise 0, Some (QueryFailedError q1 err))]
                 [Chain.mkCall q1 (Chain.Finished (Throw (QueryFailedError q1 err)));
                  Chain.mkCall q2 (Chain.Finished (Throw (QueryFailedError q1 err)))]
                 [q1]).
  { subst s. cbn. unfold Chain.issue. rewrite Hpool. cbn.
    unfold Chain.drain, Chain.resume. cbn.
    unfold Chain.callback. cbn. rewrite Hanswer. cbn. reflexivity. }
  rewrite Hs. split; [reflexivity |]. split; [reflexivity |].
  rewrite callbacks_idle by reflexivity. reflexivity.
Qed.

(** The failing input on a concrete database. *)
Lemma failed_query_cancels_queued_sibling_witness :
  let H := Fixture.failingStatement in
  let s := Chain.run [Chain.Submit (Verbatim "boom"); Chain.Submit (Verbatim "SELECT 1");
                      Chain.Callback] Chain.start in
  Chain.outcome 1 s = Some (Throw (QueryFailedError (Verbatim "boom") "syntax error"))
  /\ Chain.received (Chain.run (replicate 3 Chain.Callback) s) = [Verbatim "boom"].
Proof.
  intros H s.
  pose proof (failed_query_cancels_queued_sibling (Verbatim "boom") (Verbatim "SELECT 1")
                "syntax error" 3 eq_refl eq_refl) as (_ & H1 & Hn).
  split; [exact H1 | exact Hn].
Defined.

(** ** The object store and the cache under the schema methods *)

Section StoreFacts.
Context `{Driver} `{NamingStrategy} `{ColumnDiff}.

Lemma mysql_query__store (q : Query) (r r' : QueryRunner) (c : Completion unit) :
  Mysql.query_ q r = (c, r') ->
  tables r' = tables r /\ loadedTables r' = loadedTables r.
Proof.
  unfold Mysql.query_, Mysql.query, Mysql.connect, bind, ret.
  destruct (isReleased r); [intros [= <- <-]; done |].
  destruct (databaseConnection r).
  - destruct (answer (wire r) q); intros [= <- <-]; done.
  - destruct obtainMasterConnection; [intros [= <- <-]; done |].
    cbn. destruct (answer (wire r) q); intros [= <- <-]; done.
Qed.

Lemma forEachAwait_store (qs : list Query) (r r' : QueryRunner) (c : Completion unit) :
  forEachAwait Mysql.query_ qs r = (c, r') ->
  tables r' = tables r /\ loadedTables r' = loadedTables r.
Proof.
  revert r. induction qs as [| q qs IH]; intros r.
  - intros [= <- <-]. done.
  - cbn. unfold bind.
    destruct (Mysql.query_ q r) as [c0 r0] eqn:Hq.
    apply mysql_query__store in Hq as [Ht Hl].
    destruct c0.
    + intros Hrest. apply IH in Hrest as [Ht' Hl']. split; congruence.
    + intros [= <- <-]. done.
    + intros [= <- <-]. done.
Qed.

Lemma executeQueries_store (upQ downQ : list Query) (r r' : QueryRunner)
    (c : Completion unit) :
  MysqlSchema.executeQueries upQ downQ r = (c, r') ->
  tables r' = tables r /\ loadedTables r' = loadedTables r.
Proof.
  unfold MysqlSchema.executeQueries, bind, modify.
  intros Hrun. apply forEachAwait_store in Hrun. exact Hrun.
Qed.

Lemma readTable_inv (a : nat) (r r' : QueryRunner) (tb : Table.t) :
  readTable a r = (Return tb, r') -> r' = r /\ tables r !! a = Some tb.
Proof.
  unfold readTable. destruct (tables r !! a); intros [= <- <-]; done.
Qed.

Lemma readTable_some (a : nat) (r : QueryRunner) (tb : Table.t) :
  tables r !! a = Some tb -> readTable a r = (Return tb, r).
Proof. intros Hl. unfold readTable. by rewrite Hl. Qed.

Lemma mysql_query__wire (q : Query) (r r' : QueryRunner) :
  Mysql.query_ q r = (Return tt, r') -> wire r' = wire r ++ [q].
Proof.
  unfold Mysql.query_, Mysql.query, Mysql.connect, bind, ret.
  destruct (isReleased r); [discriminate |].
  destruct (databaseConnection r).
  - destruct (answer (wire r) q); intros [= <-]; done.
  - destruct obtainMasterConnection; [discriminate |].
    cbn. destruct (answer (wire r) q); intros [= <-]; done.
Qed.

Lemma forEachAwait_wire (qs : list Query) (r r' : QueryRunner) :
  forEachAwait Mysql.query_ qs r = (Return tt, r') -> wire r' = wire r ++ qs.
Proof.
  revert r. induction qs as [| q qs IH]; intros r.
  - intros [= <-]. by rewrite app_nil_r.
  - cbn. unfold bind.
    destruct (Mysql.query_ q r) as [[[]| |] r0] eqn:Hq; [| discriminate | discriminate].
    apply mysql_query__wire in Hq. intros Hrest. apply IH in Hrest.
    rewrite Hrest, Hq, <- app_assoc. reflexivity.
Qed.

Lemma executeQueries_wire (upQ downQ : list Query) (r r' : QueryRunner) :
  MysqlSchema.executeQueries upQ downQ r = (Return tt, r') -> wire r' = wire r ++ upQ.
Proof.
  unfold MysqlSchema.executeQueries, bind, modify.
  intros Hrun. by apply forEachAwait_wire in Hrun.
Qed.

(** replaceCachedTable returns, and writes the new content over the first
    loaded table that carries the name; nothing else of the runner
    changes. *)
Lemma replaceCachedTable_inv (a : nat) (tb post : Table.t) (r r' : QueryRunner)
    (c : Completion unit) :
  tables r !! a = Some tb ->
  replaceCachedTable a post r = (c, r') ->
  c = Return tt
  /\ r' = match List.find (isNamed (tables r) (Table.name tb)) (loadedTables r) with
          | Some foundTable => set_tables (<[foundTable := post]> (tables r)) r
          | None => r
          end.
Proof.
  intros Hl. unfold replaceCachedTable, bind, modify.
  rewrite (readTable_some a r tb Hl). intros [= <- <-]. done.
Qed.

Lemma replaceCachedTable_fields (a : nat) (post : Table.t) (r r' : QueryRunner)
    (c : Completion unit) :
  replaceCachedTable a post r = (c, r') ->
  wire r' = wire r /\ isReleased r' = isReleased r
  /\ isTransactionActive r' = isTransactionActive r
  /\ loadedTables r' = loadedTables r
  /\ upQueries r' = upQueries r /\ downQueries r' = downQueries r
  /\ List.length (tables r') = List.length (tables r).
Proof.
  unfold replaceCachedTable, bind, modify, readTable.
  destruct (tables r !! a); [| intros [= <- <-]; done].
  destruct (List.find _ _); intros [= <- <-]; cbn; rewrite ?length_insert; done.
Qed.
End StoreFacts.

Section CacheFacts.
Context `{Driver} `{NamingStrategy} `{ColumnDiff}.

Lemma indexOfFirst_nonneg {A} (p : A -> bool) (l : list A) (x : A) :
  In x l -> p x = true -> (0 <= indexOfFirst p l)%Z.
Proof.
  induction l as [| y l IH]; [done |].
  intros [-> | Hin] Hp; cbn.
  - by rewrite Hp.
  - destruct (p y); [done |].
    specialize (IH Hin Hp).
    destruct (indexOfFirst p l <? 0)%Z eqn:Hi; [apply Z.ltb_lt in Hi; lia | lia].
Qed.

Lemma find_present {A} (p : A -> bool) (l : list A) (x : A) :
  In x l -> p x = true -> exists y, List.find p l = Some y.
Proof.
  intros Hin Hp. destruct (List.find p l) as [y |] eqn:Hfind; [by exists y |].
  by rewrite (find_none p l Hfind x Hin) in Hp.
Qed.

(** The entry found for a name is still the one found once it has been
    given a content of that name. *)
Lemma find_after_write (store : list Table.t) (post : Table.t) (n : string)
    (cache : list nat) (found : nat) :
  Table.name post = n ->
  List.find (isNamed store n) cache = Some found ->
  List.find (isNamed (<[found := post]> store) n) cache = Some found.
Proof.
  intros Hname Hfind.
  assert (Hfound : isNamed store n found = true) by (by apply find_some in Hfind as [_ ?]).
  assert (Hnew : isNamed (<[found := post]> store) n found = true).
  { unfold isNamed in *. destruct (store !! found) as [tb |] eqn:Hl; [| discriminate].
    rewrite list_lookup_insert_eq by (by apply lookup_lt_Some in Hl).
    rewrite Hname. apply String.eqb_refl. }
  induction cache as [| x cache IH]; [discriminate |].
  cbn -[isNamed] in *.
  destruct (isNamed store n x) eqn:Hx.
  - injection Hfind as ->. by rewrite Hnew.
  - assert (Hne : found <> x) by (intros ->; congruence).
    assert (Hx' : isNamed (<[found := post]> store) n x = false).
    { unfold isNamed in *. by rewrite list_lookup_insert_ne. }
    rewrite Hx'. by apply IH.
Qed.

(** What the cache holds under the name once the table of that name has
    been replaced; when the table passed in is the cached object itself,
    it is that object which now has the new content. *)
Lemma replace_cached (a : nat) (tb post : Table.t) (r r' : QueryRunner)
    (c : Completion unit) :
  tables r !! a = Some tb ->
  Table.name post = Table.name tb ->
  replaceCachedTable a post r = (c, r') ->
  c = Return tt
  /\ (In a (loadedTables r) -> cachedTable (Table.name tb) r' = Some post)
  /\ (getCachedTable (Table.name tb) r = (Return a, r) ->
      tables r' = <[a := post]> (tables r)
      /\ getCachedTable (Table.name tb) r' = (Return a, r')).
Proof.
  intros Hl Hname Hrun.
  apply (replaceCachedTable_inv a tb) in Hrun as [-> ->]; [| exact Hl].
  split; [done |]. split.
  - intros Hin.
    destruct (find_present (isNamed (tables r) (Table.name tb)) (loadedTables r) a Hin)
      as [found Hfind].
    { unfold isNamed. rewrite Hl. apply String.eqb_refl. }
    rewrite Hfind. unfold cachedTable. cbn.
    rewrite (find_after_write _ _ _ _ _ Hname Hfind).
    apply find_some in Hfind as [_ Hfound]. unfold isNamed in Hfound.
    destruct (tables r !! found) eqn:Hlf; [| discriminate].
    apply list_lookup_insert_eq. by apply lookup_lt_Some in Hlf.
  - unfold getCachedTable.
    destruct (List.find _ (loadedTables r)) as [found |] eqn:Hfind; [| discriminate].
    intros [= ->]. cbn. split; [reflexivity |].
    by rewrite (find_after_write _ _ _ _ _ Hname Hfind).
Qed.
End CacheFacts.

Section PlanNames.
Context `{Driver} `{NamingStrategy} `{ColumnDiff}.

Lemma stripGenerated_table (t : string) (gi : option nat) (p : Plan) :
  clonedTable (MysqlSchema.stripGenerated t gi p) = clonedTable p.
Proof. unfold MysqlSchema.stripGenerated. repeat case_match; reflexivity. Qed.

Lemma restoreGenerated_table (t : string) (gi : option nat) (p : Plan) :
  clonedTable (MysqlSchema.restoreGenerated t gi p) = clonedTable p.
Proof. unfold MysqlSchema.restoreGenerated. repeat case_match; reflexivity. Qed.

Lemma setPrimaryAt_name (i : nat) (b : bool) (tb : Table.t) :
  Table.name (MysqlSchema.setPrimaryAt i b tb) = Table.name tb.
Proof. unfold MysqlSchema.setPrimaryAt. case_match; reflexivity. Qed.

Lemma setPrimaryByName_name (n : string) (b : bool) (p p' : Plan) :
  MysqlSchema.setPrimaryByName n b p = Return p' ->
  Table.name (clonedTable p') = Table.name (clonedTable p).
Proof.
  unfold MysqlSchema.setPrimaryByName. case_match; [discriminate |].
  intros [= <-]. apply setPrimaryAt_name.
Qed.

Lemma addColumn_plan_name (tb : Table.t) (column : TableColumn.t) :
  Table.name (clonedTable (MysqlSchema.addColumn_plan tb column)) = Table.name tb.
Proof.
  unfold MysqlSchema.addColumn_plan, MysqlSchema.addColumn_index,
    MysqlSchema.addColumn_primary.
  repeat case_match; reflexivity.
Qed.

Lemma dropColumn_plan_name (tb : Table.t) (column : TableColumn.t) (p : Plan) :
  MysqlSchema.dropColumn_plan tb column = Return p ->
  Table.name (clonedTable p) = Table.name tb.
Proof.
  unfold MysqlSchema.dropColumn_plan.
  assert (Hindex : forall q, Table.name (clonedTable (MysqlSchema.dropColumn_index tb column q))
                             = Table.name (clonedTable q)).
  { intros q. unfold MysqlSchema.dropColumn_index.
    repeat (case_match; cbn [clonedTable push edit]); reflexivity. }
  destruct (TableColumn.isPrimary column).
  - unfold MysqlSchema.dropColumn_primary.
    destruct (MysqlSchema.setPrimaryByName _ _ _) as [p3 | e |] eqn:Hset; [| done | done].
    apply setPrimaryByName_name in Hset.
    intros [= <-]. cbn [clonedTable push]. rewrite Hindex.
    assert (Hp3 : Table.name (clonedTable p3) = Table.name tb)
      by (rewrite Hset; cbn [clonedTable push]; by rewrite stripGenerated_table).
    repeat case_match; rewrite ?restoreGenerated_table; cbn [clonedTable push]; exact Hp3.
  - intros [= <-]. cbn. by rewrite Hindex.
Qed.

Lemma updatePrimaryKeys_plan_name (tb : Table.t) (columns : list TableColumn.t)
    (p : Plan) :
  MysqlSchema.updatePrimaryKeys_plan tb columns = Return p ->
  Table.name (clonedTable p) = Table.name tb.
Proof.
  unfold MysqlSchema.updatePrimaryKeys_plan.
  repeat case_match; intros Heq; try discriminate; injection Heq as <-;
    cbn [clonedTable push edit Table.name Table.with_columns];
    rewrite ?stripGenerated_table; try reflexivity;
    repeat case_match; reflexivity.
Qed.
End PlanNames.

Section SchemaStore.
Context `{Driver} `{NamingStrategy} `{ColumnDiff}.

(** The common tail of the methods that clone: run the statements, then
    replace the table of that name in the cache by the edited clone. *)
Lemma execute_then_replace (a : nat) (tb post : Table.t) (upQ downQ : list Query)
    (r r' : QueryRunner) :
  tables r !! a = Some tb ->
  Table.name post = Table.name tb ->
  (MysqlSchema.executeQueries upQ downQ ;; replaceCachedTable a post) r = (Return tt, r') ->
  wire r' = wire r ++ upQ
  /\ (In a (loadedTables r) -> cachedTable (Table.name tb) r' = Some post)
  /\ (getCachedTable (Table.name tb) r = (Return a, r) ->
      tables r' = <[a := post]> (tables r)
      /\ getCachedTable (Table.name tb) r' = (Return a, r')).
Proof.
  intros Hl Hname. unfold bind at 1.
  destruct (MysqlSchema.executeQueries upQ downQ r) as [c1 r1] eqn:Hexec.
  destruct c1 as [[] | |]; [| discriminate | discriminate].
  pose proof (executeQueries_store _ _ _ _ _ Hexec) as [Ht Hc].
  apply executeQueries_wire in Hexec.
  intros Hswap.
  pose proof (replaceCachedTable_fields _ _ _ _ _ Hswap) as (Hw & _).
  apply (replace_cached a tb) in Hswap as (_ & Hcached & Hobject);
    [| congruence | exact Hname].
  split; [congruence |]. split.
  - intros Hin. apply Hcached. congruence.
  - intros Hget. rewrite <- Ht. apply Hobject.
    revert Hget. unfold getCachedTable. rewrite Ht, Hc.
    destruct (List.find _ _); [| discriminate]. by intros [= ->].
Qed.

Lemma addColumn_store (a : nat) (tb : Table.t) (column : TableColumn.t)
    (r r' : QueryRunner) :
  tables r !! a = Some tb ->
  MysqlSchema.addColumn (inl a) column r = (Return tt, r') ->
  let post := Table.addColumn column (clonedTable (MysqlSchema.addColumn_plan tb column)) in
  wire r' = wire r ++ up (MysqlSchema.addColumn_plan tb column)
  /\ (In a (loadedTables r) -> cachedTable (Table.name tb) r' = Some post)
  /\ (getCachedTable (Table.name tb) r = (Return a, r) ->
      tables r' = <[a := post]> (tables r)
      /\ getCachedTable (Table.name tb) r' = (Return a, r')).
Proof.
  intros Hl. unfold MysqlSchema.addColumn, resolveTable.
  unfold bind at 1, ret. unfold bind at 1. rewrite (readTable_some a r tb Hl).
  apply execute_then_replace; [exact Hl |]. cbn. apply addColumn_plan_name.
Qed.

Lemma removeColumn_name (c : TableColumn.t) (tb : Table.t) :
  Table.name (Table.removeColumn c tb) = Table.name tb.
Proof. unfold Table.removeColumn. case_match; reflexivity. Qed.

Lemma dropColumn_store (a : nat) (tb : Table.t) (column : TableColumn.t)
    (r r' : QueryRunner) :
  tables r !! a = Some tb ->
  MysqlSchema.dropColumn (inl a) (inl column) r = (Return tt, r') ->
  exists p, MysqlSchema.dropColumn_plan tb column = Return p
  /\ let post := Table.removeColumn column (clonedTable p) in
     wire r' = wire r ++ up p
     /\ (In a (loadedTables r) -> cachedTable (Table.name tb) r' = Some post)
     /\ (getCachedTable (Table.name tb) r = (Return a, r) ->
         tables r' = <[a := post]> (tables r)
         /\ getCachedTable (Table.name tb) r' = (Return a, r')).
Proof.
  intros Hl. unfold MysqlSchema.dropColumn, resolveTable.
  unfold bind at 1, ret. unfold bind at 1. rewrite (readTable_some a r tb Hl).
  unfold bind at 1, MysqlSchema.lift.
  destruct (MysqlSchema.dropColumn_plan tb column) as [p | e |] eqn:Hplan;
    [| discriminate | discriminate].
  intros Hrun. exists p. split; [reflexivity |].
  apply (execute_then_replace a tb) in Hrun; [exact Hrun | exact Hl |].
  rewrite removeColumn_name. by apply dropColumn_plan_name in Hplan.
Qed.

Lemma createPrimaryKey_store (a : nat) (tb : Table.t) (columnNames : list string)
    (r r' : QueryRunner) :
  tables r !! a = Some tb ->
  MysqlSchema.createPrimaryKey (inl a) columnNames r = (Return tt, r') ->
  let post :=
    Table.with_columns
      (List.map (fun column => if MysqlSchema.findsName columnNames column
                               then TableColumn.with_isPrimary true column else column)
                (Table.columns tb)) tb in
  wire r' = wire r ++ [AlterAddPrimaryKey (Table.name tb) columnNames]
  /\ (In a (loadedTables r) -> cachedTable (Table.name tb) r' = Some post)
  /\ (getCachedTable (Table.name tb) r = (Return a, r) ->
      tables r' = <[a := post]> (tables r)
      /\ getCachedTable (Table.name tb) r' = (Return a, r')).
Proof.
  intros Hl. unfold MysqlSchema.createPrimaryKey, resolveTable.
  unfold bind at 1, ret. unfold bind at 1. rewrite (readTable_some a r tb Hl).
  apply execute_then_replace; [exact Hl | reflexivity].
Qed.

Lemma updatePrimaryKeys_store (a : nat) (tb : Table.t) (columns : list TableColumn.t)
    (r r' : QueryRunner) :
  tables r !! a = Some tb ->
  MysqlSchema.updatePrimaryKeys (inl a) columns r = (Return tt, r') ->
  exists p, MysqlSchema.updatePrimaryKeys_plan tb columns = Return p
  /\ wire r' = wire r ++ up p
  /\ (In a (loadedTables r) -> cachedTable (Table.name tb) r' = Some (clonedTable p))
  /\ (getCachedTable (Table.name tb) r = (Return a, r) ->
      tables r' = <[a := clonedTable p]> (tables r)
      /\ getCachedTable (Table.name tb) r' = (Return a, r')).
Proof.
  intros Hl. unfold MysqlSchema.updatePrimaryKeys, resolveTable.
  unfold bind at 1, ret. unfold bind at 1. rewrite (readTable_some a r tb Hl).
  unfold bind at 1, MysqlSchema.lift.
  destruct (MysqlSchema.updatePrimaryKeys_plan tb columns) as [p | e |] eqn:Hplan;
    [| discriminate | discriminate].
  intros Hrun. exists p. split; [reflexivity |].
  apply (execute_then_replace a tb) in Hrun; [exact Hrun | exact Hl |].
  by apply updatePrimaryKeys_plan_name in Hplan.
Qed.

(** dropPrimaryKey makes no clone: the object that was passed in is the
    one edited, and replaceCachedTable is not called. *)
Lemma dropPrimaryKey_store (a : nat) (tb : Table.t) (r r' : QueryRunner) :
  tables r !! a = Some tb ->
  MysqlSchema.dropPrimaryKey (inl a) r = (Return tt, r') ->
  tables r' =
    <[a := Table.with_columns
             (List.map (fun column => if TableColumn.isPrimary column
                                      then TableColumn.with_isPrimary false column
                                      else column)
                       (Table.columns tb)) tb]> (tables r)
  /\ loadedTables r' = loadedTables r.
Proof.
  intros Hl. unfold MysqlSchema.dropPrimaryKey, resolveTable.
  unfold bind at 1, ret. unfold bind at 1. rewrite (readTable_some a r tb Hl).
  unfold bind at 1.
  destruct (MysqlSchema.executeQueries _ _ r) as [c1 r1] eqn:Hexec.
  apply executeQueries_store in Hexec as [Ht Hc].
  destruct c1; [| discriminate | discriminate].
  unfold bind at 1. rewrite (readTable_some a r1 tb) by congruence.
  unfold writeTable, modify. intros [= <-]. cbn. rewrite Ht, Hc. done.
Qed.

(** renameTable does both: the old object is renamed where it is, and the
    renamed clone replaces the table of the new name in the cache, which
    is the old object itself when no other cached table had that name. *)
Lemma renameTable_store (a : nat) (tb : Table.t) (newTableName : string)
    (r r' : QueryRunner) :
  tables r !! a = Some tb ->
  MysqlSchema.renameTable (inl a) newTableName r = (Return tt, r') ->
  let newTable := clonedTable (MysqlSchema.renameTable_plan tb newTableName) in
  Table.name <$> tables r' !! a = Some (Table.name newTable)
  /\ (In a (loadedTables r) -> cachedTable (Table.name newTable) r' = Some newTable)
  /\ (getCachedTable (Table.name tb) r = (Return a, r) ->
      cachedTable (Table.name newTable) r = None ->
      tables r' = <[a := newTable]> (tables r)).
Proof.
  intros Hl. unfold MysqlSchema.renameTable, resolveTable.
  unfold bind at 1, ret. unfold bind at 1. rewrite (readTable_some a r tb Hl).
  unfold bind at 1.
  destruct (MysqlSchema.executeQueries _ _ r) as [c1 r1] eqn:Hexec.
  apply executeQueries_store in Hexec as [Ht Hc].
  destruct c1; [| discriminate | discriminate].
  unfold bind at 1. rewrite (readTable_some a r1 tb) by congruence.
  unfold bind at 1, writeTable, modify.
  set (newTable := clonedTable (MysqlSchema.renameTable_plan tb newTableName)).
  set (renamed := Table.with_name (Table.name newTable) tb).
  set (r2 := set_tables (<[a := renamed]> (tables r1)) r1).
  assert (Hlt : (a < List.length (tables r))%nat) by (by apply lookup_lt_Some in Hl).
  assert (Hl2 : tables r2 !! a = Some renamed).
  { cbn. apply list_lookup_insert_eq. congruence. }
  intros Hswap. cbv zeta.
  pose proof (replaceCachedTable_inv a renamed newTable r2 r' _ Hl2 Hswap) as [_ Hr'].
  apply (replace_cached a renamed newTable) in Hswap as (_ & Hcached & _);
    [| exact Hl2 | reflexivity].
  split; [| split].
  - rewrite Hr'. destruct (List.find _ _) as [found |]; [| by rewrite Hl2].
    cbn [tables set_tables]. destruct (decide (found = a)) as [-> | Hne].
    + rewrite list_lookup_insert_eq; [reflexivity |].
      cbn. rewrite length_insert. congruence.
    + rewrite list_lookup_insert_ne by exact Hne. by rewrite Hl2.
  - intros Hin. apply Hcached. cbn. congruence.
  - intros Hget Hfree. rewrite Hr'.
    assert (Hfind : List.find (isNamed (tables r2) (Table.name renamed)) (loadedTables r2)
                    = Some a).
    { cbn [tables loadedTables set_tables r2 Table.name Table.with_name renamed].
      rewrite Ht, Hc. revert Hget Hfree. unfold getCachedTable, cachedTable.
      destruct (List.find (isNamed (tables r) (Table.name tb)) _) as [x |] eqn:Hold;
        [| discriminate].
      intros [= ->]. clear Hcached Hr' Hl2 Hc. revert Hold.
      generalize (loadedTables r). intros cache.
      induction cache as [| x cache IH]; [discriminate |].
      cbn -[isNamed].
      destruct (isNamed (tables r) (Table.name tb) x) eqn:Hx.
      - intros [= ->] _.
        assert (Hnew : isNamed (<[a := renamed]> (tables r))
                         (Table.name newTable) a = true).
        { unfold isNamed. rewrite list_lookup_insert_eq by exact Hlt. apply String.eqb_refl. }
        by rewrite Hnew.
      - intros Hold.
        assert (Hne : a <> x).
        { intros ->. unfold isNamed in Hx. rewrite Hl in Hx.
          by rewrite String.eqb_refl in Hx. }
        assert (Hsame : isNamed (<[a := renamed]> (tables r))
                          (Table.name newTable) x
                        = isNamed (tables r) (Table.name newTable) x).
        { unfold isNamed. by rewrite list_lookup_insert_ne. }
        rewrite Hsame.
        destruct (isNamed (tables r) (Table.name newTable) x) eqn:Hy.
        + unfold isNamed in Hy. destruct (tables r !! x) eqn:Hlx; discriminate || (intros [=]).
        + by apply IH. }
    rewrite Hfind. cbn [tables set_tables r2]. rewrite Ht.
    apply list_insert_insert_eq.
Qed.
End SchemaStore.

(** C10 as stated fails on dropPrimaryKey and on renameTable: after either
    call the object the cache held before the call is not what it was.
    dropPrimaryKey makes no clone at all and clears isPrimary on the cached
    object; renameTable renames it. *)
Lemma dropPrimaryKey_and_renameTable_edit_the_cached_object :
  let H := Fixture.accepting in
  let N := Fixture.naming in
  let r := Fixture.runnerWith Fixture.t0 in
  let dropped := MysqlSchema.dropPrimaryKey (inr "t") r in
  let renamed := MysqlSchema.renameTable (inr "t") "u" r in
  tables r !! 0%nat = Some Fixture.t0
  /\ fst dropped = Return tt
  /\ tables (snd dropped)
     = [Table.with_columns [Fixture.column "id" "int" EmptyString false false;
                            Fixture.column "name" "varchar" "50" false false] Fixture.t0]
  /\ tables (snd dropped) !! 0%nat <> Some Fixture.t0
  /\ fst renamed = Return tt
  /\ tables (snd renamed) !! 0%nat = Some (Table.with_name "u" Fixture.t0)
  /\ tables (snd renamed) !! 0%nat <> Some Fixture.t0.
Proof.
  intros H N r dropped renamed.
  split; [reflexivity |]. split; [vm_compute; reflexivity |].
  split; [vm_compute; reflexivity |]. split; [vm_compute; discriminate |].
  split; [vm_compute; reflexivity |]. split; [vm_compute; reflexivity |].
  vm_compute; discriminate.
Qed.

(** C10 (amended). For a call on the cached Table object (address [a])
    that returns.  addColumn, dropColumn, createPrimaryKey and
    updatePrimaryKeys have sent their statements, and the cache then holds
    the clone they made of the table with the structural edit applied:
    the column appended, the column removed, the key columns marked, the
    table of the plan.  The replacement is made on the cached object,
    which now carries that content.  dropPrimaryKey makes no clone and
    clears isPrimary on the columns of the object it was given.
    renameTable renames that object in place, and the cache holds the
    renamed clone under the new name. *)
Theorem mutations_clone_or_edit_in_place `{Driver} `{NamingStrategy}
    (a : nat) (tb : Table.t) (column : TableColumn.t) (columns : list TableColumn.t)
    (columnNames : list string) (newTableName : string) (r r' : QueryRunner) :
  tables r !! a = Some tb ->
  getCachedTable (Table.name tb) r = (Return a, r) ->
  (MysqlSchema.addColumn (inl a) column r = (Return tt, r') ->
   let p := MysqlSchema.addColumn_plan tb column in
   let post := Table.addColumn column (clonedTable p) in
   wire r' = wire r ++ up p
   /\ cachedTable (Table.name tb) r' = Some post
   /\ tables r' = <[a := post]> (tables r))
  /\ (MysqlSchema.dropColumn (inl a) (inl column) r = (Return tt, r') ->
      exists p,
        MysqlSchema.dropColumn_plan tb column = Return p
        /\ let post := Table.removeColumn column (clonedTable p) in
           wire r' = wire r ++ up p
           /\ cachedTable (Table.name tb) r' = Some post
           /\ tables r' = <[a := post]> (tables r))
  /\ (MysqlSchema.createPrimaryKey (inl a) columnNames r = (Return tt, r') ->
      let post :=
        Table.with_columns
          (List.map (fun c => if MysqlSchema.findsName columnNames c
                              then TableColumn.with_isPrimary true c else c)
                    (Table.columns (Table.clone tb))) (Table.clone tb) in
      wire r' = wire r ++ [AlterAddPrimaryKey (Table.name tb) columnNames]
      /\ cachedTable (Table.name tb) r' = Some post
      /\ tables r' = <[a := post]> (tables r))
  /\ (MysqlSchema.updatePrimaryKeys (inl a) columns r = (Return tt, r') ->
      exists p,
        MysqlSchema.updatePrimaryKeys_plan tb columns = Return p
        /\ wire r' = wire r ++ up p
        /\ cachedTable (Table.name tb) r' = Some (clonedTable p)
        /\ tables r' = <[a := clonedTable p]> (tables r))
  /\ (MysqlSchema.dropPrimaryKey (inl a) r = (Return tt, r') ->
      tables r' =
        <[a := Table.with_columns
                 (List.map (fun c => if TableColumn.isPrimary c
                                     then TableColumn.with_isPrimary false c else c)
                           (Table.columns tb)) tb]> (tables r)
      /\ loadedTables r' = loadedTables r)
  /\ (MysqlSchema.renameTable (inl a) newTableName r = (Return tt, r') ->
      let newTable := clonedTable (MysqlSchema.renameTable_plan tb newTableName) in
      Table.name <$> tables r' !! a = Some (Table.name newTable)
      /\ cachedTable (Table.name newTable) r' = Some newTable
      /\ (cachedTable (Table.name newTable) r = None ->
          tables r' = <[a := newTable]> (tables r))).
Proof.
  intros Hl Hget.
  assert (Hin : In a (loadedTables r)).
  { revert Hget. unfold getCachedTable.
    destruct (List.find _ _) as [x |] eqn:Hfind; [| discriminate].
    intros [= ->]. by apply find_some in Hfind as [? _]. }
  split; [| split; [| split; [| split; [| split]]]].
  - intros Hrun. cbv zeta.
    apply (addColumn_store a tb) in Hrun as (Hwire & Hcached & Hobject); [| exact Hl].
    split; [exact Hwire |]. split; [by apply Hcached | by apply Hobject].
  - intros Hrun.
    apply (dropColumn_store a tb) in Hrun as (p & Hplan & Hwire & Hcached & Hobject);
      [| exact Hl].
    exists p. split; [exact Hplan |]. cbv zeta.
    split; [exact Hwire |]. split; [by apply Hcached | by apply Hobject].
  - intros Hrun. cbv zeta.
    apply (createPrimaryKey_store a tb) in Hrun as (Hwire & Hcached & Hobject); [| exact Hl].
    split; [exact Hwire |]. split; [by apply Hcached | by apply Hobject].
  - intros Hrun.
    apply (updatePrimaryKeys_store a tb) in Hrun as (p & Hplan & Hwire & Hcached & Hobject);
      [| exact Hl].
    exists p. split; [exact Hplan |].
    split; [exact Hwire |]. split; [by apply Hcached | by apply Hobject].
  - by apply dropPrimaryKey_store.
  - intros Hrun. cbv zeta.
    apply (renameTable_store a tb) in Hrun as (Hname & Hcached & Hobject); [| exact Hl].
    split; [exact Hname |]. split; [by apply Hcached | by apply Hobject].
Qed.

(** addColumn of email on the cached table t: the ADD and the unique index
    went out, the cache holds t with the column, its index and its unique
    entry, and that is the content of the object at address 0. *)
Lemma mutations_clone_or_edit_in_place_witness :
  let H := Fixture.accepting in
  let N := Fixture.naming in
  let r := Fixture.runnerWith Fixture.t0 in
  let r' := snd (MysqlSchema.addColumn (inl 0%nat) Fixture.email r) in
  wire r' = [AlterAdd "t" (buildCreateColumnSql Fixture.email true false);
             AlterAddUniqueIndex "t" "IDX_t_email" "email"]
  /\ cachedTable "t" r' = Some Fixture.withEmailOnly
  /\ tables r' = [Fixture.withEmailOnly].
Proof.
  intros H N r r'.
  assert (Hreturns : MysqlSchema.addColumn (inl 0%nat) Fixture.email r = (Return tt, r'))
    by (vm_compute; reflexivity).
  assert (Hget : getCachedTable (Table.name Fixture.t0) r = (Return 0%nat, r))
    by (vm_compute; reflexivity).
  destruct (proj1 (mutations_clone_or_edit_in_place 0 Fixture.t0 Fixture.email [] [] "u"
                     r r' eq_refl Hget) Hreturns) as (Hwire & Hcached & Hobject).
  split; [etransitivity; [exact Hwire | vm_compute; reflexivity] |].
  split; [etransitivity; [exact Hcached | vm_compute; reflexivity] |].
  etransitivity; [exact Hobject | vm_compute; reflexivity].
Defined.

(** C1, where the code departs from it.  The example of the specification:
    on t(id int primary key, name varchar(50)), addColumn of the unique
    column email and then dropColumn of it.  Both calls return, the column
    and its unique index are gone, but the entry addColumn made in the
    uniques list of the table is still there: the cached table is not the
    table before the two calls.  This holds under every naming strategy. *)
Theorem addColumn_then_dropColumn_leaves_unique `{NamingStrategy} :
  let H := Fixture.accepting in
  let r0 := Fixture.runnerWith Fixture.t0 in
  let added := MysqlSchema.addColumn (inr "t") Fixture.email r0 in
  let dropped := MysqlSchema.dropColumn (inr "t") (inr "email") (snd added) in
  fst added = Return tt
  /\ fst dropped = Return tt
  /\ cachedTable "t" (snd dropped)
     = Some (Table.with_uniques
               [TableUnique.mk (indexName "t" ["email"] None) ["email"]] Fixture.t0)
  /\ cachedTable "t" (snd dropped) <> Some Fixture.t0.
Proof.
  intros H0 r0 added dropped.
  split; [vm_compute; reflexivity |]. split; [vm_compute; reflexivity |].
  assert (Hcached : cachedTable "t" (snd dropped)
     = Some (Table.with_uniques
               [TableUnique.mk (indexName "t" ["email"] None) ["email"]] Fixture.t0))
    by (vm_compute; reflexivity).
  split; [exact Hcached |]. rewrite Hcached. vm_compute. discriminate.
Qed.

(** ** changeColumn: recreate or alter in place *)

Section RecreateFacts.
Context `{Driver} `{NamingStrategy} `{ColumnDiff}.

(** The last statement of a dropColumn is the DROP COLUMN, the first of
    an addColumn is the ADD. *)
Lemma dropColumn_plan_ends (tb : Table.t) (column : TableColumn.t) (p : Plan) :
  MysqlSchema.dropColumn_plan tb column = Return p ->
  exists before,
    up p = before ++ [AlterDropColumn (Table.name tb) (TableColumn.name column)].
Proof.
  unfold MysqlSchema.dropColumn_plan.
  destruct (if TableColumn.isPrimary column then _ else _) as [p1 | |];
    [| discriminate | discriminate].
  intros [= <-]. eexists. reflexivity.
Qed.

Lemma addColumn_plan_starts (tb : Table.t) (column : TableColumn.t) :
  exists after,
    up (MysqlSchema.addColumn_plan tb column)
    = AlterAdd (Table.name tb)
        (buildCreateColumnSql column
           (Nat.ltb 0 (List.length (Table.primaryColumns tb))) false) :: after.
Proof.
  unfold MysqlSchema.addColumn_plan, MysqlSchema.addColumn_index,
    MysqlSchema.addColumn_primary.
  repeat case_match; cbn; eexists; reflexivity.
Qed.

(** A query that returns has put its statement on the wire and has left
    the tables alone. *)
Lemma mysql_query_sends (q : Query) (r r' : QueryRunner) (rows : list string) :
  Mysql.query q r = (Return rows, r') ->
  wire r' = wire r ++ [q] /\ tables r' = tables r /\ loadedTables r' = loadedTables r.
Proof.
  unfold Mysql.query, Mysql.connect.
  destruct (isReleased r); [discriminate |].
  destruct (databaseConnection r).
  - destruct (answer (wire r) q); intros [= <- <-]; done.
  - destruct obtainMasterConnection; [discriminate |].
    cbn. destruct (answer (wire r) q); intros [= <- <-]; done.
Qed.

Lemma sqlserver_query_sends (q : Query) (r r' : QueryRunner) (rows : list string) :
  SqlServer.query q r = (Return rows, r') ->
  wire r' = wire r ++ [q] /\ tables r' = tables r /\ loadedTables r' = loadedTables r.
Proof.
  unfold SqlServer.query.
  destruct (isReleased r); [discriminate |].
  destruct obtainMasterConnection; [discriminate |].
  destruct (answer (wire r) q); intros [= <- <-]; done.
Qed.

Lemma forEachAwait_sends (f : Query -> M unit) (qs : list Query) (r r' : QueryRunner) :
  (forall q r0 r1, f q r0 = (Return tt, r1) ->
     wire r1 = wire r0 ++ [q] /\ tables r1 = tables r0 /\ loadedTables r1 = loadedTables r0) ->
  forEachAwait f qs r = (Return tt, r') ->
  wire r' = wire r ++ qs /\ tables r' = tables r /\ loadedTables r' = loadedTables r.
Proof.
  intros Hf. revert r. induction qs as [| q qs IH]; intros r.
  - intros [= <-]. by rewrite app_nil_r.
  - cbn. unfold bind.
    destruct (f q r) as [[[]| |] r0] eqn:Hq; [| discriminate | discriminate].
    apply Hf in Hq as (Hw & Ht & Hc). intros Hrest.
    apply IH in Hrest as (Hw' & Ht' & Hc').
    rewrite Hw', Hw, <- app_assoc, Ht', Ht, Hc', Hc. done.
Qed.

Lemma postgres_executeQueries_sends (upQ downQ : list Query) (r r' : QueryRunner) :
  PostgresSchema.executeQueries upQ downQ r = (Return tt, r') ->
  wire r' = wire r ++ upQ /\ tables r' = tables r /\ loadedTables r' = loadedTables r.
Proof.
  unfold PostgresSchema.executeQueries, bind, modify. intros Hrun.
  apply forEachAwait_sends in Hrun; [exact Hrun |].
  intros q r0 r1. unfold Postgres.query_, bind, ret.
  destruct (Postgres.query q r0) as [[rows | |] r2] eqn:Hq; [| discriminate | discriminate].
  intros [= <-]. by apply mysql_query_sends in Hq.
Qed.

Lemma sqlserver_executeQueries_sends (upQ downQ : list Query) (r r' : QueryRunner) :
  SqlServerColumns.executeQueries upQ downQ r = (Return tt, r') ->
  wire r' = wire r ++ upQ /\ tables r' = tables r /\ loadedTables r' = loadedTables r.
Proof.
  unfold SqlServerColumns.executeQueries, bind, modify. intros Hrun.
  apply forEachAwait_sends in Hrun; [exact Hrun |].
  intros q r0 r1. unfold SqlServerColumns.query_, bind, ret.
  destruct (SqlServer.query q r0) as [[rows | |] r2] eqn:Hq; [| discriminate | discriminate].
  intros [= <-]. by apply sqlserver_query_sends in Hq.
Qed.

(** The tail of addColumn and dropColumn on every runner: once the
    statements have run the table of that name is replaced in the cache;
    the object that was passed in keeps its name. *)
Lemma then_replace (exec : M unit) (qs : list Query) (a : nat) (tb post : Table.t)
    (r r' : QueryRunner) :
  (forall r0 r1, exec r0 = (Return tt, r1) ->
     wire r1 = wire r0 ++ qs /\ tables r1 = tables r0 /\ loadedTables r1 = loadedTables r0) ->
  tables r !! a = Some tb ->
  Table.name post = Table.name tb ->
  (exec ;; replaceCachedTable a post) r = (Return tt, r') ->
  wire r' = wire r ++ qs
  /\ exists tb1, tables r' !! a = Some tb1 /\ Table.name tb1 = Table.name tb.
Proof.
  intros Hexec Hl Hname. unfold bind at 1.
  destruct (exec r) as [[[]| |] r0] eqn:Hrun; [| discriminate | discriminate].
  apply Hexec in Hrun as (Hw & Ht & Hc). intros Hswap.
  pose proof (replaceCachedTable_fields _ _ _ _ _ Hswap) as (Hw' & _).
  assert (Hl0 : tables r0 !! a = Some tb) by congruence.
  apply (replaceCachedTable_inv a tb) in Hswap as [_ ->]; [| exact Hl0].
  split; [congruence |].
  destruct (List.find _ _) as [found |]; [| by exists tb].
  cbn [tables set_tables]. destruct (decide (found = a)) as [-> | Hne].
  - exists post. split; [| exact Hname].
    apply list_lookup_insert_eq. by apply lookup_lt_Some in Hl0.
  - exists tb. by rewrite list_lookup_insert_ne.
Qed.

(** The blocks the Postgres and SQL Server runners share only add
    statements and leave the name of the clone. *)
Lemma addColumn_primaryKey_up (t : string) (column : TableColumn.t) (p : Plan) :
  (exists more, up (addColumn_primaryKey t column p) = up p ++ more)
  /\ clonedTable (addColumn_primaryKey t column p) = clonedTable p.
Proof.
  unfold addColumn_primaryKey. case_match; cbn; rewrite <- ?app_assoc; eauto.
Qed.

Lemma addColumn_unique_up (t : string) (column : TableColumn.t) (p : Plan) :
  (exists more, up (addColumn_unique t column p) = up p ++ more)
  /\ Table.name (clonedTable (addColumn_unique t column p)) = Table.name (clonedTable p).
Proof. unfold addColumn_unique. cbn. eauto. Qed.

Lemma dropColumn_primaryKey_name (t : string) (column : TableColumn.t) (p p' : Plan) :
  dropColumn_primaryKey t column p = Return p' ->
  Table.name (clonedTable p') = Table.name (clonedTable p).
Proof.
  unfold dropColumn_primaryKey.
  destruct (MysqlSchema.setPrimaryByName _ _ _) as [p2 | |] eqn:Hset;
    [| discriminate | discriminate].
  apply setPrimaryByName_name in Hset. intros [= <-].
  case_match; cbn [clonedTable push]; exact Hset.
Qed.

Lemma dropColumn_check_name (t : string) (column : TableColumn.t) (p : Plan) :
  Table.name (clonedTable (dropColumn_check t column p)) = Table.name (clonedTable p).
Proof. unfold dropColumn_check. case_match; reflexivity. Qed.

Lemma dropColumn_unique_name (t : string) (column : TableColumn.t) (p : Plan) :
  Table.name (clonedTable (dropColumn_unique t column p)) = Table.name (clonedTable p).
Proof. unfold dropColumn_unique. case_match; reflexivity. Qed.

(** *** Postgres *)

Lemma postgres_hasEnumType_inv (t : string) (column : TableColumn.t) (r r' : QueryRunner)
    (b : bool) :
  PostgresColumns.hasEnumType t column r = (Return b, r') ->
  wire r' = wire r ++ [PgSelectEnumType t column]
  /\ tables r' = tables r /\ loadedTables r' = loadedTables r.
Proof.
  unfold PostgresColumns.hasEnumType, bind, ret.
  destruct (Postgres.query _ r) as [[rows | |] r0] eqn:Hq; [| discriminate | discriminate].
  intros [= _ <-]. by apply mysql_query_sends in Hq.
Qed.

Lemma postgres_getUserDefinedTypeName_inv (t : string) (column : TableColumn.t)
    (r r' : QueryRunner) (row : string) :
  PostgresColumns.getUserDefinedTypeName t column r = (Return row, r') ->
  (exists sent, wire r' = wire r ++ sent)
  /\ tables r' = tables r /\ loadedTables r' = loadedTables r.
Proof.
  unfold PostgresColumns.getUserDefinedTypeName, PostgresColumns.getCurrentSchema,
    bind, ret, throw.
  destruct (Postgres.query PgSelectCurrentSchema r) as [[rows | |] r0] eqn:Hq0;
    [| discriminate | discriminate].
  apply mysql_query_sends in Hq0 as (Hw0 & Ht0 & Hc0).
  destruct rows as [| schema rows]; [discriminate |].
  destruct (Postgres.query _ r0) as [[result | |] r1] eqn:Hq1;
    [| discriminate | discriminate].
  apply mysql_query_sends in Hq1 as (Hw1 & Ht1 & Hc1).
  destruct result as [| row' result]; [discriminate |].
  intros [= _ <-]. split; [| split; congruence].
  eexists. rewrite Hw1, Hw0, <- app_assoc. reflexivity.
Qed.

Lemma postgres_addColumn_enum_inv (t : string) (column : TableColumn.t) (p p' : Plan)
    (r r' : QueryRunner) :
  PostgresColumns.addColumn_enum t column p r = (Return p', r') ->
  (exists sent, wire r' = wire r ++ sent)
  /\ (exists more, up p' = up p ++ more)
  /\ clonedTable p' = clonedTable p
  /\ tables r' = tables r /\ loadedTables r' = loadedTables r.
Proof.
  unfold PostgresColumns.addColumn_enum.
  destruct (isEnumColumn column).
  - unfold bind at 1.
    destruct (PostgresColumns.hasEnumType t column r) as [[b | |] r0] eqn:Hhas;
      [| discriminate | discriminate].
    apply postgres_hasEnumType_inv in Hhas as (Hw & Ht & Hc).
    destruct b; cbn [negb]; intros [= <- <-]; cbn [up push clonedTable];
      (split; [eauto |]); (split; [| done]).
    + exists []. by rewrite app_nil_r.
    + eauto.
  - intros [= <- <-]. split; [exists []; by rewrite app_nil_r |].
    split; [exists []; by rewrite app_nil_r | done].
Qed.

Lemma postgres_addColumn_plan_up (t : string) (column : TableColumn.t) (p : Plan) :
  (exists after,
     up (PostgresColumns.addColumn_plan t column p) = up p ++ PgAddColumn t column :: after)
  /\ Table.name (clonedTable (PostgresColumns.addColumn_plan t column p))
     = Table.name (clonedTable p).
Proof.
  unfold PostgresColumns.addColumn_plan.
  set (p1 := push (PgAddColumn t column) (DropColumn t (TableColumn.name column)) p).
  set (p2 := if TableColumn.isPrimary column then addColumn_primaryKey t column p1 else p1).
  assert (H2 : (exists more, up p2 = up p1 ++ more) /\ clonedTable p2 = clonedTable p1).
  { subst p2. destruct (TableColumn.isPrimary column).
    - apply addColumn_primaryKey_up.
    - split; [exists []; by rewrite app_nil_r | reflexivity]. }
  destruct H2 as [[m2 Hu2] Hc2].
  set (p3 := match List.find _ (Table.indices (clonedTable p2)) with
             | Some columnIndex => _
             | None => p2
             end).
  assert (H3 : (exists more, up p3 = up p2 ++ more) /\ clonedTable p3 = clonedTable p2).
  { subst p3. destruct (List.find _ _).
    - cbn. eauto.
    - split; [exists []; by rewrite app_nil_r | reflexivity]. }
  destruct H3 as [[m3 Hu3] Hc3].
  set (p4 := if TableColumn.isUnique column then addColumn_unique t column p3 else p3).
  assert (H4 : (exists more, up p4 = up p3 ++ more)
               /\ Table.name (clonedTable p4) = Table.name (clonedTable p3)).
  { subst p4. destruct (TableColumn.isUnique column).
    - apply addColumn_unique_up.
    - split; [exists []; by rewrite app_nil_r | reflexivity]. }
  destruct H4 as [[m4 Hu4] Hc4].
  assert (Hname : Table.name (clonedTable p4) = Table.name (clonedTable p))
    by (rewrite Hc4, Hc3, Hc2; reflexivity).
  destruct (truthy_opt (TableColumn.comment column)); cbn [up push clonedTable];
    rewrite Hu4, Hu3, Hu2; cbn [up push p1]; rewrite <- !app_assoc; cbn [app];
    (split; [eexists; reflexivity | exact Hname]).
Qed.

Lemma postgres_addColumn_sends (a : nat) (tb : Table.t) (column : TableColumn.t)
    (r r' : QueryRunner) :
  tables r !! a = Some tb ->
  PostgresColumns.addColumn (inl a) column r = (Return tt, r') ->
  (exists before after,
     wire r' = wire r ++ before ++ PgAddColumn (Table.name tb) column :: after)
  /\ exists tb1, tables r' !! a = Some tb1 /\ Table.name tb1 = Table.name tb.
Proof.
  intros Hl. unfold PostgresColumns.addColumn, resolveTable.
  unfold bind at 1, ret. unfold bind at 1. rewrite (readTable_some a r tb Hl).
  unfold bind at 1.
  destruct (PostgresColumns.addColumn_enum _ _ _ r) as [[p0 | |] r0] eqn:Henum;
    [| discriminate | discriminate].
  apply postgres_addColumn_enum_inv in Henum
    as ([sent Hw0] & [more Hup0] & Hcl0 & Ht0 & Hc0).
  destruct (postgres_addColumn_plan_up (Table.name tb) column p0) as [[after Hup] Hname].
  intros Hrun.
  apply (then_replace _ (up (PostgresColumns.addColumn_plan (Table.name tb) column p0))
           a tb) in Hrun as [Hw Hobject].
  - split; [| exact Hobject].
    exists (sent ++ up p0), after.
    rewrite Hw, Hw0, Hup, <- !app_assoc. reflexivity.
  - intros r1 r2. apply postgres_executeQueries_sends.
  - congruence.
  - cbn. rewrite Hname, Hcl0. reflexivity.
Qed.

Lemma postgres_dropColumn_plan_up (tb : Table.t) (column : TableColumn.t) (p : Plan) :
  PostgresColumns.dropColumn_plan tb column = Return p ->
  (exists before, up p = before ++ [DropColumn (Table.name tb) (TableColumn.name column)])
  /\ Table.name (clonedTable p) = Table.name tb.
Proof.
  unfold PostgresColumns.dropColumn_plan.
  destruct (if TableColumn.isPrimary column then _ else _) as [p1 | |] eqn:Hprimary;
    [| discriminate | discriminate].
  assert (Hname1 : Table.name (clonedTable p1) = Table.name tb).
  { destruct (TableColumn.isPrimary column).
    - by apply dropColumn_primaryKey_name in Hprimary.
    - by injection Hprimary as <-. }
  intros [= <-]. split; [eexists; reflexivity |].
  cbn [clonedTable push]. rewrite dropColumn_unique_name, dropColumn_check_name.
  destruct (List.find _ _); exact Hname1.
Qed.

Lemma postgres_dropColumn_enum_inv (t : string) (column : TableColumn.t) (p p' : Plan)
    (r r' : QueryRunner) :
  PostgresColumns.dropColumn_enum t column p r = (Return p', r') ->
  (exists sent, wire r' = wire r ++ sent)
  /\ (exists more, up p' = up p ++ more)
  /\ clonedTable p' = clonedTable p
  /\ tables r' = tables r /\ loadedTables r' = loadedTables r.
Proof.
  unfold PostgresColumns.dropColumn_enum.
  destruct (isEnumColumn column).
  - unfold bind at 1.
    destruct (PostgresColumns.hasEnumType t column r) as [[b | |] r0] eqn:Hhas;
      [| discriminate | discriminate].
    apply postgres_hasEnumType_inv in Hhas as (Hw & Ht & Hc).
    destruct b.
    + unfold bind at 1.
      destruct (PostgresColumns.getUserDefinedTypeName t column r0) as [[row | |] r1] eqn:Hudt;
        [| discriminate | discriminate].
      apply postgres_getUserDefinedTypeName_inv in Hudt as ([sent Hw1] & Ht1 & Hc1).
      intros [= <- <-]. cbn [up push clonedTable].
      split; [eexists; rewrite Hw1, Hw, <- app_assoc; reflexivity |].
      split; [eauto |]. split; [reflexivity | split; congruence].
    + intros [= <- <-]. split; [eauto |].
      split; [exists []; by rewrite app_nil_r | done].
  - intros [= <- <-]. split; [exists []; by rewrite app_nil_r |].
    split; [exists []; by rewrite app_nil_r | done].
Qed.

Lemma postgres_dropColumn_sends (a : nat) (tb : Table.t) (column : TableColumn.t)
    (r r' : QueryRunner) :
  tables r !! a = Some tb ->
  PostgresColumns.dropColumn (inl a) (inl column) r = (Return tt, r') ->
  (exists before after,
     wire r' = wire r ++ before
               ++ DropColumn (Table.name tb) (TableColumn.name column) :: after)
  /\ exists tb1, tables r' !! a = Some tb1 /\ Table.name tb1 = Table.name tb.
Proof.
  intros Hl. unfold PostgresColumns.dropColumn, resolveTable.
  unfold bind at 1, ret. unfold bind at 1. rewrite (readTable_some a r tb Hl).
  unfold bind at 1, MysqlSchema.lift.
  destruct (PostgresColumns.dropColumn_plan tb column) as [p0 | |] eqn:Hplan;
    [| discriminate | discriminate].
  apply postgres_dropColumn_plan_up in Hplan as [[before Hup0] Hname0].
  unfold bind at 1.
  destruct (PostgresColumns.dropColumn_enum _ _ _ r) as [[p | |] r0] eqn:Henum;
    [| discriminate | discriminate].
  apply postgres_dropColumn_enum_inv in Henum
    as ([sent Hw0] & [more Hup] & Hcl & Ht0 & Hc0).
  intros Hrun.
  apply (then_replace _ (up p) a tb) in Hrun as [Hw Hobject].
  - split; [| exact Hobject].
    exists (sent ++ before), more.
    rewrite Hw, Hw0, Hup, Hup0, <- !app_assoc. reflexivity.
  - intros r1 r2. apply postgres_executeQueries_sends.
  - congruence.
  - rewrite removeColumn_name, Hcl. exact Hname0.
Qed.

(** *** SQL Server *)

Lemma sqlserver_addColumn_plan_up (tb : Table.t) (column : TableColumn.t) :
  (exists after,
     up (SqlServerColumns.addColumn_plan tb column)
     = MssqlAddColumn (Table.name tb) column false true :: after)
  /\ Table.name (clonedTable (SqlServerColumns.addColumn_plan tb column)) = Table.name tb.
Proof.
  unfold SqlServerColumns.addColumn_plan.
  set (t := Table.name tb).
  set (p1 := push (MssqlAddColumn t column false true)
                  (DropColumn t (TableColumn.name column)) (mkPlan [] [] (Table.clone tb))).
  set (p2 := if TableColumn.isPrimary column then addColumn_primaryKey t column p1 else p1).
  assert (H2 : (exists more, up p2 = up p1 ++ more) /\ clonedTable p2 = clonedTable p1).
  { subst p2. destruct (TableColumn.isPrimary column).
    - apply addColumn_primaryKey_up.
    - split; [exists []; by rewrite app_nil_r | reflexivity]. }
  destruct H2 as [[m2 Hu2] Hc2].
  set (p3 := match List.find _ (Table.indices (clonedTable p2)) with
             | Some columnIndex => _
             | None => p2
             end).
  assert (H3 : (exists more, up p3 = up p2 ++ more) /\ clonedTable p3 = clonedTable p2).
  { subst p3. destruct (List.find _ _).
    - cbn. eauto.
    - split; [exists []; by rewrite app_nil_r | reflexivity]. }
  destruct H3 as [[m3 Hu3] Hc3].
  set (p4 := if TableColumn.isUnique column then addColumn_unique t column p3 else p3).
  assert (H4 : (exists more, up p4 = up p3 ++ more)
               /\ Table.name (clonedTable p4) = Table.name (clonedTable p3)).
  { subst p4. destruct (TableColumn.isUnique column).
    - apply addColumn_unique_up.
    - split; [exists []; by rewrite app_nil_r | reflexivity]. }
  destruct H4 as [[m4 Hu4] Hc4].
  assert (Hname : Table.name (clonedTable p4) = t)
    by (rewrite Hc4, Hc3, Hc2; reflexivity).
  destruct (TableColumn.default column); cbn [up pushDown clonedTable];
    rewrite Hu4, Hu3, Hu2; cbn [up push p1 app];
    (split; [eexists; reflexivity | exact Hname]).
Qed.

Lemma sqlserver_addColumn_sends (a : nat) (tb : Table.t) (column : TableColumn.t)
    (r r' : QueryRunner) :
  tables r !! a = Some tb ->
  SqlServerColumns.addColumn (inl a) column r = (Return tt, r') ->
  (exists after,
     wire r' = wire r ++ MssqlAddColumn (Table.name tb) column false true :: after)
  /\ exists tb1, tables r' !! a = Some tb1 /\ Table.name tb1 = Table.name tb.
Proof.
  intros Hl. unfold SqlServerColumns.addColumn, resolveTable.
  unfold bind at 1, ret. unfold bind at 1. rewrite (readTable_some a r tb Hl).
  destruct (sqlserver_addColumn_plan_up tb column) as [[after Hup] Hname].
  intros Hrun.
  apply (then_replace _ (up (SqlServerColumns.addColumn_plan tb column)) a tb) in Hrun
    as [Hw Hobject].
  - split; [| exact Hobject]. exists after. by rewrite Hw, Hup.
  - intros r1 r2. apply sqlserver_executeQueries_sends.
  - exact Hl.
  - cbn. exact Hname.
Qed.

Lemma sqlserver_dropColumn_plan_up (tb : Table.t) (column : TableColumn.t) (p : Plan) :
  SqlServerColumns.dropColumn_plan tb column = Return p ->
  (exists before, up p = before ++ [DropColumn (Table.name tb) (TableColumn.name column)])
  /\ Table.name (clonedTable p) = Table.name tb.
Proof.
  unfold SqlServerColumns.dropColumn_plan.
  destruct (if TableColumn.isPrimary column then _ else _) as [p1 | |] eqn:Hprimary;
    [| discriminate | discriminate].
  assert (Hname1 : Table.name (clonedTable p1) = Table.name tb).
  { destruct (TableColumn.isPrimary column).
    - by apply dropColumn_primaryKey_name in Hprimary.
    - by injection Hprimary as <-. }
  intros [= <-]. split; [eexists; reflexivity |].
  cbn [clonedTable push].
  destruct (TableColumn.default column); cbn [clonedTable push];
    rewrite dropColumn_unique_name, dropColumn_check_name;
    destruct (List.find _ _); exact Hname1.
Qed.

Lemma sqlserver_dropColumn_sends (a : nat) (tb : Table.t) (column : TableColumn.t)
    (r r' : QueryRunner) :
  tables r !! a = Some tb ->
  SqlServerColumns.dropColumn (inl a) (inl column) r = (Return tt, r') ->
  (exists before,
     wire r' = wire r ++ before
               ++ [DropColumn (Table.name tb) (TableColumn.name column)])
  /\ exists tb1, tables r' !! a = Some tb1 /\ Table.name tb1 = Table.name tb.
Proof.
  intros Hl. unfold SqlServerColumns.dropColumn, resolveTable.
  unfold bind at 1, ret. unfold bind at 1. rewrite (readTable_some a r tb Hl).
  unfold bind at 1, MysqlSchema.lift.
  destruct (SqlServerColumns.dropColumn_plan tb column) as [p | |] eqn:Hplan;
    [| discriminate | discriminate].
  apply sqlserver_dropColumn_plan_up in Hplan as [[before Hup] Hname].
  intros Hrun.
  apply (then_replace _ (up p) a tb) in Hrun as [Hw Hobject].
  - split; [| exact Hobject]. exists before. by rewrite Hw, Hup.
  - intros r1 r2. apply sqlserver_executeQueries_sends.
  - exact Hl.
  - rewrite removeColumn_name. exact Hname.
Qed.

(** *** The statements of the MySQL changeColumn when it does not
    recreate *)

Lemma renameIndices_keep (t tableName oldName newName : string) (ixs : list TableIndex.t) :
  Forall (fun q => dropsOrAddsColumn q = false)
         (List.map fst (fst (MysqlSchema.renameIndices t tableName oldName newName ixs))).
Proof.
  induction ixs as [| index ixs IH]; [constructor |].
  cbn [MysqlSchema.renameIndices].
  destruct (MysqlSchema.renameIndices t tableName oldName newName ixs) as [qs rest].
  destruct (mentions _ _); cbn in *; [constructor; [reflexivity | exact IH] | exact IH].
Qed.

Lemma renameForeignKeys_keep (t tableName oldName newName : string)
    (fks : list TableForeignKey.t) :
  Forall (fun q => dropsOrAddsColumn q = false)
         (List.map fst (fst (MysqlSchema.renameForeignKeys t tableName oldName newName fks))).
Proof.
  induction fks as [| fk fks IH]; [constructor |].
  cbn [MysqlSchema.renameForeignKeys].
  destruct (MysqlSchema.renameForeignKeys t tableName oldName newName fks) as [qs rest].
  destruct (mentions _ _); cbn in *; [constructor; [reflexivity | exact IH] | exact IH].
Qed.

Lemma push_keep (u d : Query) (p : Plan) :
  dropsOrAddsColumn u = false ->
  Forall (fun q => dropsOrAddsColumn q = false) (up p) ->
  Forall (fun q => dropsOrAddsColumn q = false) (up (push u d p)).
Proof. intros Hu Hp. cbn. apply Forall_app. split; [exact Hp | by constructor]. Qed.

Lemma stripGenerated_keep (t : string) (gi : option nat) (p : Plan) :
  Forall (fun q => dropsOrAddsColumn q = false) (up p) ->
  Forall (fun q => dropsOrAddsColumn q = false) (up (MysqlSchema.stripGenerated t gi p)).
Proof.
  intros Hp. unfold MysqlSchema.stripGenerated.
  repeat case_match; try exact Hp; by apply push_keep.
Qed.

Lemma restoreGenerated_keep (t : string) (gi : option nat) (p : Plan) :
  Forall (fun q => dropsOrAddsColumn q = false) (up p) ->
  Forall (fun q => dropsOrAddsColumn q = false) (up (MysqlSchema.restoreGenerated t gi p)).
Proof.
  intros Hp. unfold MysqlSchema.restoreGenerated.
  repeat case_match; try exact Hp; by apply push_keep.
Qed.

Lemma setPrimaryByName_up (n : string) (b : bool) (p p' : Plan) :
  MysqlSchema.setPrimaryByName n b p = Return p' -> up p' = up p.
Proof.
  unfold MysqlSchema.setPrimaryByName. case_match; [discriminate |]. by intros [= <-].
Qed.

Lemma changeColumn_rename_keep (t : string) (oldColumn newColumn oldColumn' : TableColumn.t)
    (p p' : Plan) :
  MysqlSchema.changeColumn_rename t oldColumn newColumn p = Return (p', oldColumn') ->
  Forall (fun q => dropsOrAddsColumn q = false) (up p) ->
  Forall (fun q => dropsOrAddsColumn q = false) (up p').
Proof.
  unfold MysqlSchema.changeColumn_rename. intros Hplan Hp.
  cbn [clonedTable push edit MysqlSchema.pushAll] in Hplan.
  pose proof (renameIndices_keep t (Table.name (clonedTable p)) (TableColumn.name oldColumn)
                (TableColumn.name newColumn) (Table.indices (clonedTable p))) as Hi.
  destruct (MysqlSchema.renameIndices _ _ _ _ _) as [iqs indices'].
  cbn [clonedTable push edit MysqlSchema.pushAll Table.name Table.with_indices
       Table.foreignKeys fst] in Hplan, Hi.
  pose proof (renameForeignKeys_keep t (Table.name (clonedTable p))
                (TableColumn.name oldColumn) (TableColumn.name newColumn)
                (Table.foreignKeys (clonedTable p))) as Hf.
  destruct (MysqlSchema.renameForeignKeys _ _ _ _ _) as [fqs foreignKeys'].
  cbn [fst] in Hf.
  destruct (if (_ <? 0)%Z then None else _); [| discriminate].
  injection Hplan as <- _. cbn [up edit MysqlSchema.pushAll push].
  rewrite !Forall_app. repeat split; try done. by constructor.
Qed.

Lemma changeColumn_primary_keep (t : string) (newColumn : TableColumn.t) (p p' : Plan) :
  MysqlSchema.changeColumn_primary t newColumn p = Return p' ->
  Forall (fun q => dropsOrAddsColumn q = false) (up p) ->
  Forall (fun q => dropsOrAddsColumn q = false) (up p').
Proof.
  unfold MysqlSchema.changeColumn_primary. intros Hplan Hp.
  set (gi := findGenerated _) in Hplan.
  set (p1 := MysqlSchema.stripGenerated t gi p) in Hplan.
  assert (Hk1 : Forall (fun q => dropsOrAddsColumn q = false) (up p1))
    by (by apply stripGenerated_keep).
  set (p2 := if Nat.ltb 0 _ then _ else p1) in Hplan.
  assert (Hk2 : Forall (fun q => dropsOrAddsColumn q = false) (up p2)).
  { subst p2. destruct (Nat.ltb 0 _); [by apply push_keep | exact Hk1]. }
  destruct (TableColumn.isPrimary newColumn).
  - destruct (MysqlSchema.setPrimaryByName _ true p2) as [p3 | |] eqn:Hset;
      [| discriminate | discriminate].
    apply setPrimaryByName_up in Hset. injection Hplan as <-.
    apply restoreGenerated_keep, push_keep; [reflexivity | by rewrite Hset].
  - destruct (MysqlSchema.setPrimaryByName _ false p2) as [p3 | |] eqn:Hset;
      [| discriminate | discriminate].
    apply setPrimaryByName_up in Hset. injection Hplan as <-.
    apply restoreGenerated_keep.
    destruct (Nat.ltb 0 (List.length (splice1 _ _)));
      [apply push_keep; [reflexivity |] |]; by rewrite Hset.
Qed.

Lemma changeColumn_unique_keep (t : string) (newColumn : TableColumn.t) (p p' : Plan) :
  MysqlSchema.changeColumn_unique t newColumn p = Return p' ->
  Forall (fun q => dropsOrAddsColumn q = false) (up p) ->
  Forall (fun q => dropsOrAddsColumn q = false) (up p').
Proof.
  unfold MysqlSchema.changeColumn_unique. intros Hplan Hp.
  destruct (TableColumn.isUnique newColumn).
  - injection Hplan as <-. by apply push_keep.
  - destruct (List.find _ _); [| discriminate].
    injection Hplan as <-. by apply push_keep.
Qed.

Lemma changeColumn_rest_keep (t : string) (oldColumn newColumn : TableColumn.t)
    (p p' : Plan) :
  MysqlSchema.changeColumn_rest t oldColumn newColumn p = Return p' ->
  Forall (fun q => dropsOrAddsColumn q = false) (up p) ->
  Forall (fun q => dropsOrAddsColumn q = false) (up p').
Proof.
  unfold MysqlSchema.changeColumn_rest. intros Hplan Hp.
  set (p1 := if isColumnChanged _ _ _ _ then _ else p) in Hplan.
  assert (Hk1 : Forall (fun q => dropsOrAddsColumn q = false) (up p1)).
  { subst p1. destruct (isColumnChanged _ _ _ _); [by apply push_keep | exact Hp]. }
  destruct (if negb (Bool.eqb (TableColumn.isPrimary newColumn) _) then _ else _)
    as [p2 | |] eqn:Hprimary; [| discriminate | discriminate].
  assert (Hk2 : Forall (fun q => dropsOrAddsColumn q = false) (up p2)).
  { destruct (negb (Bool.eqb (TableColumn.isPrimary newColumn) _)).
    - by apply (changeColumn_primary_keep t newColumn p1).
    - by injection Hprimary as <-. }
  destruct (negb (Bool.eqb (TableColumn.isUnique newColumn) _)).
  - by apply (changeColumn_unique_keep t newColumn p2).
  - by injection Hplan as <-.
Qed.

(** When the condition does not hold, the statements of a returning
    changeColumn drop and add no column. *)
Lemma changeColumn_in_place (a : nat) (tb : Table.t) (oldColumn newColumn : TableColumn.t)
    (r r' : QueryRunner) :
  tables r !! a = Some tb ->
  MysqlSchema.mustRecreate oldColumn newColumn = false ->
  MysqlSchema.changeColumn (inl a) (inl oldColumn) newColumn r = (Return tt, r') ->
  exists sent,
    wire r' = wire r ++ sent /\ Forall (fun q => dropsOrAddsColumn q = false) sent.
Proof.
  intros Hl Hkeep. unfold MysqlSchema.changeColumn, resolveTable.
  unfold bind at 1, ret. unfold bind at 1. rewrite (readTable_some a r tb Hl).
  rewrite Hkeep. unfold bind at 1.
  destruct (negb (String.eqb (TableColumn.name newColumn) (TableColumn.name oldColumn))).
  - unfold bind at 1, MysqlSchema.lift.
    destruct (MysqlSchema.changeColumn_rename _ _ _ _) as [[p1 oldColumn1] | |] eqn:Hrename;
      [| discriminate | discriminate].
    apply changeColumn_rename_keep in Hrename; [| constructor].
    unfold bind at 1, ret. cbn [fst snd].
    unfold bind at 1, MysqlSchema.lift.
    destruct (MysqlSchema.changeColumn_rest _ _ _ _) as [p2 | |] eqn:Hrest;
      [| discriminate | discriminate].
    apply changeColumn_rest_keep in Hrest; [| exact Hrename].
    unfold bind at 1.
    destruct (MysqlSchema.executeQueries _ _ r) as [[[]| |] r1] eqn:Hexec;
      [| discriminate | discriminate].
    apply executeQueries_wire in Hexec. intros Hswap.
    apply replaceCachedTable_fields in Hswap as (Hw & _).
    exists (up p2). split; [congruence | exact Hrest].
  - cbn [fst snd].
    unfold bind at 1, MysqlSchema.lift.
    destruct (MysqlSchema.changeColumn_rest _ _ _ _) as [p2 | |] eqn:Hrest;
      [| discriminate | discriminate].
    apply changeColumn_rest_keep in Hrest; [| constructor].
    unfold bind at 1.
    destruct (MysqlSchema.executeQueries _ _ r) as [[[]| |] r1] eqn:Hexec;
      [| discriminate | discriminate].
    apply executeQueries_wire in Hexec. intros Hswap.
    apply replaceCachedTable_fields in Hswap as (Hw & _).
    exists (up p2). split; [congruence | exact Hrest].
Qed.
End RecreateFacts.

(** C6 as stated fails on a change of generation to uuid: the MySQL runner
    does not recreate the column.  Here name varchar(50) becomes a
    generated uuid column of the same type and length: the old and the new
    column differ in isGenerated and in the generation strategy, the call
    returns, and no statement has been sent: no column was dropped or
    added.  (The condition of the Postgres runner does not look at
    generation at all.) *)
Lemma change_to_uuid_recreates_nothing :
  let H := Fixture.accepting in
  let N := Fixture.naming in
  let D := Fixture.diff in
  let oldColumn := Fixture.column "name" "varchar" "50" false false in
  let newColumn := TableColumn.with_generation true (Some uuid) oldColumn in
  let changed :=
    MysqlSchema.changeColumn (inr "t") (inr "name") newColumn (Fixture.runnerWith Fixture.t0) in
  TableColumn.isGenerated oldColumn <> TableColumn.isGenerated newColumn
  /\ TableColumn.generationStrategy oldColumn <> TableColumn.generationStrategy newColumn
  /\ fst changed = Return tt
  /\ wire (snd changed) = []
  /\ Postgres.mustRecreate oldColumn
       (TableColumn.with_generation true (Some increment) oldColumn) = false.
Proof.
  intros H N D oldColumn newColumn changed.
  split; [discriminate |]. split; [discriminate |].
  split; [vm_compute; reflexivity |]. split; vm_compute; reflexivity.
Qed.

(** C6 (amended).  changeColumn recreates the column when the type or the
    length differs (MySQL, Postgres and SQL Server runners), and on the
    MySQL and SQL Server runners also when isGenerated differs and the new
    generation strategy is not uuid.  When a runner recreates, a call that
    returns has run dropColumn on the old column and then addColumn on the
    new one, and has sent nothing else: the DROP COLUMN of the old column
    is followed by the ADD of the new one.  On the MySQL runner the ADD is
    built from the table as dropColumn left it.  When the MySQL runner
    does not recreate, it drops and adds no column.  With the type and the
    length unchanged, the Postgres runner recreates only for a change of
    isArray, whatever the generation, and a change to the uuid strategy
    makes the SQL Server runner recreate nothing, and the MySQL runner
    nothing unless generatedType differs. *)
Theorem changeColumn_recreates_on_type_or_length `{Driver} `{NamingStrategy} `{ColumnDiff}
    (postgresInPlace sqlserverInPlace : nat -> Table.t -> TableColumn.t -> TableColumn.t -> M unit)
    (a : nat) (tb : Table.t) (oldColumn newColumn : TableColumn.t) (r r' : QueryRunner) :
  tables r !! a = Some tb ->
  let t := Table.name tb in
  let oldName := TableColumn.name oldColumn in
  (TableColumn.type oldColumn <> TableColumn.type newColumn
   \/ TableColumn.length oldColumn <> TableColumn.length newColumn ->
   MysqlSchema.mustRecreate oldColumn newColumn = true
   /\ Postgres.mustRecreate oldColumn newColumn = true
   /\ SqlServer.mustRecreate oldColumn newColumn = true)
  /\ (TableColumn.isGenerated oldColumn <> TableColumn.isGenerated newColumn ->
      TableColumn.generationStrategy newColumn <> Some uuid ->
      MysqlSchema.mustRecreate oldColumn newColumn = true
      /\ SqlServer.mustRecreate oldColumn newColumn = true)
  /\ (MysqlSchema.mustRecreate oldColumn newColumn = true ->
      MysqlSchema.changeColumn (inl a) (inl oldColumn) newColumn r = (Return tt, r') ->
      exists r1 dropPlan tb1 before after,
        MysqlSchema.dropColumn (inl a) (inl oldColumn) r = (Return tt, r1)
        /\ MysqlSchema.dropColumn_plan tb oldColumn = Return dropPlan
        /\ up dropPlan = before ++ [AlterDropColumn t oldName]
        /\ tables r1 !! a = Some tb1
        /\ (getCachedTable t r = (Return a, r) ->
            tb1 = Table.removeColumn oldColumn (clonedTable dropPlan))
        /\ up (MysqlSchema.addColumn_plan tb1 newColumn)
           = AlterAdd t
               (buildCreateColumnSql newColumn
                  (Nat.ltb 0 (List.length (Table.primaryColumns tb1))) false) :: after
        /\ wire r' = wire r ++ up dropPlan ++ up (MysqlSchema.addColumn_plan tb1 newColumn))
  /\ (Postgres.mustRecreate oldColumn newColumn = true ->
      PostgresColumns.changeColumn postgresInPlace (inl a) (inl oldColumn) newColumn r
      = (Return tt, r') ->
      exists r1 r2 before between after,
        PostgresColumns.dropColumn (inl a) (inl oldColumn) r = (Return tt, r1)
        /\ PostgresColumns.addColumn (inl a) newColumn r1 = (Return tt, r2)
        /\ wire r' = wire r2
        /\ wire r' = wire r ++ before ++ DropColumn t oldName
                       :: between ++ PgAddColumn t newColumn :: after)
  /\ (SqlServer.mustRecreate oldColumn newColumn = true ->
      SqlServerColumns.changeColumn sqlserverInPlace (inl a) (inl oldColumn) newColumn r
      = (Return tt, r') ->
      exists r1 before after,
        SqlServerColumns.dropColumn (inl a) (inl oldColumn) r = (Return tt, r1)
        /\ SqlServerColumns.addColumn (inl a) newColumn r1 = (Return tt, r')
        /\ wire r' = wire r ++ before ++ DropColumn t oldName
                       :: MssqlAddColumn t newColumn false true :: after)
  /\ (MysqlSchema.mustRecreate oldColumn newColumn = false ->
      MysqlSchema.changeColumn (inl a) (inl oldColumn) newColumn r = (Return tt, r') ->
      exists sent,
        wire r' = wire r ++ sent /\ Forall (fun q => dropsOrAddsColumn q = false) sent)
  /\ (TableColumn.type oldColumn = TableColumn.type newColumn ->
      TableColumn.length oldColumn = TableColumn.length newColumn ->
      (TableColumn.isArray oldColumn = TableColumn.isArray newColumn ->
       Postgres.mustRecreate oldColumn newColumn = false)
      /\ (TableColumn.generationStrategy newColumn = Some uuid ->
          SqlServer.mustRecreate oldColumn newColumn = false
          /\ (TableColumn.generatedType oldColumn = TableColumn.generatedType newColumn ->
              MysqlSchema.mustRecreate oldColumn newColumn = false))).
Proof.
  intros Hl t oldName. split; [| split; [| split; [| split; [| split; [| split]]]]].
  - unfold MysqlSchema.mustRecreate, Postgres.mustRecreate, SqlServer.mustRecreate.
    intros [Hne | Hne].
    + apply String.eqb_neq in Hne. rewrite Hne.
      rewrite String.eqb_sym in Hne. rewrite Hne. cbn.
      rewrite !orb_true_r. done.
    + apply String.eqb_neq in Hne. rewrite Hne.
      rewrite String.eqb_sym in Hne. rewrite Hne. cbn.
      rewrite !orb_true_r. done.
  - unfold MysqlSchema.mustRecreate, SqlServer.mustRecreate.
    intros Hgen Hstrategy.
    assert (Hb : Bool.eqb (TableColumn.isGenerated newColumn)
                          (TableColumn.isGenerated oldColumn) = false).
    { destruct (TableColumn.isGenerated newColumn), (TableColumn.isGenerated oldColumn);
        cbn; congruence. }
    assert (Hs : opt_eqb GenerationStrategy_eqb
                   (TableColumn.generationStrategy newColumn) (Some uuid) = false).
    { destruct (TableColumn.generationStrategy newColumn) as [[] |]; cbn; congruence. }
    rewrite Hb, Hs. done.
  - intros Hrecreate.
    unfold MysqlSchema.changeColumn, resolveTable.
    unfold bind at 1, ret. unfold bind at 1. rewrite (readTable_some a r tb Hl).
    rewrite Hrecreate.
    unfold bind at 1.
    destruct (MysqlSchema.dropColumn _ _ r) as [[[]| |] r1] eqn:Hdrop;
      [| discriminate | discriminate].
    destruct (dropColumn_store a tb _ r r1 Hl Hdrop)
      as (dropPlan & Hplan & Hw1 & _ & Hobject).
    assert (Hl1 : exists tb1, tables r1 !! a = Some tb1 /\ Table.name tb1 = Table.name tb).
    { revert Hdrop. unfold MysqlSchema.dropColumn, resolveTable.
      unfold bind at 1, ret. unfold bind at 1. rewrite (readTable_some a r tb Hl).
      unfold bind at 1, MysqlSchema.lift. rewrite Hplan. intros Hrun.
      apply (then_replace _ (up dropPlan) a tb) in Hrun as (_ & tb1 & Hl1 & Hn).
      - by exists tb1.
      - intros r2 r3 Hexec. split; [by apply executeQueries_wire in Hexec |].
        by apply executeQueries_store in Hexec.
      - exact Hl.
      - rewrite removeColumn_name. by apply dropColumn_plan_name in Hplan. }
    destruct Hl1 as (tb1 & Hl1 & Hname1).
    unfold bind at 1.
    destruct (MysqlSchema.addColumn _ _ r1) as [[[]| |] r2] eqn:Hadd;
      [| discriminate | discriminate].
    destruct (addColumn_store a tb1 _ r1 r2 Hl1 Hadd) as (Hw2 & _ & _).
    unfold bind at 1.
    destruct (readTable a r2) as [[tb2 | |] r2'] eqn:Hread; [| discriminate | discriminate].
    apply readTable_inv in Hread as [-> _].
    unfold bind at 1.
    destruct (MysqlSchema.executeQueries [] [] r2) as [[[]| |] r3] eqn:Hexec;
      [| discriminate | discriminate].
    apply executeQueries_wire in Hexec. rewrite app_nil_r in Hexec.
    intros Hswap. apply replaceCachedTable_fields in Hswap as (Hw3 & _).
    destruct (dropColumn_plan_ends tb oldColumn dropPlan Hplan) as [before Hends].
    destruct (addColumn_plan_starts tb1 newColumn) as [after Hstarts].
    exists r1, dropPlan, tb1, before, after.
    split; [reflexivity |]. split; [exact Hplan |]. split; [exact Hends |].
    split; [exact Hl1 |]. split.
    { intros Hget. destruct (Hobject Hget) as [Hstore _].
      rewrite Hstore in Hl1.
      rewrite list_lookup_insert_eq in Hl1 by (by apply lookup_lt_Some in Hl).
      by injection Hl1 as <-. }
    split; [rewrite Hstarts, Hname1; reflexivity |].
    rewrite Hw3, Hexec, Hw2, Hw1, <- app_assoc. reflexivity.
  - intros Hrecreate.
    unfold PostgresColumns.changeColumn, resolveTable.
    unfold bind at 1, ret. unfold bind at 1. rewrite (readTable_some a r tb Hl).
    rewrite Hrecreate.
    unfold bind at 1.
    destruct (PostgresColumns.dropColumn _ _ r) as [[[]| |] r1] eqn:Hdrop;
      [| discriminate | discriminate].
    destruct (postgres_dropColumn_sends a tb _ r r1 Hl Hdrop)
      as [(before & after1 & Hw1) (tb1 & Hl1 & Hname1)].
    unfold bind at 1.
    destruct (PostgresColumns.addColumn _ _ r1) as [[[]| |] r2] eqn:Hadd;
      [| discriminate | discriminate].
    destruct (postgres_addColumn_sends a tb1 _ r1 r2 Hl1 Hadd)
      as [(before2 & after & Hw2) _].
    unfold bind at 1.
    destruct (readTable a r2) as [[tb2 | |] r2'] eqn:Hread; [| discriminate | discriminate].
    apply readTable_inv in Hread as [-> _].
    unfold bind at 1.
    destruct (PostgresSchema.executeQueries [] [] r2) as [[[]| |] r3] eqn:Hexec;
      [| discriminate | discriminate].
    apply postgres_executeQueries_sends in Hexec as (Hexec & _).
    rewrite app_nil_r in Hexec.
    intros Hswap. apply replaceCachedTable_fields in Hswap as (Hw3 & _).
    exists r1, r2, before, (after1 ++ before2), after.
    split; [reflexivity |]. split; [exact Hadd |].
    split; [by rewrite Hw3, Hexec |].
    rewrite Hw3, Hexec, Hw2, Hw1, Hname1, <- !app_assoc. cbn [app].
    rewrite <- ?app_assoc. reflexivity.
  - intros Hrecreate.
    unfold SqlServerColumns.changeColumn, resolveTable.
    unfold bind at 1, ret. unfold bind at 1. rewrite (readTable_some a r tb Hl).
    rewrite Hrecreate.
    unfold bind at 1.
    destruct (SqlServerColumns.dropColumn _ _ r) as [[[]| |] r1] eqn:Hdrop;
      [| discriminate | discriminate].
    destruct (sqlserver_dropColumn_sends a tb _ r r1 Hl Hdrop)
      as [(before & Hw1) (tb1 & Hl1 & Hname1)].
    intros Hadd.
    destruct (sqlserver_addColumn_sends a tb1 _ r1 r' Hl1 Hadd) as [(after & Hw2) _].
    exists r1, before, after.
    split; [reflexivity |]. split; [exact Hadd |].
    rewrite Hw2, Hw1, Hname1, <- !app_assoc. reflexivity.
  - by apply (changeColumn_in_place a tb).
  - unfold MysqlSchema.mustRecreate, Postgres.mustRecreate, SqlServer.mustRecreate.
    intros -> ->. rewrite !String.eqb_refl. split.
    + intros ->. by rewrite Bool.eqb_reflx.
    + intros ->. cbn. rewrite !andb_false_r. split; [reflexivity |].
      intros ->. cbn.
      destruct (TableColumn.generatedType newColumn); cbn; [by rewrite String.eqb_refl | done].
Qed.

(** id int primary key to id bigint on t: the key and the column are
    dropped, and the column is added to the table that is left, which has
    no key any more: the ADD carries the key itself.  The same change on
    the Postgres and SQL Server runners drops and adds the column too. *)
Lemma changeColumn_recreates_on_type_or_length_witness :
  let H := Fixture.accepting in
  let N := Fixture.naming in
  let D := Fixture.diff in
  let oldColumn := Fixture.column "id" "int" EmptyString true false in
  let newColumn := Fixture.column "id" "bigint" EmptyString true false in
  let r := Fixture.runnerWith Fixture.t0 in
  let inPlace := fun (_ : nat) (_ : Table.t) (_ _ : TableColumn.t) => ret tt in
  wire (snd (MysqlSchema.changeColumn (inl 0%nat) (inl oldColumn) newColumn r))
  = [AlterDropPrimaryKey "t"; AlterDropColumn "t" "id";
     AlterAdd "t" (buildCreateColumnSql newColumn false false)]
  /\ wire (snd (PostgresColumns.changeColumn inPlace (inl 0%nat) (inl oldColumn) newColumn r))
     = [DropConstraint "t" "PK_t_id"; DropColumn "t" "id"; PgAddColumn "t" newColumn;
        AddPrimaryKeyConstraint "t" "PK_t_id" ["id"]]
  /\ wire (snd (SqlServerColumns.changeColumn inPlace (inl 0%nat) (inl oldColumn) newColumn r))
     = [DropConstraint "t" "PK_t_id"; DropColumn "t" "id";
        MssqlAddColumn "t" newColumn false true;
        AddPrimaryKeyConstraint "t" "PK_t_id" ["id"]].
Proof.
  intros H N D oldColumn newColumn r inPlace.
  set (r1 := snd (MysqlSchema.changeColumn (inl 0%nat) (inl oldColumn) newColumn r)).
  set (r2 := snd (PostgresColumns.changeColumn inPlace (inl 0%nat) (inl oldColumn) newColumn r)).
  set (r3 := snd (SqlServerColumns.changeColumn inPlace (inl 0%nat) (inl oldColumn) newColumn r)).
  assert (Hne : TableColumn.type oldColumn <> TableColumn.type newColumn)
    by (vm_compute; discriminate).
  assert (Hget : getCachedTable "t" r = (Return 0%nat, r)) by (vm_compute; reflexivity).
  assert (Hrun1 : MysqlSchema.changeColumn (inl 0%nat) (inl oldColumn) newColumn r
                  = (Return tt, r1)) by (vm_compute; reflexivity).
  assert (Hrun2 : PostgresColumns.changeColumn inPlace (inl 0%nat) (inl oldColumn) newColumn r
                  = (Return tt, r2)) by (vm_compute; reflexivity).
  assert (Hrun3 : SqlServerColumns.changeColumn inPlace (inl 0%nat) (inl oldColumn) newColumn r
                  = (Return tt, r3)) by (vm_compute; reflexivity).
  destruct (changeColumn_recreates_on_type_or_length inPlace inPlace 0 Fixture.t0
              oldColumn newColumn r r1 eq_refl) as (Hcond & _ & Hmysql & _).
  destruct (changeColumn_recreates_on_type_or_length inPlace inPlace 0 Fixture.t0
              oldColumn newColumn r r2 eq_refl) as (_ & _ & _ & Hpostgres & _).
  destruct (changeColumn_recreates_on_type_or_length inPlace inPlace 0 Fixture.t0
              oldColumn newColumn r r3 eq_refl) as (_ & _ & _ & _ & Hsqlserver & _).
  destruct (Hcond (or_introl Hne)) as (Hc1 & Hc2 & Hc3).
  destruct (Hmysql Hc1 Hrun1)
    as (r1' & dropPlan & tb1 & before & after & _ & Hplan & _ & _ & Htb1 & _ & Hwire).
  destruct (Hpostgres Hc2 Hrun2) as (_ & _ & _ & _ & _ & _ & _ & _).
  destruct (Hsqlserver Hc3 Hrun3) as (_ & _ & _ & _ & _ & _).
  specialize (Htb1 Hget). subst tb1.
  assert (Hdrop : dropPlan
                  = mkPlan [AlterDropPrimaryKey "t"; AlterDropColumn "t" "id"]
                           [AlterAddPrimaryKey "t" ["id"];
                            AlterAdd "t" (buildCreateColumnSql oldColumn true false)]
                           (Table.with_columns
                              [Fixture.column "id" "int" EmptyString false false;
                               Fixture.column "name" "varchar" "50" false false] Fixture.t0)).
  { vm_compute in Hplan. by injection Hplan as <-. }
  subst dropPlan.
  split; [etransitivity; [exact Hwire | vm_compute; reflexivity] |].
  split; vm_compute; reflexivity.
Defined.

(** ** The rename block of changeColumn *)

Section RenameFacts.
Context `{NamingStrategy}.

Lemma renameIndices_in (t tableName oldName newName : string) (ixs : list TableIndex.t)
    (index : TableIndex.t) :
  In index ixs ->
  mentions oldName (TableIndex.columnNames index) = true ->
  let index1 :=
    TableIndex.with_columnNames
      (replaceColumnName oldName newName (TableIndex.columnNames index)) index in
  let newIndexName :=
    indexName tableName (TableIndex.columnNames index1) (TableIndex.where_ index) in
  In (AlterRenameIndex t (TableIndex.name index) newIndexName index1,
      AlterRenameIndex t newIndexName (TableIndex.name index) index1)
     (fst (MysqlSchema.renameIndices t tableName oldName newName ixs))
  /\ In (TableIndex.with_name newIndexName index1)
        (snd (MysqlSchema.renameIndices t tableName oldName newName ixs)).
Proof.
  intros Hin Hm. induction ixs as [| x ixs IH]; [done |].
  cbn [MysqlSchema.renameIndices].
  destruct (MysqlSchema.renameIndices t tableName oldName newName ixs) as [qs rest] eqn:Hrest.
  destruct Hin as [-> | Hin].
  - rewrite Hm. cbn. split; left; reflexivity.
  - specialize (IH Hin). cbn in IH. destruct IH as [Hq Hi].
    destruct (mentions oldName (TableIndex.columnNames x)); cbn; split; auto.
Qed.

Lemma renameForeignKeys_in (t tableName oldName newName : string)
    (fks : list TableForeignKey.t) (foreignKey : TableForeignKey.t) :
  In foreignKey fks ->
  mentions oldName (TableForeignKey.columnNames foreignKey) = true ->
  let fk1 :=
    TableForeignKey.with_columnNames
      (replaceColumnName oldName newName (TableForeignKey.columnNames foreignKey))
      foreignKey in
  let newForeignKeyName :=
    foreignKeyName tableName (TableForeignKey.columnNames fk1)
      (TableForeignKey.referencedTableName foreignKey)
      (TableForeignKey.referencedColumnNames foreignKey) in
  In (AlterRenameForeignKey t (TableForeignKey.name foreignKey) newForeignKeyName fk1,
      AlterRenameForeignKey t newForeignKeyName (TableForeignKey.name foreignKey) fk1)
     (fst (MysqlSchema.renameForeignKeys t tableName oldName newName fks))
  /\ In (TableForeignKey.with_name newForeignKeyName fk1)
        (snd (MysqlSchema.renameForeignKeys t tableName oldName newName fks)).
Proof.
  intros Hin Hm. induction fks as [| x fks IH]; [done |].
  cbn [MysqlSchema.renameForeignKeys].
  destruct (MysqlSchema.renameForeignKeys t tableName oldName newName fks)
    as [qs rest] eqn:Hrest.
  destruct Hin as [-> | Hin].
  - rewrite Hm. cbn. split; left; reflexivity.
  - specialize (IH Hin). cbn in IH. destruct IH as [Hq Hi].
    destruct (mentions oldName (TableForeignKey.columnNames x)); cbn; split; auto.
Qed.
End RenameFacts.

(** What the rename block of the MySQL changeColumn does rename, when it
    completes: every index and every foreign key of the table whose column
    list mentions the old column name is replaced by one whose column list
    has the old name removed and the new name appended, and whose name is
    the one the naming strategy computes from that list; for each of them a
    forward statement (old name to new) is in up and its inverse (new name
    to old) is in down. *)
Lemma rename_cascades_to_indices_and_foreign_keys `{NamingStrategy}
    (tb : Table.t) (oldColumn newColumn oldColumn' : TableColumn.t) (p : Plan) :
  MysqlSchema.changeColumn_rename (Table.name tb) oldColumn newColumn
    (mkPlan [] [] (Table.clone tb)) = Return (p, oldColumn') ->
  let t := Table.name tb in
  let oldName := TableColumn.name oldColumn in
  let newName := TableColumn.name newColumn in
  (forall index, In index (Table.indices tb) ->
     mentions oldName (TableIndex.columnNames index) = true ->
     let index1 := TableIndex.with_columnNames
                     (replaceColumnName oldName newName (TableIndex.columnNames index))
                     index in
     let newIndexName :=
       indexName t (TableIndex.columnNames index1) (TableIndex.where_ index) in
     In (TableIndex.with_name newIndexName index1) (Table.indices (clonedTable p))
     /\ In (AlterRenameIndex t (TableIndex.name index) newIndexName index1) (up p)
     /\ In (AlterRenameIndex t newIndexName (TableIndex.name index) index1) (down p))
  /\ (forall foreignKey, In foreignKey (Table.foreignKeys tb) ->
     mentions oldName (TableForeignKey.columnNames foreignKey) = true ->
     let fk1 := TableForeignKey.with_columnNames
                  (replaceColumnName oldName newName
                     (TableForeignKey.columnNames foreignKey)) foreignKey in
     let newForeignKeyName :=
       foreignKeyName t (TableForeignKey.columnNames fk1)
         (TableForeignKey.referencedTableName foreignKey)
         (TableForeignKey.referencedColumnNames foreignKey) in
     In (TableForeignKey.with_name newForeignKeyName fk1)
        (Table.foreignKeys (clonedTable p))
     /\ In (AlterRenameForeignKey t (TableForeignKey.name foreignKey) newForeignKeyName fk1)
           (up p)
     /\ In (AlterRenameForeignKey t newForeignKeyName (TableForeignKey.name foreignKey) fk1)
           (down p))
  /\ TableColumn.name oldColumn' = newName.
Proof.
  intros Hplan t oldName newName.
  unfold MysqlSchema.changeColumn_rename, Table.clone in Hplan.
  cbn [clonedTable push edit MysqlSchema.pushAll Table.indices Table.foreignKeys
       Table.with_indices Table.name up down] in Hplan.
  fold t oldName newName in Hplan.
  destruct (MysqlSchema.renameIndices t t oldName newName (Table.indices tb))
    as [iqs indices'] eqn:Hindices.
  cbn [clonedTable push edit MysqlSchema.pushAll Table.indices Table.foreignKeys
       Table.with_indices Table.name up down] in Hplan.
  destruct (MysqlSchema.renameForeignKeys t t oldName newName (Table.foreignKeys tb))
    as [fqs foreignKeys'] eqn:Hfks.
  cbn [clonedTable push edit MysqlSchema.pushAll Table.indices Table.foreignKeys
       Table.with_indices Table.with_foreignKeys Table.name Table.columns up down] in Hplan.
  destruct (if (indexOfFirst (columnNamed oldName) (Table.columns tb) <? 0)%Z
            then None else _) as [oldTableColumn |]; [| discriminate].
  injection Hplan as <- <-.
  cbn [clonedTable edit up down Table.indices Table.foreignKeys Table.with_columns].
  split; [| split; [| reflexivity]].
  - intros index Hin Hm. cbv zeta.
    destruct (renameIndices_in t t oldName newName _ index Hin Hm) as [Hq Hi].
    rewrite Hindices in Hq, Hi. cbn [fst snd] in Hq, Hi.
    split; [exact Hi |].
    split; cbn; right; apply in_or_app; left.
    + by apply (in_map fst) in Hq.
    + by apply (in_map snd) in Hq.
  - intros foreignKey Hin Hm. cbv zeta.
    destruct (renameForeignKeys_in t t oldName newName _ foreignKey Hin Hm) as [Hq Hi].
    rewrite Hfks in Hq, Hi. cbn [fst snd] in Hq, Hi.
    split; [exact Hi |].
    split; cbn; right; apply in_or_app; right.
    + by apply (in_map fst) in Hq.
    + by apply (in_map snd) in Hq.
Qed.

(** The rename of email to mail on that table: the index on email is
    renamed, with its statement pair. *)
Example rename_of_email_renames_its_index :
  let N := Fixture.naming in
  let newColumn := TableColumn.with_name "mail" Fixture.email in
  let index := newUniqueIndex "IDX_t_email" ["email"] in
  let index1 := newUniqueIndex "IDX_t_email" ["mail"] in
  exists p oldColumn',
    MysqlSchema.changeColumn_rename "t" Fixture.email newColumn
      (mkPlan [] [] (Table.clone Fixture.withEmail)) = Return (p, oldColumn')
    /\ In (newUniqueIndex "IDX_t_mail" ["mail"]) (Table.indices (clonedTable p))
    /\ In (AlterRenameIndex "t" "IDX_t_email" "IDX_t_mail" index1) (up p)
    /\ In (AlterRenameIndex "t" "IDX_t_mail" "IDX_t_email" index1) (down p).
Proof.
  intros N newColumn index index1.
  destruct (MysqlSchema.changeColumn_rename "t" Fixture.email newColumn
              (mkPlan [] [] (Table.clone Fixture.withEmail)))
    as [[p oldColumn'] | e |] eqn:Hplan.
  - exists p, oldColumn'. split; [reflexivity |].
    destruct (rename_cascades_to_indices_and_foreign_keys Fixture.withEmail
                Fixture.email newColumn oldColumn' p Hplan) as (Hindices & _ & _).
    exact (Hindices index (or_introl eq_refl) eq_refl).
  - vm_compute in Hplan. discriminate.
  - vm_compute in Hplan. discriminate.
Qed.

(** C7, where the code departs from it.  On t(id int primary key, name
    varchar(50)) of the MySQL runner, addColumn of the unique column email
    and then renameColumn of email to mail.  Both calls return.  The rename
    sends two statements, for the column and for the unique index addColumn
    made, and in the cached table the column is mail and the index is the
    one the naming strategy names for mail.  The entry addColumn made in the
    uniques list of the table is not renamed: it keeps the name of the old
    index and still lists email.  This holds under every naming
    strategy. *)
Theorem renameColumn_leaves_unique_entry `{NamingStrategy} :
  let H := Fixture.accepting in
  let D := Fixture.diff in
  let r0 := Fixture.runnerWith Fixture.t0 in
  let added := MysqlSchema.addColumn (inr "t") Fixture.email r0 in
  let renamed :=
    MysqlSchema.renameColumn (inr "t") (inr "email") (inr "mail") (snd added) in
  let oldIndexName := indexName "t" ["email"] None in
  let newIndexName := indexName "t" ["mail"] None in
  fst added = Return tt
  /\ (Table.indices <$> cachedTable "t" (snd added))
     = Some [newUniqueIndex oldIndexName ["email"]]
  /\ (Table.uniques <$> cachedTable "t" (snd added))
     = Some [TableUnique.mk oldIndexName ["email"]]
  /\ fst renamed = Return tt
  /\ wire (snd renamed)
     = wire (snd added)
       ++ [AlterChangeRename "t" "email" "mail" (buildCreateColumnSql Fixture.email true true);
           AlterRenameIndex "t" oldIndexName newIndexName
             (newUniqueIndex oldIndexName ["mail"])]
  /\ (List.map TableColumn.name <$> (Table.columns <$> cachedTable "t" (snd renamed)))
     = Some ["id"; "name"; "mail"]
  /\ (Table.indices <$> cachedTable "t" (snd renamed))
     = Some [newUniqueIndex newIndexName ["mail"]]
  /\ (Table.uniques <$> cachedTable "t" (snd renamed))
     = Some [TableUnique.mk oldIndexName ["email"]].
Proof.
  intros H0 D r0 added renamed oldIndexName newIndexName.
  do 7 (split; [vm_compute; reflexivity |]). vm_compute; reflexivity.
Qed.

(** What the stale entry does next.  With a second unique column phone
    added, and email renamed to mail, changeColumn of mail to a column that
    is not unique drops the index of mail, looks in the uniques list for an
    entry of that name, finds none, and splices at the position indexOf
    gives for a missing element, -1: the last entry, which is the one of
    phone.  The index of phone stays, its entry in the uniques list is
    gone, and the entry of email is still there. *)
Lemma stale_unique_entry_costs_another :
  let H := Fixture.accepting in
  let N := Fixture.naming in
  let D := Fixture.diff in
  let phone := TableColumn.with_name "phone" Fixture.email in
  let r1 := snd (MysqlSchema.addColumn (inr "t") Fixture.email
                   (Fixture.runnerWith Fixture.t0)) in
  let r2 := snd (MysqlSchema.addColumn (inr "t") phone r1) in
  let r3 := snd (MysqlSchema.renameColumn (inr "t") (inr "email") (inr "mail") r2) in
  let changed :=
    MysqlSchema.changeColumn (inr "t") (inr "mail")
      (Fixture.column "mail" "varchar" "255" false false) r3 in
  (Table.uniques <$> cachedTable "t" r3)
  = Some [TableUnique.mk "IDX_t_email" ["email"]; TableUnique.mk "IDX_t_phone" ["phone"]]
  /\ fst changed = Return tt
  /\ wire (snd changed) = wire r3 ++ [AlterDropIndex "t" "IDX_t_mail"]
  /\ (Table.indices <$> cachedTable "t" (snd changed))
     = Some [newUniqueIndex "IDX_t_phone" ["phone"]]
  /\ (Table.uniques <$> cachedTable "t" (snd changed))
     = Some [TableUnique.mk "IDX_t_email" ["email"]].
Proof.
  intros H N D phone r1 r2 r3 changed.
  do 4 (split; [vm_compute; reflexivity |]). vm_compute; reflexivity.
Qed.

(** ** Identity and the primary key across a change of key membership *)

Section IdentityFacts.

Lemma identity_apply (s : Persisted.State) (q : Query) :
  Persisted.identity (Persisted.apply s q) = Persisted.identityStep (Persisted.identity s) q.
Proof. destruct q; reflexivity. Qed.

Lemma identity_states (s : Persisted.State) (qs : list Query) :
  List.map Persisted.identity (Persisted.states s qs)
  = Persisted.identityTrace (Persisted.identity s) qs.
Proof.
  revert s. induction qs as [| q qs IH]; intros s; [reflexivity |].
  cbn. rewrite IH, identity_apply. reflexivity.
Qed.

Lemma identity_final (s : Persisted.State) (qs : list Query) :
  Persisted.identity (Persisted.final s qs)
  = fold_left Persisted.identityStep qs (Persisted.identity s).
Proof.
  unfold Persisted.final.
  revert s. induction qs as [| q qs IH]; intros s; [reflexivity |].
  cbn. rewrite IH, identity_apply. reflexivity.
Qed.

Lemma map_removelast {A B} (f : A -> B) (l : list A) :
  List.map f (removelast l) = removelast (List.map f l).
Proof.
  induction l as [| x [| y l] IH]; [reflexivity | reflexivity |].
  change (f x :: List.map f (removelast (y :: l))
          = f x :: removelast (List.map f (y :: l))).
  by rewrite IH.
Qed.

(** No identity column, no uncovered identity column. *)
Lemma covered_of_no_identity (l : list Persisted.State) :
  Forall (fun ids => ids = []) (List.map Persisted.identity l) ->
  Forall (fun s => Persisted.covered s = true) l.
Proof.
  induction l as [| s l IH]; [constructor |].
  cbn. intros Hall. apply Forall_cons_1 in Hall as [Hs Hl].
  constructor; [| by apply IH].
  unfold Persisted.covered. by rewrite Hs.
Qed.

Lemma intermediate_covered (s : Persisted.State) (qs : list Query) :
  Forall (fun ids => ids = []) (removelast (Persisted.identityTrace (Persisted.identity s) qs)) ->
  Forall (fun s' => Persisted.covered s' = true) (Persisted.intermediate s qs).
Proof.
  intros Hall. apply covered_of_no_identity.
  unfold Persisted.intermediate. by rewrite map_removelast, identity_states.
Qed.

Lemma indexOfFirst_lookup {A} (p : A -> bool) (l : list A) :
  (0 <= indexOfFirst p l)%Z ->
  exists x, l !! Z.to_nat (indexOfFirst p l) = Some x /\ p x = true
            /\ List.filter p (take (Z.to_nat (indexOfFirst p l)) l) = [].
Proof.
  induction l as [| y l IH]; cbn; [lia |].
  destruct (p y) eqn:Hy.
  - intros _. exists y. done.
  - destruct (indexOfFirst p l <? 0)%Z eqn:Hi; [lia |].
    apply Z.ltb_ge in Hi. intros _.
    destruct (IH Hi) as (x & Hx & Hp & Hbefore). exists x.
    replace (Z.to_nat (indexOfFirst p l + 1)) with (S (Z.to_nat (indexOfFirst p l))) by lia.
    cbn. rewrite Hy. done.
Qed.

Lemma indexOfFirst_none {A} (p : A -> bool) (l : list A) :
  (indexOfFirst p l < 0)%Z -> List.filter p l = [].
Proof.
  induction l as [| y l IH]; cbn; [done |].
  destruct (p y); [lia |].
  destruct (indexOfFirst p l <? 0)%Z eqn:Hi; [| lia].
  apply Z.ltb_lt in Hi. intros _. by apply IH.
Qed.

Lemma findGenerated_None (cols : list TableColumn.t) :
  findGenerated cols = None -> List.filter TableColumn.isIncrement cols = [].
Proof.
  unfold findGenerated.
  destruct (indexOfFirst _ _ <? 0)%Z eqn:Hi; [| discriminate].
  intros _. apply indexOfFirst_none. by apply Z.ltb_lt.
Qed.

(** With at most one generated column, the one found is the only one. *)
Lemma findGenerated_Some (cols : list TableColumn.t) (i : nat) :
  findGenerated cols = Some i ->
  List.length (List.filter TableColumn.isIncrement cols) <= 1 ->
  exists g, cols !! i = Some g /\ List.filter TableColumn.isIncrement cols = [g].
Proof.
  unfold findGenerated.
  destruct (indexOfFirst _ _ <? 0)%Z eqn:Hi; [discriminate |].
  apply Z.ltb_ge in Hi. intros [= <-] Hone.
  destruct (indexOfFirst_lookup _ _ Hi) as (g & Hg & Hinc & Hbefore).
  exists g. split; [exact Hg |].
  rewrite <- (take_drop_middle cols _ g Hg) in Hone |- *.
  rewrite List.filter_app in Hone |- *. rewrite Hbefore in Hone |- *.
  cbn in Hone |- *. rewrite Hinc in Hone |- *. cbn in Hone.
  destruct (List.filter TableColumn.isIncrement (drop _ cols)); [reflexivity |].
  cbn in Hone. lia.
Qed.
End IdentityFacts.

Section KeyChange.

Lemma changeColumn_primary_covered (tb : Table.t) (newColumn : TableColumn.t) (p : Plan) :
  List.length (List.filter TableColumn.isIncrement (Table.columns tb)) <= 1 ->
  MysqlSchema.changeColumn_primary (Table.name tb) newColumn (mkPlan [] [] tb) = Return p ->
  let s0 := Persisted.ofTable tb in
  Forall (fun s => Persisted.covered s = true) (Persisted.intermediate s0 (up p))
  /\ Forall (fun s => Persisted.covered s = true)
            (Persisted.intermediate (Persisted.final s0 (up p)) (rev (down p))).
Proof.
  intros Hone Hplan s0.
  split; apply intermediate_covered; rewrite ?identity_final;
    unfold s0, Persisted.ofTable; cbn [Persisted.identity].
  all: unfold MysqlSchema.changeColumn_primary in Hplan; cbn [clonedTable] in Hplan.
  all: destruct (findGenerated (Table.columns tb)) as [i |] eqn:Hg.
  all: try (destruct (findGenerated_Some _ _ Hg Hone) as (g & Hlook & Hfilter);
            rewrite Hfilter).
  all: try (rewrite (findGenerated_None _ Hg)).
  all: unfold MysqlSchema.stripGenerated, MysqlSchema.restoreGenerated,
         MysqlSchema.setPrimaryByName in Hplan;
       cbn [clonedTable push edit up down] in Hplan;
       rewrite ?Hlook in Hplan.
  all: plan_cases Hplan.
  all: injection Hplan as <-.
  all: cbn.
  all: rewrite ?String.eqb_refl; cbn.
  all: try (repeat constructor; fail).
  all: repeat case_match; cbn; rewrite ?String.eqb_refl; cbn.
  all: repeat constructor.
Qed.

Lemma updatePrimaryKeys_covered (tb : Table.t) (columns : list TableColumn.t) (p : Plan) :
  List.length (List.filter TableColumn.isIncrement (Table.columns tb)) <= 1 ->
  MysqlSchema.updatePrimaryKeys_plan tb columns = Return p ->
  let s0 := Persisted.ofTable tb in
  Forall (fun s => Persisted.covered s = true) (Persisted.intermediate s0 (up p))
  /\ Forall (fun s => Persisted.covered s = true)
            (Persisted.intermediate (Persisted.final s0 (up p)) (rev (down p))).
Proof.
  intros Hone Hplan s0.
  split; apply intermediate_covered; rewrite ?identity_final;
    unfold s0, Persisted.ofTable; cbn [Persisted.identity].
  all: unfold MysqlSchema.updatePrimaryKeys_plan, Table.clone in Hplan;
       cbn [clonedTable] in Hplan.
  all: destruct (findGenerated (Table.columns tb)) as [i |] eqn:Hg.
  all: try (destruct (findGenerated_Some _ _ Hg Hone) as (g & Hlook & Hfilter);
            rewrite Hfilter).
  all: try (rewrite (findGenerated_None _ Hg)).
  all: unfold MysqlSchema.stripGenerated in Hplan;
       cbn [clonedTable push edit up down] in Hplan;
       rewrite ?Hlook in Hplan.
  all: cbn [clonedTable push edit Table.columns Table.with_columns] in Hplan.
  all: match type of Hplan with
       | context [List.map ?f (Table.columns _)] => set (markPrimary := f) in Hplan
       end.
  all: plan_cases Hplan.
  all: injection Hplan as <-.
  all: cbn.
  all: rewrite ?String.eqb_refl; cbn.
  all: try (repeat constructor; fail).
  all: repeat case_match; cbn; rewrite ?String.eqb_refl; cbn.
  all: repeat constructor.
Qed.
End KeyChange.

(** C8, where the code departs from it.  changeColumn and updatePrimaryKeys
    strip AUTO_INCREMENT from the generated column before they touch the
    key and bring it back after (the two lemmas above); so does dropColumn.
    The same block in addColumn names the wrong column: its CHANGE is
    addressed to the column being added, not to the generated one.  So when
    a primary column is added to a table whose key holds a generated
    column, the generated column still carries the identity attribute when
    DROP PRIMARY KEY runs: a state inside up has identity without a
    covering key. *)
Theorem addColumn_drops_key_under_identity `{NamingStrategy}
    (tb : Table.t) (column g : TableColumn.t) :
  TableColumn.isPrimary column = true ->
  Table.primaryColumns tb <> [] ->
  List.find TableColumn.isIncrement (Table.columns tb) = Some g ->
  TableColumn.name column <> TableColumn.name g ->
  let t := Table.name tb in
  let upQ := up (MysqlSchema.addColumn_plan tb column) in
  (exists rest,
     upQ = AlterAdd t (buildCreateColumnSql column true false)
           :: AlterChange t (TableColumn.name column)
                (buildCreateColumnSql (nonGenerated g) true false)
           :: AlterDropPrimaryKey t
           :: AlterAddPrimaryKey t
                (List.map TableColumn.name (Table.primaryColumns tb ++ [column]))
           :: AlterChange t (TableColumn.name g) (buildCreateColumnSql column true false)
           :: rest)
  /\ exists s, In s (Persisted.intermediate (Persisted.ofTable tb) upQ)
               /\ In (TableColumn.name g) (Persisted.identity s)
               /\ Persisted.primaryKey s = []
               /\ Persisted.covered s = false.
Proof.
  intros Hprimary Hkey Hfind Hne t upQ.
  assert (Hskip : Nat.ltb 0 (List.length (Table.primaryColumns tb)) = true).
  { destruct (Table.primaryColumns tb); [done | reflexivity]. }
  assert (Hup : exists rest,
     upQ = AlterAdd t (buildCreateColumnSql column true false)
           :: AlterChange t (TableColumn.name column)
                (buildCreateColumnSql (nonGenerated g) true false)
           :: AlterDropPrimaryKey t
           :: AlterAddPrimaryKey t
                (List.map TableColumn.name (Table.primaryColumns tb ++ [column]))
           :: AlterChange t (TableColumn.name g) (buildCreateColumnSql column true false)
           :: rest).
  { unfold upQ, MysqlSchema.addColumn_plan, Table.clone.
    cbn [clonedTable push up]. rewrite Hskip, Hprimary. cbn [andb].
    unfold MysqlSchema.addColumn_primary. cbn [clonedTable push up].
    rewrite Hfind. cbn [clonedTable push up].
    unfold MysqlSchema.addColumn_index. cbn [clonedTable push edit up].
    repeat case_match; cbn; eexists; reflexivity. }
  split; [exact Hup |].
  destruct Hup as [rest ->].
  unfold Persisted.intermediate.
  cbn [Persisted.states].
  set (s1 := Persisted.apply (Persisted.ofTable tb) _).
  set (s2 := Persisted.apply s1 _).
  set (s3 := Persisted.apply s2 _).
  exists s3.
  assert (Hin0 : In (TableColumn.name g) (Persisted.identity (Persisted.ofTable tb))).
  { cbn. apply in_map. apply List.filter_In.
    apply List.find_some in Hfind. exact Hfind. }
  assert (Hin3 : In (TableColumn.name g) (Persisted.identity s3)).
  { subst s3 s2 s1. cbn. rewrite app_nil_r.
    unfold Persisted.without. apply List.filter_In. split.
    - apply in_or_app. left. exact Hin0.
    - apply negb_true_iff, String.eqb_neq. congruence. }
  split; [| split; [exact Hin3 | split; [reflexivity |]]].
  - cbn. right. right. left. reflexivity.
  - unfold Persisted.covered.
    destruct (Persisted.identity s3) as [| c ids] eqn:Hids; [done | reflexivity].
Qed.

(** On t(id int primary key auto_increment), adding the primary column
    code. *)
Lemma addColumn_drops_key_under_identity_witness :
  let N := Fixture.naming in
  let code := Fixture.column "code" "int" EmptyString true false in
  exists s,
    In s (Persisted.intermediate (Persisted.ofTable Fixture.counter)
            (up (MysqlSchema.addColumn_plan Fixture.counter code)))
    /\ In "id" (Persisted.identity s)
    /\ Persisted.primaryKey s = []
    /\ Persisted.covered s = false.
Proof.
  intros N code.
  assert (Hkey : Table.primaryColumns Fixture.counter <> []) by (vm_compute; discriminate).
  assert (Hne : TableColumn.name code
                <> TableColumn.name
                     (TableColumn.mk "id" "int" EmptyString false false true false true
                        (Some increment) None None None))
    by (vm_compute; discriminate).
  exact (proj2 (addColumn_drops_key_under_identity Fixture.counter code _
                  eq_refl Hkey eq_refl Hne)).
Defined.

(** * Further properties *)

(** ** Names, paths and comments *)

Section TextFacts.

Lemma string_app_nil (s : string) : (EmptyString ++ s)%string = s.
Proof. reflexivity. Qed.

Lemma string_app_cons (a : ascii) (s t : string) :
  (String a s ++ t)%string = String a (s ++ t)%string.
Proof. reflexivity. Qed.

Lemma string_app_assoc (s t u : string) : ((s ++ t) ++ u = s ++ t ++ u)%string.
Proof.
  induction s as [| a s' IH]; [reflexivity |].
  rewrite !string_app_cons. by rewrite IH.
Qed.

Lemma string_app_length (s t : string) :
  String.length (s ++ t) = (String.length s + String.length t)%nat.
Proof.
  induction s as [| a s' IH]; [reflexivity |].
  rewrite string_app_cons. cbn. by rewrite IH.
Qed.

Lemma js_split_nonempty (c : ascii) (s : string) : Js.split c s <> [].
Proof.
  destruct s as [| a s']; cbn; [discriminate |].
  destruct (Ascii.eqb a c); [discriminate |].
  destruct (Js.split c s'); discriminate.
Qed.

Lemma js_split_app (c : ascii) (a b : string) :
  Js.split c (a ++ String c b) = Js.split c a ++ Js.split c b.
Proof.
  induction a as [| x a' IH]; rewrite ?string_app_nil, ?string_app_cons; cbn.
  - rewrite Ascii.eqb_refl. reflexivity.
  - destruct (Ascii.eqb x c); [by rewrite IH |].
    rewrite IH. destruct (Js.split c a') as [| p ps] eqn:Hs; [| reflexivity].
    by apply js_split_nonempty in Hs.
Qed.

Lemma js_split_plain (c : ascii) (s : string) :
  Js.includes c s = false -> Js.split c s = [s].
Proof.
  induction s as [| a s' IH]; cbn; [reflexivity |].
  intros [Ha Hs]%orb_false_iff. rewrite Ha, (IH Hs). reflexivity.
Qed.

Lemma js_includes_split (c : ascii) (s : string) :
  Js.includes c s = true -> exists p q ps, Js.split c s = p :: q :: ps.
Proof.
  induction s as [| a s' IH]; cbn; [discriminate |].
  destruct (Ascii.eqb a c) eqn:Ha; cbn.
  - intros _. destruct (Js.split c s') as [| q ps] eqn:Hs.
    + by apply js_split_nonempty in Hs.
    + eauto.
  - intros Hs. destruct (IH Hs) as (p & q & ps & ->). eauto.
Qed.

Lemma join_app (sep : string) (l1 l2 : list string) :
  l1 <> [] -> l2 <> [] ->
  join sep (l1 ++ l2) = (join sep l1 ++ sep ++ join sep l2)%string.
Proof.
  intros H1 H2. induction l1 as [| x l1' IH]; [done |].
  destruct l1' as [| y l1'].
  - cbn. destruct l2; [done | reflexivity].
  - change (join sep ((x :: y :: l1') ++ l2))
      with (x ++ sep ++ join sep ((y :: l1') ++ l2))%string.
    rewrite IH by done.
    change (join sep (x :: y :: l1')) with (x ++ sep ++ join sep (y :: l1'))%string.
    by rewrite !string_app_assoc.
Qed.

Lemma join_split (c : ascii) (s : string) :
  join (String c EmptyString) (Js.split c s) = s.
Proof.
  induction s as [| a s' IH]; [reflexivity |].
  cbn [Js.split]. destruct (Ascii.eqb_spec a c) as [-> | Hne].
  - destruct (Js.split c s') as [| q ps] eqn:Hs; [by apply js_split_nonempty in Hs |].
    change (join (String c EmptyString) (EmptyString :: q :: ps))
      with (String c (join (String c EmptyString) (q :: ps))).
    by rewrite IH.
  - destruct (Js.split c s') as [| p ps] eqn:Hs; [by apply js_split_nonempty in Hs |].
    destruct ps as [| q ps]; cbn in IH |- *; by rewrite <- IH.
Qed.
End TextFacts.

(** X1. escapePath of the MySQL runner cuts the name at its dots and wraps
    each part in backticks: with disableEscape the name comes back as it
    is, the path of [a.b] is the path of [a], a dot and the path of [b],
    and a name without a dot is wrapped whole. *)
Theorem mysql_escapePath_splits_at_dots (a b n : string) (disableEscape : bool) :
  MysqlText.escapePath n true = n
  /\ MysqlText.escapePath (a ++ "." ++ b) disableEscape
     = (MysqlText.escapePath a disableEscape ++ "."
        ++ MysqlText.escapePath b disableEscape)%string
  /\ (Js.includes "." n = false ->
      MysqlText.escapePath n false = (backtick ++ n ++ backtick)%string).
Proof.
  unfold MysqlText.escapePath. split; [| split].
  - rewrite map_id. apply join_split.
  - change ("." ++ b)%string with (String "."%char b).
    rewrite js_split_app, map_app, join_app; [reflexivity | |].
    + intros Hnil%map_eq_nil. by apply js_split_nonempty in Hnil.
    + intros Hnil%map_eq_nil. by apply js_split_nonempty in Hnil.
  - intros Hplain. rewrite (js_split_plain _ _ Hplain). reflexivity.
Qed.

Lemma mysql_escapePath_splits_at_dots_witness :
  MysqlText.escapePath "db.users" false = "`db`.`users`"
  /\ MysqlText.escapePath "users" false = "`users`".
Proof.
  destruct (mysql_escapePath_splits_at_dots "db" "users" "users" false)
    as (_ & Hdot & Hplain).
  split.
  - exact Hdot.
  - exact (Hplain eq_refl).
Defined.

(** X2. parseTableName of the MySQL runner.  A name without a dot belongs
    to the database of the driver and is the table name whole.  In a
    qualified name [d.t] the database is [d] and the table name is [t];
    whatever follows a second dot is dropped. *)
Theorem mysql_parseTableName_qualified `{Driver} (n d t rest : string) :
  (Js.includes "." n = false ->
   MysqlText.parseTableName n = MysqlText.mkParsed database (Some n))
  /\ (Js.includes "." d = false -> Js.includes "." t = false ->
      MysqlText.parseTableName (d ++ "." ++ t) = MysqlText.mkParsed (Some d) (Some t)
      /\ MysqlText.parseTableName (d ++ "." ++ t ++ "." ++ rest)
         = MysqlText.mkParsed (Some d) (Some t)).
Proof.
  split.
  - intros Hplain. unfold MysqlText.parseTableName. by rewrite Hplain.
  - intros Hd Ht.
    assert (Hdot : forall s, Js.includes "." (d ++ String "."%char s) = true).
    { intros s. clear Hd. induction d as [| x d' IH]; rewrite ?string_app_nil, ?string_app_cons.
      - reflexivity.
      - cbn. rewrite IH. apply orb_true_r. }
    unfold MysqlText.parseTableName.
    change ("." ++ t ++ "." ++ rest)%string with (String "."%char (t ++ String "."%char rest)).
    change ("." ++ t)%string with (String "."%char t).
    rewrite !Hdot, !js_split_app, (js_split_plain _ _ Hd), (js_split_plain _ _ Ht).
    split; reflexivity.
Qed.

Lemma mysql_parseTableName_qualified_witness :
  let H := Fixture.accepting in
  MysqlText.parseTableName "users" = MysqlText.mkParsed database (Some "users")
  /\ MysqlText.parseTableName "shop.users" = MysqlText.mkParsed (Some "shop") (Some "users")
  /\ MysqlText.parseTableName "shop.users.v1" = MysqlText.mkParsed (Some "shop") (Some "users").
Proof.
  intros H.
  destruct (mysql_parseTableName_qualified "users" "shop" "users" "v1") as [Hplain Hdot].
  split; [exact (Hplain eq_refl) |]. exact (Hdot eq_refl eq_refl).
Defined.

Section CommentFacts.

Lemma replaceAll_app (c : ascii) (by_ s t : string) :
  Js.replaceAll c by_ (s ++ t) = (Js.replaceAll c by_ s ++ Js.replaceAll c by_ t)%string.
Proof.
  induction s as [| a s' IH]; [reflexivity |].
  rewrite string_app_cons. cbn [Js.replaceAll].
  destruct (Ascii.eqb a c); rewrite IH, ?string_app_cons, ?string_app_assoc; reflexivity.
Qed.

Lemma includes_app (c : ascii) (s t : string) :
  Js.includes c (s ++ t) = Js.includes c s || Js.includes c t.
Proof.
  induction s as [| a s' IH]; [reflexivity |].
  rewrite string_app_cons. cbn. rewrite IH. by rewrite orb_assoc.
Qed.

Lemma mysql_escaped_body (c : string) :
  let body :=
    Js.replaceAll Ascii.zero EmptyString
      (Js.replaceAll (Ascii.ascii_of_nat 39) (quote ++ quote)
         (Js.replaceAll (Ascii.ascii_of_nat 92) (backslash ++ backslash) c)) in
  Literal.staysInside true body = true /\ Js.includes Ascii.zero body = false.
Proof.
  unfold Literal.staysInside.
  induction c as [| a c' [IHscan IHzero]]; [split; reflexivity |].
  cbn [Js.replaceAll].
  destruct (Ascii.eqb_spec a (Ascii.ascii_of_nat 92)) as [-> | Hbackslash].
  - rewrite !replaceAll_app. split; [exact IHscan | exact IHzero].
  - cbn [Js.replaceAll].
    destruct (Ascii.eqb_spec a (Ascii.ascii_of_nat 39)) as [-> | Hquote].
    + rewrite !replaceAll_app. split; [exact IHscan | exact IHzero].
    + cbn [Js.replaceAll].
      destruct (Ascii.eqb_spec a Ascii.zero) as [-> | Hzero].
      * rewrite string_app_nil. split; [exact IHscan | exact IHzero].
      * cbn [Literal.scan Js.includes andb].
        apply Ascii.eqb_neq in Hbackslash, Hquote, Hzero.
        rewrite Hbackslash, Hquote, Hzero. split; [exact IHscan | exact IHzero].
Qed.
End CommentFacts.

(** X3. escapeComment of the MySQL runner always returns one quoted
    literal: between the outer quotes every quote is doubled and every
    backslash is followed by a second one, so the text never ends the
    literal, and it holds no null byte. *)
Theorem mysql_escapeComment_is_one_literal (comment : option string) :
  exists body,
    MysqlText.escapeComment comment = (quote ++ body ++ quote)%string
    /\ Literal.staysInside true body = true
    /\ Js.includes Ascii.zero body = false.
Proof.
  destruct comment as [c |]; [| by exists EmptyString].
  unfold MysqlText.escapeComment.
  destruct (Nat.eqb (String.length c) 0); [by exists EmptyString |].
  eexists. split; [reflexivity |]. apply mysql_escaped_body.
Qed.

(** X4. escapeComment of the Postgres runner returns NULL for a missing or
    empty comment and otherwise one quoted literal in which every quote is
    doubled and no null byte is left. *)
Theorem postgres_escapeComment_is_null_or_literal `{PostgresText.Options}
    (comment : option string) :
  (truthy_opt comment = false -> PostgresText.escapeComment comment = "NULL")
  /\ (truthy_opt comment = true ->
      exists body,
        PostgresText.escapeComment comment = (quote ++ body ++ quote)%string
        /\ Literal.staysInside false body = true
        /\ Js.includes Ascii.zero body = false).
Proof.
  destruct comment as [c |]; [| split; [reflexivity | discriminate]].
  unfold PostgresText.escapeComment.
  destruct c as [| a c']; [split; [reflexivity | discriminate] |].
  split; [discriminate |]. intros _.
  change (Nat.eqb (String.length (String a c')) 0) with false. cbv iota.
  eexists. split; [reflexivity |].
  generalize (String a c'). clear. intros c.
  unfold Literal.staysInside.
  induction c as [| a c' [IHscan IHzero]]; [split; reflexivity |].
  cbn [Js.replaceAll].
  destruct (Ascii.eqb_spec a (Ascii.ascii_of_nat 39)) as [-> | Hquote].
  - rewrite !replaceAll_app. split; [exact IHscan | exact IHzero].
  - cbn [Js.replaceAll].
    destruct (Ascii.eqb_spec a Ascii.zero) as [-> | Hzero].
    + rewrite string_app_nil. split; [exact IHscan | exact IHzero].
    + cbn [Literal.scan Js.includes andb].
      apply Ascii.eqb_neq in Hquote, Hzero.
      rewrite Hquote, Hzero. split; [exact IHscan | exact IHzero].
Qed.

Lemma postgres_escapeComment_is_null_or_literal_witness :
  let O := PostgresText.Build_Options None 63 in
  PostgresText.escapeComment (Some EmptyString) = "NULL"
  /\ exists body,
       PostgresText.escapeComment (Some "user's note") = (quote ++ body ++ quote)%string
       /\ Literal.staysInside false body = true
       /\ Js.includes Ascii.zero body = false.
Proof.
  intros O. split.
  - exact (proj1 (postgres_escapeComment_is_null_or_literal (Some EmptyString)) eq_refl).
  - exact (proj2 (postgres_escapeComment_is_null_or_literal (Some "user's note")) eq_refl).
Defined.

Section DefaultFacts.

Lemma substr_first (a : ascii) (s : string) :
  Js.substr 0 1 (String a s) = String a EmptyString.
Proof. unfold Js.substr. cbn. by destruct s. Qed.

Lemma substring_prefix (s t : string) :
  String.substring 0 (String.length s) (s ++ t) = s.
Proof.
  induction s as [| a s' IH]; [by destruct t |].
  rewrite string_app_cons. cbn. by rewrite IH.
Qed.

Lemma lastIndexOf_end (c : ascii) (s : string) :
  Js.lastIndexOf c (s ++ String c EmptyString) = Z.of_nat (String.length s).
Proof.
  induction s as [| a s' IH]; rewrite ?string_app_nil, ?string_app_cons.
  - cbn. by rewrite Ascii.eqb_refl.
  - cbn [Js.lastIndexOf String.length]. rewrite IH.
    destruct (Z.leb_spec 0 (Z.of_nat (String.length s'))) as [Hle | Hlt].
    + rewrite Nat2Z.inj_succ. reflexivity.
    + exfalso. pose proof (Nat2Z.is_nonneg (String.length s')). lia.
Qed.

Lemma substring_length_le (k : nat) (s : string) :
  String.length (String.substring 0 k s) <= Nat.min k (String.length s).
Proof.
  revert k. induction s as [| a s' IH]; intros k.
  - destruct k; cbn; lia.
  - destruct k; cbn; [lia |]. specialize (IH k). lia.
Qed.
End DefaultFacts.

(** X5. removeParenthesisFromDefault of the SQL Server runner strips every
    enclosing pair: the result never starts with an opening parenthesis
    and is no longer than the input, and a value wrapped in one more pair
    gives what the value itself gives. *)
Theorem sqlserver_removeParenthesis_strips_all (s : string) :
  Js.substr 0 1 (SqlServerText.removeParenthesisFromDefault s) <> "("
  /\ String.length (SqlServerText.removeParenthesisFromDefault s) <= String.length s
  /\ SqlServerText.removeParenthesisFromDefault ("(" ++ s ++ ")")
     = SqlServerText.removeParenthesisFromDefault s.
Proof.
  split; [| split].
  - functional induction (SqlServerText.removeParenthesisFromDefault s); [| assumption].
    intros Heq. rewrite Heq in e. discriminate.
  - functional induction (SqlServerText.removeParenthesisFromDefault s); [lia |].
    etransitivity; [exact IHs0 |].
    unfold Js.substr. change (1 <? 0)%Z with false. cbv iota.
    destruct (_ <=? 0)%Z; [cbn; lia |].
    destruct defaultValue as [| a d]; [discriminate e |].
    change (Z.to_nat 1) with 1%nat. cbn [String.substring String.length].
    pose proof (substring_length_le (Z.to_nat (Js.lastIndexOf ")" (String a d) - 1)) d). lia.
  - rewrite (SqlServerText.removeParenthesisFromDefault_equation ("(" ++ s ++ ")")).
    change ("(" ++ s ++ ")")%string with (String "("%char (s ++ String ")"%char EmptyString)).
    rewrite substr_first. change (negb ("(" =? "(")%string) with false. cbv iota.
    f_equal.
    change (String "("%char (s ++ String ")"%char EmptyString))
      with ((String "("%char s) ++ String ")"%char EmptyString)%string at 1.
    rewrite lastIndexOf_end. cbn [String.length].
    unfold Js.substr. change (1 <? 0)%Z with false. cbv iota.
    replace (Z.of_nat (S (String.length s)) - 1)%Z with (Z.of_nat (String.length s)) by lia.
    destruct (Z.leb_spec (Z.of_nat (String.length s)) 0) as [Hle | Hgt].
    { destruct s; [reflexivity | cbn [String.length] in Hle; lia]. }
    rewrite Nat2Z.id. change (Z.to_nat 1) with 1%nat. cbn [String.substring].
    apply substring_prefix.
Qed.

Section SequenceFacts.

Lemma js_substring_length (e : Z) (s : string) :
  (0 <= e)%Z ->
  (Z.of_nat (String.length (Js.substring 0 e s)) <= Z.min e (Z.of_nat (String.length s)))%Z.
Proof.
  intros He. unfold Js.substring.
  set (n := Z.of_nat (String.length s)).
  assert (Hn : (0 <= n)%Z) by (subst n; lia).
  replace (Z.min (Z.min (Z.max 0 0) n) (Z.min (Z.max e 0) n)) with 0%Z by lia.
  replace (Z.max (Z.min (Z.max 0 0) n) (Z.min (Z.max e 0) n) - 0)%Z with (Z.min e n) by lia.
  change (Z.to_nat 0) with 0%nat.
  pose proof (substring_length_le (Z.to_nat (Z.min e n)) s). subst n. lia.
Qed.

Lemma seqName_length `{PostgresText.Options} (tableName columnName : string) :
  String.length (PostgresText.seqName tableName columnName)
  <= Nat.max 63 PostgresText.maxAliasLength.
Proof.
  unfold PostgresText.seqName.
  destruct (Nat.ltb_spec PostgresText.maxAliasLength
              (String.length (tableName ++ "_" ++ columnName ++ "_seq"))) as [Hlong | Hfits];
    [| lia].
  rewrite !string_app_length. change (String.length "_seq") with 4%nat.
  change (String.length "_") with 1%nat.
  pose proof (js_substring_length 29 tableName ltac:(lia)) as Ht.
  pose proof (js_substring_length
                (Z.max 29 (63 - Z.of_nat (String.length tableName) - 5)) columnName
                ltac:(lia)) as Hc.
  lia.
Qed.
End SequenceFacts.

(** X6. buildSequenceName of the Postgres runner: when the alias length of
    the driver is at least the 63 of Postgres itself, the unescaped name
    of the sequence without its schema always fits it: a name that would
    be too long is cut to at most 63 characters. *)
Theorem postgres_sequence_name_fits `{PostgresText.Options}
    (table columnName : string) (currentSchema : option string) :
  63 <= PostgresText.maxAliasLength ->
  String.length (PostgresText.buildSequenceName table columnName currentSchema true true)
  <= PostgresText.maxAliasLength.
Proof.
  intros Hmax. unfold PostgresText.buildSequenceName.
  rewrite andb_false_r. cbv iota.
  pose proof (seqName_length
                (if Js.includes "." table
                 then PostgresText.part 1 (Js.split "." table) else table) columnName).
  lia.
Qed.

Lemma postgres_sequence_name_fits_witness :
  let O := PostgresText.Build_Options None 63 in
  String.length
    (PostgresText.buildSequenceName
       "public.a_very_long_table_name_that_goes_on_and_on_forever"
       "identifier_column_name_is_long_too" None true true) <= 63.
Proof.
  intros O.
  exact (postgres_sequence_name_fits
           "public.a_very_long_table_name_that_goes_on_and_on_forever"
           "identifier_column_name_is_long_too" None (le_n 63)).
Defined.

(** X7. In the Postgres runner extractSchema and escapePath agree: when
    extractSchema reports a (non-empty) schema for a name, the unescaped
    path of that name starts with this schema and a dot, whether the
    schema was written in the name or comes from the driver options. *)
Theorem postgres_path_starts_with_schema `{PostgresText.Options} (target s : string) :
  PostgresText.extractSchema target = Some s ->
  truthy s = true ->
  exists rest, PostgresText.escapePath target true = (s ++ "." ++ rest)%string.
Proof.
  unfold PostgresText.extractSchema, PostgresText.escapePath.
  intros Hschema Htruthy.
  rewrite map_id, join_split.
  destruct (Js.includes "." target) eqn:Hdot; cbn [negb andb] in *.
  - destruct (js_includes_split _ _ Hdot) as (p & q & ps & Hsplit).
    rewrite Hsplit in Hschema. injection Hschema as ->.
    exists (join "." (q :: ps)).
    rewrite <- (join_split "."%char target) at 1. rewrite Hsplit. reflexivity.
  - rewrite Hschema. cbn [truthy_opt default]. rewrite Htruthy. by exists target.
Qed.

Lemma postgres_path_starts_with_schema_witness :
  let O := PostgresText.Build_Options (Some "public") 63 in
  (exists rest, PostgresText.escapePath "users" true = ("public" ++ "." ++ rest)%string)
  /\ (exists rest, PostgresText.escapePath "audit.users" true = ("audit" ++ "." ++ rest)%string).
Proof.
  intros O. split.
  - exact (postgres_path_starts_with_schema "users" "public" eq_refl eq_refl).
  - exact (postgres_path_starts_with_schema "audit.users" "audit" eq_refl eq_refl).
Defined.

(** X8. A SQL Server name [db..t], written with a database and no schema.
    escapePath quotes the two names and leaves the empty middle as it is
    when no schema is configured, and puts the configured schema there
    when one is; parseTableName reads the schema as the one passed to it,
    or as SCHEMA_NAME(). *)
Theorem sqlserver_empty_schema_part `{Driver} `{SqlServerText.Options}
    (db t s : string) (schemaArg : option string) :
  Js.includes "." db = false -> Js.includes "." t = false ->
  truthy db = true -> truthy t = true ->
  let name := (db ++ "." ++ "." ++ t)%string in
  (SqlServerText.schema = None ->
   SqlServerText.escapePath name false
   = (dquote ++ db ++ dquote ++ "." ++ "." ++ dquote ++ t ++ dquote)%string)
  /\ (SqlServerText.schema = Some s -> truthy s = true -> Js.includes "." s = false ->
      SqlServerText.escapePath name false
      = (dquote ++ db ++ dquote ++ "." ++ dquote ++ s ++ dquote ++ "."
         ++ dquote ++ t ++ dquote)%string)
  /\ SqlServerText.parseTableName name schemaArg
     = SqlServerText.mkParsed (Some db) (SqlServerText.orSchemaName schemaArg) t.
Proof.
  intros Hdb Ht Hdbt Htt name.
  assert (Hsplit : Js.split "." name = [db; EmptyString; t]).
  { subst name.
    change (db ++ "." ++ "." ++ t)%string
      with (db ++ String "."%char (EmptyString ++ String "."%char t))%string.
    rewrite !js_split_app, (js_split_plain _ _ Hdb), (js_split_plain _ _ Ht). reflexivity. }
  assert (Hdot : Js.includes "." name = true).
  { subst name. rewrite includes_app. cbn. apply orb_true_r. }
  unfold truthy in Hdbt, Htt. apply negb_true_iff in Hdbt, Htt.
  split; [| split].
  - intros Hnone. unfold SqlServerText.escapePath. fold name.
    rewrite Hnone. cbn [truthy_opt]. rewrite Hsplit. cbn [List.map join String.eqb].
    rewrite Hdbt, Htt. by rewrite !string_app_assoc, string_app_nil.
  - intros Hsome Hs Hsdot. unfold SqlServerText.escapePath. fold name.
    rewrite Hsome. cbn [truthy_opt from_option id]. rewrite Hs, Hdot, Hsplit.
    cbn [negb from_option id].
    change (db ++ "." ++ s ++ "." ++ t)%string
      with (db ++ String "."%char (s ++ String "."%char t))%string.
    rewrite !js_split_app, (js_split_plain _ _ Hdb), (js_split_plain _ _ Ht),
      (js_split_plain _ _ Hsdot).
    cbn [app List.map join]. unfold truthy in Hs. apply negb_true_iff in Hs.
    rewrite Hdbt, Htt, Hs. by rewrite !string_app_assoc.
  - unfold SqlServerText.parseTableName. rewrite Hsplit. reflexivity.
Qed.

Lemma sqlserver_empty_schema_part_witness :
  let H := Fixture.accepting in
  let O := SqlServerText.Build_Options None in
  SqlServerText.escapePath "shop..users" false
  = (dquote ++ "shop" ++ dquote ++ "." ++ "." ++ dquote ++ "users" ++ dquote)%string
  /\ SqlServerText.parseTableName "shop..users" None
     = SqlServerText.mkParsed (Some "shop") "SCHEMA_NAME()" "users".
Proof.
  intros H O.
  destruct (sqlserver_empty_schema_part "shop" "users" EmptyString None
              eq_refl eq_refl eq_refl eq_refl) as (Hnone & _ & Hparse).
  split; [exact (Hnone eq_refl) | exact Hparse].
Defined.

(** ** Sessions and transactions, further *)

Section LiveSession.
Context `{Driver}.

Lemma bind_return {A B} (m : M A) (k : A -> M B) (r r1 : QueryRunner) (a : A) :
  m r = (Return a, r1) -> bind m k r = k a r1.
Proof. intros Hm. unfold bind. by rewrite Hm. Qed.

Lemma bind_throw {A B} (m : M A) (k : A -> M B) (r r1 : QueryRunner) (e : Error) :
  m r = (Throw e, r1) -> bind m k r = (Throw e, r1).
Proof. intros Hm. unfold bind. by rewrite Hm. Qed.

Lemma mysql_query_live (q : Query) (r : QueryRunner) :
  isReleased r = false -> obtainMasterConnection = None ->
  Mysql.query q r
  = (match answer (wire r) q with
     | Rows raw => Return raw
     | Failure err => Throw (QueryFailedError q err)
     end, afterSend q r).
Proof.
  intros Hr Hpool. unfold Mysql.query, Mysql.connect, afterSend. rewrite Hr, Hpool.
  destruct (databaseConnection r) eqn:Hc.
  - unfold set_wire, set_databaseConnection. cbn. rewrite Hr, Hc.
    destruct (answer (wire r) q); reflexivity.
  - cbn. destruct (answer (wire r) q); reflexivity.
Qed.

Lemma mysql_query__live (q : Query) (r : QueryRunner) :
  isReleased r = false -> obtainMasterConnection = None ->
  Mysql.query_ q r
  = (match answer (wire r) q with
     | Rows raw => Return tt
     | Failure err => Throw (QueryFailedError q err)
     end, afterSend q r).
Proof.
  intros Hr Hpool. unfold Mysql.query_, bind, ret.
  rewrite (mysql_query_live q r Hr Hpool). by destruct (answer (wire r) q).
Qed.

Lemma wire_afterSend (q : Query) (r : QueryRunner) :
  wire (afterSend q r) = wire r ++ [q].
Proof. reflexivity. Qed.
End LiveSession.

(** X9. startTransaction with an isolation level, on a live idle session
    whose driver accepts the statements: the MySQL runner sends SET
    TRANSACTION ISOLATION LEVEL and then START TRANSACTION, the Postgres
    runner START TRANSACTION and then SET TRANSACTION ISOLATION LEVEL;
    both leave the session active. *)
Theorem startTransaction_isolation_order `{Driver} (level : string) (r : QueryRunner) :
  isReleased r = false -> isTransactionActive r = false ->
  truthy level = true ->
  obtainMasterConnection = None ->
  (forall ev, broadcast ev = None) ->
  (forall h q, exists rows, answer h q = Rows rows) ->
  exists r1 r2,
    Mysql.startTransaction (Some level) r = (Return tt, r1)
    /\ wire r1 = wire r ++ [SetTransactionIsolationLevel level; StartTransaction]
    /\ isTransactionActive r1 = true
    /\ Postgres.startTransaction (Some level) r = (Return tt, r2)
    /\ wire r2 = wire r ++ [StartTransaction; SetTransactionIsolationLevel level]
    /\ isTransactionActive r2 = true.
Proof.
  intros Hr Ha Hlevel Hpool Hquiet Hrows.
  set (r0 := set_isTransactionActive true r).
  assert (Hok : forall q r', isReleased r' = false ->
                  Mysql.query_ q r' = (Return tt, afterSend q r')).
  { intros q r' Hr'. rewrite (mysql_query__live q r' Hr' Hpool).
    by destruct (Hrows (wire r') q) as [rows ->]. }
  assert (Hr0 : isReleased r0 = false) by exact Hr.
  assert (Hr1 : forall q, isReleased (afterSend q r0) = false) by (intros q; exact Hr).
  exists (afterSend StartTransaction (afterSend (SetTransactionIsolationLevel level) r0)),
         (afterSend (SetTransactionIsolationLevel level) (afterSend StartTransaction r0)).
  split; [| split; [| split; [| split; [| split]]]].
  - cbv [Mysql.startTransaction bind gets modify broadcastEvent ret].
    rewrite Ha, !Hquiet. cbn [truthy_opt from_option id]. rewrite Hlevel.
    fold r0. rewrite (Hok _ _ Hr0). rewrite (Hok _ _ (Hr1 _)). reflexivity.
  - cbn. by rewrite <- app_assoc.
  - reflexivity.
  - cbv [Postgres.startTransaction bind gets modify broadcastEvent ret].
    rewrite Ha, !Hquiet. cbn [truthy_opt from_option id]. rewrite Hlevel.
    fold r0. change Postgres.query_ with Mysql.query_.
    rewrite (Hok _ _ Hr0). rewrite (Hok _ _ (Hr1 _)). reflexivity.
  - cbn. by rewrite <- app_assoc.
  - reflexivity.
Qed.

Lemma startTransaction_isolation_order_witness :
  let H := Fixture.accepting in
  exists r1 r2,
    Mysql.startTransaction (Some "SERIALIZABLE") Sample.fresh = (Return tt, r1)
    /\ wire r1 = [SetTransactionIsolationLevel "SERIALIZABLE"; StartTransaction]
    /\ isTransactionActive r1 = true
    /\ Postgres.startTransaction (Some "SERIALIZABLE") Sample.fresh = (Return tt, r2)
    /\ wire r2 = [StartTransaction; SetTransactionIsolationLevel "SERIALIZABLE"]
    /\ isTransactionActive r2 = true.
Proof.
  intros H.
  exact (startTransaction_isolation_order "SERIALIZABLE" Sample.fresh
           eq_refl eq_refl eq_refl eq_refl (fun _ => eq_refl)
           (fun _ _ => ex_intro _ [] eq_refl)).
Defined.

(** X10. A START TRANSACTION that the database refuses.  The MySQL and
    Postgres runners have set the flag before they send the statement and
    do not reset it: the call throws the wrapped driver error, the
    session stays marked active, and a second startTransaction throws
    TransactionAlreadyStartedError.  The SQL Server runner resets the
    flag in the callback of begin: the session is idle again. *)
Theorem refused_start_and_the_flag `{Driver} (err : string) (r : QueryRunner) :
  isReleased r = false -> isTransactionActive r = false ->
  obtainMasterConnection = None ->
  broadcast BeforeTransactionStart = None ->
  (answer (wire r) StartTransaction = Failure err ->
   let r' := afterSend StartTransaction (set_isTransactionActive true r) in
   Mysql.startTransaction None r = (Throw (QueryFailedError StartTransaction err), r')
   /\ Postgres.startTransaction None r = (Throw (QueryFailedError StartTransaction err), r')
   /\ isTransactionActive r' = true
   /\ Mysql.startTransaction None r' = (Throw TransactionAlreadyStartedError, r')
   /\ Postgres.startTransaction None r' = (Throw TransactionAlreadyStartedError, r'))
  /\ (answer (wire r) (MssqlBegin None) = Failure err ->
      exists r',
        SqlServer.startTransaction None r = (Throw (Rejected err), r')
        /\ isTransactionActive r' = false
        /\ wire r' = wire r ++ [MssqlBegin None]).
Proof.
  intros Hr Ha Hpool Hquiet. split.
  - intros Hfail r'.
    assert (Hsend : Mysql.query_ StartTransaction (set_isTransactionActive true r)
                    = (Throw (QueryFailedError StartTransaction err), r')).
    { rewrite mysql_query__live by done. cbn. by rewrite Hfail. }
    split; [| split; [| split; [reflexivity | split]]].
    + cbv [Mysql.startTransaction bind gets modify broadcastEvent ret].
      rewrite Ha, Hquiet. cbn [truthy_opt]. by rewrite Hsend.
    + cbv [Postgres.startTransaction bind gets modify broadcastEvent ret].
      rewrite Ha, Hquiet. change Postgres.query_ with Mysql.query_. by rewrite Hsend.
    + by apply mysql_start_active.
    + by apply postgres_start_active.
  - intros Hfail. eexists. split; [| split].
    + cbv [SqlServer.startTransaction bind gets modify broadcastEvent ret never].
      rewrite Hr, Ha, Hquiet, Hpool. cbn. rewrite Hfail. reflexivity.
    + reflexivity.
    + reflexivity.
Qed.

Lemma refused_start_and_the_flag_witness :
  let H := Sample.refusing in
  let r' := afterSend StartTransaction (set_isTransactionActive true Sample.fresh) in
  Mysql.startTransaction None Sample.fresh
  = (Throw (QueryFailedError StartTransaction "too many connections"), r')
  /\ isTransactionActive r' = true
  /\ Mysql.startTransaction None r' = (Throw TransactionAlreadyStartedError, r')
  /\ exists r'',
       SqlServer.startTransaction None Sample.fresh
       = (Throw (Rejected "too many connections"), r'')
       /\ isTransactionActive r'' = false.
Proof.
  intros H r'.
  destruct (@refused_start_and_the_flag H "too many connections" Sample.fresh
              eq_refl eq_refl eq_refl eq_refl) as [Hmysql Hmssql].
  destruct (Hmysql eq_refl) as (Hthrow & _ & Hactive & Hagain & _).
  destruct (Hmssql eq_refl) as (r'' & Hreject & Hidle & _).
  split; [exact Hthrow |]. split; [exact Hactive |]. split; [exact Hagain |].
  exists r''. split; [exact Hreject | exact Hidle].
Defined.

(** X11. A COMMIT or ROLLBACK that the database refuses leaves the
    transaction open: the call throws, the statement has been sent, and
    the session is still active, so that the other of the two can still
    be tried.  MySQL, Postgres and SQL Server runners. *)
Theorem refused_commit_keeps_transaction `{Driver} (err : string) (r : QueryRunner) :
  isReleased r = false -> isTransactionActive r = true ->
  obtainMasterConnection = None ->
  (forall ev, broadcast ev = None) ->
  (answer (wire r) Commit = Failure err ->
   Mysql.commitTransaction r = (Throw (QueryFailedError Commit err), afterSend Commit r)
   /\ Postgres.commitTransaction r = (Throw (QueryFailedError Commit err), afterSend Commit r)
   /\ isTransactionActive (afterSend Commit r) = true)
  /\ (answer (wire r) Rollback = Failure err ->
      Mysql.rollbackTransaction r
      = (Throw (QueryFailedError Rollback err), afterSend Rollback r)
      /\ Postgres.rollbackTransaction r
         = (Throw (QueryFailedError Rollback err), afterSend Rollback r)
      /\ isTransactionActive (afterSend Rollback r) = true)
  /\ (answer (wire r) MssqlCommit = Failure err ->
      exists r', SqlServer.commitTransaction r = (Throw (Rejected err), r')
                 /\ isTransactionActive r' = true /\ wire r' = wire r ++ [MssqlCommit])
  /\ (answer (wire r) MssqlRollback = Failure err ->
      exists r', SqlServer.rollbackTransaction r = (Throw (Rejected err), r')
                 /\ isTransactionActive r' = true /\ wire r' = wire r ++ [MssqlRollback]).
Proof.
  intros Hr Ha Hpool Hquiet. split; [| split; [| split]].
  - intros Hfail.
    assert (Hmysql : Mysql.commitTransaction r
                     = (Throw (QueryFailedError Commit err), afterSend Commit r)).
    { cbv [Mysql.commitTransaction bind gets modify broadcastEvent ret].
      rewrite Ha, Hquiet. cbn [negb]. rewrite mysql_query__live by done. by rewrite Hfail. }
    split; [exact Hmysql |]. split; [exact Hmysql | exact Ha].
  - intros Hfail.
    assert (Hmysql : Mysql.rollbackTransaction r
                     = (Throw (QueryFailedError Rollback err), afterSend Rollback r)).
    { cbv [Mysql.rollbackTransaction bind gets modify broadcastEvent ret].
      rewrite Ha, Hquiet. cbn [negb]. rewrite mysql_query__live by done. by rewrite Hfail. }
    split; [exact Hmysql |]. split; [exact Hmysql | exact Ha].
  - intros Hfail. eexists. split; [| split].
    + cbv [SqlServer.commitTransaction bind gets modify broadcastEvent ret].
      rewrite Hr, Ha, Hquiet. cbn [negb]. rewrite Hfail. reflexivity.
    + exact Ha.
    + reflexivity.
  - intros Hfail. eexists. split; [| split].
    + cbv [SqlServer.rollbackTransaction bind gets modify broadcastEvent ret].
      rewrite Hr, Ha, Hquiet. cbn [negb]. rewrite Hfail. reflexivity.
    + exact Ha.
    + reflexivity.
Qed.

Lemma refused_commit_keeps_transaction_witness :
  let H := Sample.refusing in
  let r := set_isTransactionActive true Sample.fresh in
  Mysql.commitTransaction r = (Throw (QueryFailedError Commit "deadlock"), afterSend Commit r)
  /\ isTransactionActive (afterSend Commit r) = true.
Proof.
  intros H r.
  destruct (@refused_commit_keeps_transaction H "deadlock" r
              eq_refl eq_refl eq_refl (fun _ => eq_refl)) as (Hcommit & _).
  destruct (Hcommit eq_refl) as (Hmysql & _ & Hactive).
  split; [exact Hmysql | exact Hactive].
Defined.

(** X12. The Expo runner does not refuse a second startTransaction.  On a
    session that holds no transaction object (no query has run), when
    startTransaction returns the session is marked active, and a second
    startTransaction on it returns as well, leaving it as it is: the test
    wants the mark and a transaction object.  A commit or a rollback that
    returns clears the mark, and the commit or rollback after it throws
    TransactionNotStartedError. *)
Theorem expo_start_twice_commit_twice `{Driver} (r r1 : Expo.Runner) :
  Expo.transaction r = false ->
  Expo.startTransaction r = (Return tt, r1) ->
  Expo.isTransactionActive r1 = true
  /\ Expo.startTransaction r1 = (Return tt, r1)
  /\ (forall r2,
        Expo.commitTransaction r1 = (Return tt, r2)
        \/ Expo.rollbackTransaction r1 = (Return tt, r2) ->
        Expo.isTransactionActive r2 = false
        /\ Expo.commitTransaction r2 = (Throw TransactionNotStartedError, r2)
        /\ Expo.rollbackTransaction r2 = (Throw TransactionNotStartedError, r2)).
Proof.
  intros Hnone.
  unfold Expo.startTransaction, Expo.broadcastThen.
  rewrite Hnone, andb_false_r.
  destruct (broadcast BeforeTransactionStart) eqn:Hbefore; [discriminate |].
  destruct (broadcast AfterTransactionStart) eqn:Hafter; [discriminate |].
  intros [= <-]. cbn.
  split; [reflexivity |]. split; [reflexivity |].
  intros r2.
  unfold Expo.commitTransaction, Expo.rollbackTransaction, Expo.broadcastThen. cbn.
  intros [Hrun | Hrun]; revert Hrun.
  - destruct (broadcast BeforeTransactionCommit); [discriminate |].
    destruct (broadcast AfterTransactionCommit); [discriminate |].
    intros [= <-]. repeat split.
  - destruct (broadcast BeforeTransactionRollback); [discriminate |].
    destruct (broadcast AfterTransactionRollback); [discriminate |].
    intros [= <-]. repeat split.
Qed.

Lemma expo_start_twice_commit_twice_witness :
  let H := Fixture.accepting in
  let r := Expo.mkRunner false false in
  let r1 := Expo.mkRunner true false in
  let r2 := Expo.mkRunner false false in
  Expo.startTransaction r = (Return tt, r1)
  /\ Expo.startTransaction r1 = (Return tt, r1)
  /\ Expo.commitTransaction r1 = (Return tt, r2)
  /\ Expo.commitTransaction r2 = (Throw TransactionNotStartedError, r2).
Proof.
  intros H r r1 r2.
  destruct (@expo_start_twice_commit_twice H r r1 eq_refl eq_refl) as (_ & Hstart & Hend).
  destruct (Hend r2 (or_introl eq_refl)) as (_ & Hcommit & _).
  split; [reflexivity |]. split; [exact Hstart |].
  split; [reflexivity | exact Hcommit].
Defined.

(** ** clearDatabase, further *)

Section ClearFacts.
Context `{Driver}.

Lemma afterSendAll_fields (qs : list Query) (r : QueryRunner) :
  wire (afterSendAll qs r) = wire r ++ qs
  /\ isReleased (afterSendAll qs r) = isReleased r
  /\ isTransactionActive (afterSendAll qs r) = isTransactionActive r.
Proof.
  revert r. induction qs as [| q qs IH]; intros r; cbn.
  - by rewrite app_nil_r.
  - destruct (IH (afterSend q r)) as (Hw & Hr & Ha).
    unfold afterSendAll in *. rewrite Hw, Hr, Ha. cbn. by rewrite <- app_assoc.
Qed.

(** On a live session whose driver accepts every statement, the calls
    Promise.all awaits all return, and the statements are on the wire in
    the order of the array. *)
Lemma promiseAll_live (qs : list string) (r : QueryRunner) :
  isReleased r = false -> obtainMasterConnection = None ->
  (forall h q, exists rows, answer h q = Rows rows) ->
  promiseAll (fun q => Mysql.query_ (Verbatim q)) qs r
  = (Return tt, afterSendAll (List.map Verbatim qs) r).
Proof.
  intros Hr Hpool Hrows. revert r Hr.
  induction qs as [| q qs IH]; intros r Hr; [reflexivity |].
  cbn [promiseAll List.map]. rewrite mysql_query__live by done.
  destruct (Hrows (wire r) (Verbatim q)) as [rows ->].
  rewrite IH by exact Hr. reflexivity.
Qed.
End ClearFacts.

Section AcceptingDriver.
Context `{Driver}.
Variable reply : Query -> list string.
Hypothesis Hpool : obtainMasterConnection = None.
Hypothesis Hquiet : forall ev, broadcast ev = None.
Hypothesis Hreply : forall h q, answer h q = Rows (reply q).

Lemma accepting_query (q : Query) (r : QueryRunner) :
  isReleased r = false -> Mysql.query q r = (Return (reply q), afterSend q r).
Proof. intros Hr. rewrite mysql_query_live by done. by rewrite Hreply. Qed.

Lemma accepting_query_ (q : Query) (r : QueryRunner) :
  isReleased r = false -> Mysql.query_ q r = (Return tt, afterSend q r).
Proof. intros Hr. rewrite mysql_query__live by done. by rewrite Hreply. Qed.

Lemma accepting_promiseAll (qs : list string) (r : QueryRunner) :
  isReleased r = false ->
  promiseAll (fun q => Mysql.query_ (Verbatim q)) qs r
  = (Return tt, afterSendAll (List.map Verbatim qs) r).
Proof.
  intros Hr. apply promiseAll_live; [done | done |].
  intros h q. rewrite Hreply. eauto.
Qed.

Lemma accepting_start (r : QueryRunner) :
  isReleased r = false -> isTransactionActive r = false ->
  Mysql.startTransaction None r
  = (Return tt, afterSend StartTransaction (set_isTransactionActive true r)).
Proof.
  intros Hr Ha. cbv [Mysql.startTransaction bind gets modify broadcastEvent ret].
  rewrite Ha, !Hquiet. cbn [truthy_opt].
  rewrite accepting_query_ by exact Hr. reflexivity.
Qed.

Lemma accepting_commit (r : QueryRunner) :
  isReleased r = false -> isTransactionActive r = true ->
  Mysql.commitTransaction r
  = (Return tt, set_isTransactionActive false (afterSend Commit r)).
Proof.
  intros Hr Ha. cbv [Mysql.commitTransaction bind gets modify broadcastEvent ret].
  rewrite Ha, !Hquiet. cbn [negb].
  rewrite accepting_query_ by exact Hr. reflexivity.
Qed.

Lemma accepting_mysql_clear_try (db : string) (r : QueryRunner) :
  isReleased r = false -> isTransactionActive r = true ->
  exists r',
    Mysql.clearDatabase_try db r = (Return tt, r')
    /\ isTransactionActive r' = false
    /\ isReleased r' = false
    /\ wire r' = wire r
                 ++ [SelectViewDrops db] ++ List.map Verbatim (reply (SelectViewDrops db))
                 ++ [SetForeignKeyChecks false; SelectTableDrops db]
                 ++ List.map Verbatim (reply (SelectTableDrops db))
                 ++ [SetForeignKeyChecks true; Commit].
Proof.
  intros Hr Ha. unfold Mysql.clearDatabase_try.
  set (r1 := afterSend (SelectViewDrops db) r).
  set (r2 := afterSendAll (List.map Verbatim (reply (SelectViewDrops db))) r1).
  set (r3 := afterSend (SetForeignKeyChecks false) r2).
  set (r4 := afterSend (SelectTableDrops db) r3).
  set (r5 := afterSendAll (List.map Verbatim (reply (SelectTableDrops db))) r4).
  set (r6 := afterSend (SetForeignKeyChecks true) r5).
  destruct (afterSendAll_fields (List.map Verbatim (reply (SelectViewDrops db))) r1)
    as (Hw2 & Hr2 & Ha2).
  destruct (afterSendAll_fields (List.map Verbatim (reply (SelectTableDrops db))) r4)
    as (Hw5 & Hr5 & Ha5).
  fold r2 in Hw2, Hr2, Ha2. fold r5 in Hw5, Hr5, Ha5.
  assert (Hr1 : isReleased r1 = false) by exact Hr.
  assert (Hr2' : isReleased r2 = false) by (by rewrite Hr2).
  assert (Hr3 : isReleased r3 = false) by exact Hr2'.
  assert (Hr4 : isReleased r4 = false) by exact Hr2'.
  assert (Hr5' : isReleased r5 = false) by (by rewrite Hr5).
  assert (Hr6 : isReleased r6 = false) by exact Hr5'.
  assert (Ha6 : isTransactionActive r6 = true).
  { change (isTransactionActive r5 = true). rewrite Ha5.
    change (isTransactionActive r2 = true). rewrite Ha2. exact Ha. }
  exists (set_isTransactionActive false (afterSend Commit r6)).
  split; [| split; [reflexivity | split; [exact Hr6 |]]].
  - erewrite bind_return by (apply accepting_query; exact Hr).
    erewrite bind_return by (apply accepting_promiseAll; exact Hr1).
    erewrite bind_return by (apply accepting_query_; exact Hr2').
    erewrite bind_return by (apply accepting_query; exact Hr3).
    erewrite bind_return by (apply accepting_promiseAll; exact Hr4).
    erewrite bind_return by (apply accepting_query_; exact Hr5').
    apply accepting_commit; [exact Hr6 | exact Ha6].
  - change (wire (afterSend Commit r6) = wire r ++ [SelectViewDrops db]
              ++ List.map Verbatim (reply (SelectViewDrops db))
              ++ [SetForeignKeyChecks false; SelectTableDrops db]
              ++ List.map Verbatim (reply (SelectTableDrops db))
              ++ [SetForeignKeyChecks true; Commit]).
    rewrite wire_afterSend. subst r6. rewrite wire_afterSend, Hw5.
    subst r4 r3. rewrite !wire_afterSend, Hw2. subst r1. rewrite wire_afterSend.
    rewrite <- !app_assoc. reflexivity.
Qed.
End AcceptingDriver.

(** X13. clearDatabase of the MySQL runner when there is nothing to clear.
    With no database named, in the call or in the driver, it throws
    before anything is sent.  When the named database does not exist it
    returns after the one SELECT on the schemata: no transaction is
    started and nothing else is sent. *)
Theorem mysql_clearDatabase_nothing_to_clear `{Driver} (db : option string)
    (name : string) (r : QueryRunner) :
  (truthy_opt db = false -> truthy_opt database = false ->
   Mysql.clearDatabase db r
   = (Throw (TypeORMError "Can not clear database. No database is specified"), r))
  /\ ((if truthy_opt db then db else database) = Some name -> truthy name = true ->
      isReleased r = false -> obtainMasterConnection = None ->
      answer (wire r) (SelectSchemata name) = Rows [] ->
      Mysql.clearDatabase db r = (Return tt, afterSend (SelectSchemata name) r)
      /\ isTransactionActive (afterSend (SelectSchemata name) r) = isTransactionActive r
      /\ wire (afterSend (SelectSchemata name) r) = wire r ++ [SelectSchemata name]).
Proof.
  split.
  - intros Hdb Hdriver. unfold Mysql.clearDatabase. rewrite Hdb, Hdriver. reflexivity.
  - intros Hname Htruthy Hr Hpool Hnone. split; [| split; reflexivity].
    unfold Mysql.clearDatabase. rewrite Hname. cbn [truthy_opt from_option id].
    rewrite Htruthy. unfold Mysql.hasDatabase.
    erewrite bind_return; [| erewrite bind_return;
                              [| rewrite mysql_query_live by done; rewrite Hnone; reflexivity];
                              reflexivity].
    reflexivity.
Qed.

Lemma mysql_clearDatabase_nothing_to_clear_witness :
  let H := Fixture.accepting in
  Mysql.clearDatabase (Some "gone") Sample.fresh
  = (Return tt, afterSend (SelectSchemata "gone") Sample.fresh)
  /\ wire (afterSend (SelectSchemata "gone") Sample.fresh) = [SelectSchemata "gone"].
Proof.
  intros H.
  destruct (@mysql_clearDatabase_nothing_to_clear H (Some "gone") "gone" Sample.fresh)
    as [_ Habsent].
  destruct (Habsent eq_refl eq_refl eq_refl eq_refl eq_refl) as (Hreturn & _ & Hwire).
  split; [exact Hreturn | exact Hwire].
Defined.

(** X14. clearDatabase of the MySQL runner on a database that exists, on a
    live idle session whose driver accepts every statement.  It returns,
    the session is idle again, and the statements went out in this order:
    the SELECT on the schemata, START TRANSACTION, the SELECT of the view
    drops and the drops it returned, FOREIGN_KEY_CHECKS off, the SELECT of
    the table drops and the drops it returned, FOREIGN_KEY_CHECKS on,
    COMMIT. *)
Theorem mysql_clearDatabase_statements `{Driver} (reply : Query -> list string)
    (db : string) (r : QueryRunner) :
  obtainMasterConnection = None ->
  (forall ev, broadcast ev = None) ->
  (forall h q, answer h q = Rows (reply q)) ->
  isReleased r = false -> isTransactionActive r = false ->
  truthy db = true -> reply (SelectSchemata db) <> [] ->
  exists r',
    Mysql.clearDatabase (Some db) r = (Return tt, r')
    /\ isTransactionActive r' = false
    /\ wire r' = wire r
                 ++ [SelectSchemata db; StartTransaction; SelectViewDrops db]
                 ++ List.map Verbatim (reply (SelectViewDrops db))
                 ++ [SetForeignKeyChecks false; SelectTableDrops db]
                 ++ List.map Verbatim (reply (SelectTableDrops db))
                 ++ [SetForeignKeyChecks true; Commit].
Proof.
  intros Hpool Hquiet Hreply Hr Ha Hdb Hexists.
  set (r1 := afterSend (SelectSchemata db) r).
  set (r2 := afterSend StartTransaction (set_isTransactionActive true r1)).
  destruct (accepting_mysql_clear_try reply Hpool Hquiet Hreply db r2)
    as (r' & Htry & Hidle & _ & Hwire); [exact Hr | reflexivity |].
  exists r'. split; [| split; [exact Hidle |]].
  - unfold Mysql.clearDatabase. cbn [truthy_opt]. rewrite Hdb.
    cbn [truthy_opt from_option id]. rewrite Hdb.
    unfold Mysql.hasDatabase.
    erewrite bind_return;
      [| erewrite bind_return; [| apply (accepting_query reply); done]; reflexivity].
    destruct (reply (SelectSchemata db)) as [| row rows]; [done |]. cbn [List.length Nat.eqb negb].
    erewrite bind_return by (apply (accepting_start reply); done).
    fold r1 r2. unfold try_catch. by rewrite Htry.
  - rewrite Hwire. subst r2 r1. rewrite !wire_afterSend.
    change (wire (set_isTransactionActive true (afterSend (SelectSchemata db) r)))
      with (wire (afterSend (SelectSchemata db) r)).
    rewrite wire_afterSend, <- !app_assoc. reflexivity.
Qed.

Lemma mysql_clearDatabase_statements_witness :
  let H := Sample.populated in
  exists r',
    Mysql.clearDatabase (Some "test") Sample.fresh = (Return tt, r')
    /\ isTransactionActive r' = false
    /\ wire r' = [SelectSchemata "test"; StartTransaction; SelectViewDrops "test";
                  Verbatim "DROP VIEW v";
                  SetForeignKeyChecks false; SelectTableDrops "test";
                  Verbatim "DROP TABLE a"; Verbatim "DROP TABLE b";
                  SetForeignKeyChecks true; Commit].
Proof.
  intros H.
  exact (@mysql_clearDatabase_statements H Sample.populatedReply "test" Sample.fresh
           eq_refl (fun _ => eq_refl) (fun _ _ => eq_refl) eq_refl eq_refl eq_refl
           ltac:(discriminate)).
Defined.

Section AcceptingPostgres.
Context `{Driver}.
Variable reply : Query -> list string.
Hypothesis Hpool : obtainMasterConnection = None.
Hypothesis Hquiet : forall ev, broadcast ev = None.
Hypothesis Hreply : forall h q, answer h q = Rows (reply q).

Lemma accepting_postgres_clear_try (s : string) (r : QueryRunner) :
  isReleased r = false -> isTransactionActive r = true ->
  exists r',
    Postgres.clearDatabase_try s r = (Return tt, r')
    /\ isTransactionActive r' = false
    /\ wire r' = wire r
                 ++ [PgSelectViewDrops s] ++ List.map Verbatim (reply (PgSelectViewDrops s))
                 ++ [PgSelectMatViewDrops s]
                 ++ List.map Verbatim (reply (PgSelectMatViewDrops s))
                 ++ [PgSelectTableDrops s] ++ List.map Verbatim (reply (PgSelectTableDrops s))
                 ++ [PgSelectEnumDrops s] ++ List.map Verbatim (reply (PgSelectEnumDrops s))
                 ++ [Commit].
Proof.
  intros Hr Ha. unfold Postgres.clearDatabase_try, Postgres.dropEnumTypes.
  change Postgres.query with Mysql.query. change Postgres.query_ with Mysql.query_.
  change Postgres.commitTransaction with Mysql.commitTransaction.
  set (r1 := afterSend (PgSelectViewDrops s) r).
  set (r2 := afterSendAll (List.map Verbatim (reply (PgSelectViewDrops s))) r1).
  set (r3 := afterSend (PgSelectMatViewDrops s) r2).
  set (r4 := afterSendAll (List.map Verbatim (reply (PgSelectMatViewDrops s))) r3).
  set (r5 := afterSend (PgSelectTableDrops s) r4).
  set (r6 := afterSendAll (List.map Verbatim (reply (PgSelectTableDrops s))) r5).
  set (r7 := afterSend (PgSelectEnumDrops s) r6).
  set (r8 := afterSendAll (List.map Verbatim (reply (PgSelectEnumDrops s))) r7).
  destruct (afterSendAll_fields (List.map Verbatim (reply (PgSelectViewDrops s))) r1)
    as (Hw2 & Hr2 & Ha2).
  destruct (afterSendAll_fields (List.map Verbatim (reply (PgSelectMatViewDrops s))) r3)
    as (Hw4 & Hr4 & Ha4).
  destruct (afterSendAll_fields (List.map Verbatim (reply (PgSelectTableDrops s))) r5)
    as (Hw6 & Hr6 & Ha6).
  destruct (afterSendAll_fields (List.map Verbatim (reply (PgSelectEnumDrops s))) r7)
    as (Hw8 & Hr8 & Ha8).
  fold r2 in Hw2, Hr2, Ha2. fold r4 in Hw4, Hr4, Ha4.
  fold r6 in Hw6, Hr6, Ha6. fold r8 in Hw8, Hr8, Ha8.
  assert (Hl1 : isReleased r1 = false) by exact Hr.
  assert (Hl2 : isReleased r2 = false) by (by rewrite Hr2).
  assert (Hl3 : isReleased r3 = false) by exact Hl2.
  assert (Hl4 : isReleased r4 = false) by (by rewrite Hr4).
  assert (Hl5 : isReleased r5 = false) by exact Hl4.
  assert (Hl6 : isReleased r6 = false) by (by rewrite Hr6).
  assert (Hl7 : isReleased r7 = false) by exact Hl6.
  assert (Hl8 : isReleased r8 = false) by (by rewrite Hr8).
  assert (Hactive : isTransactionActive r8 = true).
  { rewrite Ha8. change (isTransactionActive r6 = true). rewrite Ha6.
    change (isTransactionActive r4 = true). rewrite Ha4.
    change (isTransactionActive r2 = true). rewrite Ha2. exact Ha. }
  exists (set_isTransactionActive false (afterSend Commit r8)).
  split; [| split; [reflexivity |]].
  - erewrite bind_return by (apply (accepting_query reply); done).
    erewrite bind_return by (apply (accepting_promiseAll reply); done).
    erewrite bind_return by (apply (accepting_query reply); done).
    erewrite bind_return by (apply (accepting_promiseAll reply); done).
    erewrite bind_return by (apply (accepting_query reply); done).
    erewrite bind_return by (apply (accepting_promiseAll reply); done).
    erewrite bind_return;
      [| erewrite bind_return by (apply (accepting_query reply); done);
         apply (accepting_promiseAll reply); done].
    apply (accepting_commit reply); done.
  - change (wire (set_isTransactionActive false (afterSend Commit r8)))
      with (wire (afterSend Commit r8)).
    rewrite wire_afterSend, Hw8. subst r7. rewrite wire_afterSend, Hw6.
    subst r5. rewrite wire_afterSend, Hw4. subst r3. rewrite wire_afterSend, Hw2.
    subst r1. rewrite wire_afterSend, <- !app_assoc. reflexivity.
Qed.
End AcceptingPostgres.

(** X15. clearDatabase of the Postgres runner on a live idle session whose
    driver accepts every statement.  It returns, the session is idle
    again, and the statements went out in this order: START TRANSACTION;
    for views, materialized views, tables and enum types in turn the
    SELECT of the drops and the drops it returned; COMMIT. *)
Theorem postgres_clearDatabase_statements `{Driver} (reply : Query -> list string)
    (s : string) (r : QueryRunner) :
  obtainMasterConnection = None ->
  (forall ev, broadcast ev = None) ->
  (forall h q, answer h q = Rows (reply q)) ->
  isReleased r = false -> isTransactionActive r = false ->
  exists r',
    Postgres.clearDatabase s r = (Return tt, r')
    /\ isTransactionActive r' = false
    /\ wire r' = wire r
                 ++ [StartTransaction; PgSelectViewDrops s]
                 ++ List.map Verbatim (reply (PgSelectViewDrops s))
                 ++ [PgSelectMatViewDrops s]
                 ++ List.map Verbatim (reply (PgSelectMatViewDrops s))
                 ++ [PgSelectTableDrops s] ++ List.map Verbatim (reply (PgSelectTableDrops s))
                 ++ [PgSelectEnumDrops s] ++ List.map Verbatim (reply (PgSelectEnumDrops s))
                 ++ [Commit].
Proof.
  intros Hpool Hquiet Hreply Hr Ha.
  set (r1 := afterSend StartTransaction (set_isTransactionActive true r)).
  destruct (accepting_postgres_clear_try reply Hpool Hquiet Hreply s r1)
    as (r' & Htry & Hidle & Hwire); [exact Hr | reflexivity |].
  exists r'. split; [| split; [exact Hidle |]].
  - unfold Postgres.clearDatabase.
    assert (Hstart : Postgres.startTransaction None r = (Return tt, r1)).
    { cbv [Postgres.startTransaction bind gets modify broadcastEvent ret].
      rewrite Ha, !Hquiet. change Postgres.query_ with Mysql.query_.
      rewrite (accepting_query_ reply) by done. reflexivity. }
    erewrite bind_return by exact Hstart. unfold try_catch. by rewrite Htry.
  - rewrite Hwire. subst r1. rewrite wire_afterSend.
    change (wire (set_isTransactionActive true r)) with (wire r).
    rewrite <- !app_assoc. reflexivity.
Qed.

Lemma postgres_clearDatabase_statements_witness :
  let H := Sample.populated in
  exists r',
    Postgres.clearDatabase "'public'" Sample.fresh = (Return tt, r')
    /\ isTransactionActive r' = false
    /\ wire r' = [StartTransaction; PgSelectViewDrops "'public'"; Verbatim "DROP VIEW v";
                  PgSelectMatViewDrops "'public'"; Verbatim "DROP MATERIALIZED VIEW m";
                  PgSelectTableDrops "'public'";
                  Verbatim "DROP TABLE a"; Verbatim "DROP TABLE b";
                  PgSelectEnumDrops "'public'"; Verbatim "DROP TYPE e"; Commit].
Proof.
  intros H.
  exact (@postgres_clearDatabase_statements H Sample.populatedReply "'public'" Sample.fresh
           eq_refl (fun _ => eq_refl) (fun _ _ => eq_refl) eq_refl eq_refl).
Defined.

Section SchemaListFacts.
Context `{PostgresText.Options}.

Lemma collect_spec (metadataSchemas : list (option string)) (acc : list string) :
  NoDup acc ->
  NoDup (PostgresClear.collect metadataSchemas acc)
  /\ forall s, In s (PostgresClear.collect metadataSchemas acc)
               <-> In s acc \/ (In (Some s) metadataSchemas /\ truthy s = true).
Proof.
  revert acc. induction metadataSchemas as [| m rest IH]; intros acc Hacc.
  - split; [exact Hacc |]. intros s. cbn. tauto.
  - cbn [PostgresClear.collect].
    destruct m as [x |]; cbn [truthy_opt from_option id].
    + destruct (truthy x) eqn:Hx.
      * destruct (existsb (fun schema => String.eqb schema x) acc) eqn:Hex; cbn [negb].
        -- destruct (IH acc Hacc) as [Hnd Hin]. split; [exact Hnd |].
           intros s. rewrite Hin. cbn [In]. split; [tauto |].
           intros [Hs | [[[= ->] | Hs] Ht]]; [tauto | | tauto].
           left. apply existsb_exists in Hex as (y & Hy & ->%String.eqb_eq). exact Hy.
        -- assert (Hfresh : ~ In x acc).
           { intros Hx'. apply not_true_iff_false in Hex. apply Hex.
             apply existsb_exists. exists x. split; [exact Hx' | apply String.eqb_refl]. }
           assert (Hacc' : NoDup (acc ++ [x])).
           { apply NoDup_app. split; [exact Hacc |]. split; [| apply NoDup_singleton].
             intros y Hy ->%list_elem_of_singleton.
             apply Hfresh. by apply list_elem_of_In. }
           destruct (IH _ Hacc') as [Hnd Hin]. split; [exact Hnd |].
           intros s. rewrite Hin, in_app_iff. cbn [In]. split.
           ++ intros [[Hs | [<- | []]] | [Hs Ht]]; tauto.
           ++ intros [Hs | [[[= ->] | Hs] Ht]]; tauto.
      * destruct (IH acc Hacc) as [Hnd Hin]. split; [exact Hnd |].
        intros s. rewrite Hin. cbn [In]. split; [tauto |].
        intros [Hs | [[[= ->] | Hs] Ht]]; [tauto | congruence | tauto].
    + destruct (IH acc Hacc) as [Hnd Hin]. split; [exact Hnd |].
      intros s. rewrite Hin. cbn [In]. split; [tauto |].
      intros [Hs | [[[=] | Hs] Ht]]; tauto.
Qed.
End SchemaListFacts.

(** X16. The schemas clearDatabase of the Postgres runner clears: every
    schema named by an entity metadata, each once, and after them the
    schema of the driver options, or current_schema() when there is
    none. *)
Theorem postgres_clearDatabase_schemas `{PostgresText.Options}
    (metadataSchemas : list (option string)) :
  let named := PostgresClear.collect metadataSchemas [] in
  PostgresClear.schemas metadataSchemas
  = named ++ [if truthy_opt PostgresText.schema
              then default EmptyString PostgresText.schema else "current_schema()"]
  /\ NoDup named
  /\ forall s, In s named <-> In (Some s) metadataSchemas /\ truthy s = true.
Proof.
  cbv zeta. split; [reflexivity |].
  destruct (collect_spec metadataSchemas [] NoDup_nil_2) as [Hnd Hin].
  split; [exact Hnd |]. intros s. rewrite (Hin s). cbn [In]. tauto.
Qed.

Lemma postgres_clearDatabase_schemas_witness :
  let O := PostgresText.Build_Options None 63 in
  let metadataSchemas := [Some "a"; None; Some "a"; Some "b"] in
  PostgresClear.schemas metadataSchemas = ["a"; "b"; "current_schema()"]
  /\ In "b" (PostgresClear.collect metadataSchemas []).
Proof.
  intros O metadataSchemas.
  destruct (@postgres_clearDatabase_schemas O metadataSchemas) as (Heq & _ & Hin).
  split.
  - rewrite Heq. vm_compute. reflexivity.
  - apply Hin. split; [| reflexivity]. right. right. right. left. reflexivity.
Defined.

(** X17. createDatabase of the Postgres runner with ifNotExist, on a live
    session.  When the database is there, the call returns after the one
    SELECT on pg_database: nothing is created and no statement pair is
    recorded.  When it is not, CREATE DATABASE follows the SELECT and the
    pair CREATE / DROP is recorded. *)
Theorem postgres_createDatabase_if_not_exist `{Driver} (db : string) (r : QueryRunner)
    (found created : list string) :
  let check := Verbatim ("SELECT * FROM pg_database WHERE datname='" ++ db ++ "';") in
  isReleased r = false -> obtainMasterConnection = None ->
  (answer (wire r) check = Rows found -> found <> [] ->
   PostgresSchema.createDatabase db true r = (Return tt, afterSend check r)
   /\ upQueries (afterSend check r) = upQueries r
   /\ downQueries (afterSend check r) = downQueries r)
  /\ (answer (wire r) check = Rows [] ->
      answer (wire r ++ [check]) (PostgresSchema.createDatabaseUp db) = Rows created ->
      exists r',
        PostgresSchema.createDatabase db true r = (Return tt, r')
        /\ wire r' = wire r ++ [check; PostgresSchema.createDatabaseUp db]
        /\ upQueries r' = upQueries r ++ [PostgresSchema.createDatabaseUp db]
        /\ downQueries r' = downQueries r ++ [PostgresSchema.createDatabaseDown db]).
Proof.
  intros check Hr Hpool.
  assert (Hcheck : forall rows, answer (wire r) check = Rows rows ->
            PostgresSchema.hasDatabase db r
            = (Return (negb (Nat.eqb (List.length rows) 0)), afterSend check r)).
  { intros rows Hrows. unfold PostgresSchema.hasDatabase.
    change Postgres.query with Mysql.query. fold check.
    erewrite bind_return; [reflexivity |].
    rewrite mysql_query_live by done. by rewrite Hrows. }
  split.
  - intros Hfound Hne. split; [| split; reflexivity].
    unfold PostgresSchema.createDatabase.
    erewrite bind_return by (apply Hcheck; exact Hfound).
    by destruct found.
  - intros Hnone Hcreated.
    set (r1 := afterSend check r).
    set (r2 := set_sqlInMemory (upQueries r1 ++ [PostgresSchema.createDatabaseUp db])
                 (downQueries r1 ++ [PostgresSchema.createDatabaseDown db]) r1).
    exists (afterSend (PostgresSchema.createDatabaseUp db) r2).
    split; [| split; [| split]]; try reflexivity.
    + unfold PostgresSchema.createDatabase.
      erewrite bind_return by (apply Hcheck; exact Hnone).
      cbn [List.length Nat.eqb negb]. fold r1.
      cbv [PostgresSchema.executeQueries bind modify forEachAwait ret].
      change Postgres.query_ with Mysql.query_. fold r2.
      rewrite mysql_query__live by done.
      change (wire r2) with (wire r ++ [check]). by rewrite Hcreated.
    + cbn. by rewrite <- app_assoc.
Qed.

Lemma postgres_createDatabase_if_not_exist_witness :
  let H := Sample.populated in
  let check := Verbatim "SELECT * FROM pg_database WHERE datname='test';" in
  PostgresSchema.createDatabase "test" true Sample.fresh
  = (Return tt, afterSend check Sample.fresh)
  /\ upQueries (afterSend check Sample.fresh) = [].
Proof.
  intros H check.
  destruct (@postgres_createDatabase_if_not_exist H "test" Sample.fresh ["test"] []
              eq_refl eq_refl) as [Hthere _].
  destruct (Hthere eq_refl ltac:(discriminate)) as (Hret & Hup & _).
  split; [exact Hret | exact Hup].
Defined.

(** ** The schema methods when something is missing or fails *)

Section FailureFacts.
Context `{Driver} `{NamingStrategy} `{ColumnDiff}.

(** Statements are run and then a tail that cannot throw edits the store:
    if the whole throws, it is the statements that did, and the store and
    the cache are as they were. *)
Lemma execute_then_tail_throws (upQ downQ : list Query) (tail : M unit)
    (r r' : QueryRunner) (e : Error) :
  (forall r0 c r1, tables r0 = tables r -> tail r0 = (c, r1) -> c = Return tt) ->
  (MysqlSchema.executeQueries upQ downQ ;; tail) r = (Throw e, r') ->
  tables r' = tables r /\ loadedTables r' = loadedTables r.
Proof.
  intros Htail. unfold bind at 1.
  destruct (MysqlSchema.executeQueries upQ downQ r) as [c0 r0] eqn:Hrun.
  apply executeQueries_store in Hrun as [Ht Hl].
  destruct c0 as [[] | e0 |].
  - intros Hthrow. apply Htail in Hthrow; [discriminate | exact Ht].
  - intros [= <- <-]. done.
  - discriminate.
Qed.

Lemma swap_tail_returns (a : nat) (tb post : Table.t) (r r0 r1 : QueryRunner)
    (c : Completion unit) :
  tables r !! a = Some tb -> tables r0 = tables r ->
  replaceCachedTable a post r0 = (c, r1) ->
  c = Return tt.
Proof.
  intros Hl Ht Hrun. rewrite <- Ht in Hl.
  by apply (replaceCachedTable_inv a tb post) in Hrun as [-> _].
Qed.
End FailureFacts.

(** X19. A column named in dropColumn, changeColumn or renameColumn of the
    MySQL runner that the table does not have: the call throws a
    TypeORMError before anything is sent, and the runner is as it was. *)
Theorem mysql_missing_column_is_reported `{Driver} `{NamingStrategy} `{ColumnDiff}
    (a : nat) (tb : Table.t) (n newName : string) (newColumn : TableColumn.t)
    (r : QueryRunner) :
  tables r !! a = Some tb ->
  Table.findColumnByName n tb = None ->
  (exists msg, MysqlSchema.dropColumn (inl a) (inr n) r = (Throw (TypeORMError msg), r))
  /\ (exists msg,
        MysqlSchema.changeColumn (inl a) (inr n) newColumn r = (Throw (TypeORMError msg), r))
  /\ (exists msg,
        MysqlSchema.renameColumn (inl a) (inr n) (inr newName) r
        = (Throw (TypeORMError msg), r)).
Proof.
  intros Hl Hnone.
  assert (Hread : readTable a r = (Return tb, r)) by (by apply readTable_some).
  split; [| split]; eexists.
  - unfold MysqlSchema.dropColumn, resolveTable.
    erewrite bind_return by reflexivity. erewrite bind_return by exact Hread.
    rewrite Hnone. reflexivity.
  - unfold MysqlSchema.changeColumn, resolveTable.
    erewrite bind_return by reflexivity. erewrite bind_return by exact Hread.
    rewrite Hnone. reflexivity.
  - unfold MysqlSchema.renameColumn, resolveTable.
    erewrite bind_return by reflexivity. erewrite bind_return by exact Hread.
    rewrite Hnone. reflexivity.
Qed.

Lemma mysql_missing_column_is_reported_witness :
  let H := Fixture.accepting in
  let N := Fixture.naming in
  let D := Fixture.diff in
  let r := Fixture.runnerWith Fixture.t0 in
  exists msg, MysqlSchema.dropColumn (inl 0%nat) (inr "email") r = (Throw (TypeORMError msg), r).
Proof.
  intros H N D r.
  exact (proj1 (@mysql_missing_column_is_reported H N D 0 Fixture.t0 "email" "mail"
                  Fixture.email r eq_refl eq_refl)).
Defined.

(** X20. The MySQL methods that change a table are all or nothing on the
    cache: when addColumn, dropColumn, createPrimaryKey, updatePrimaryKeys,
    dropPrimaryKey or renameTable throws, no Table object has been
    created or edited and the cache holds what it held. *)
Theorem mysql_failed_change_leaves_the_cache `{Driver} `{NamingStrategy} `{ColumnDiff}
    (a : nat) (tb : Table.t) (column : TableColumn.t) (columns : list TableColumn.t)
    (columnNames : list string) (newTableName : string) (e : Error)
    (r r' : QueryRunner) :
  tables r !! a = Some tb ->
  MysqlSchema.addColumn (inl a) column r = (Throw e, r')
  \/ MysqlSchema.dropColumn (inl a) (inl column) r = (Throw e, r')
  \/ MysqlSchema.createPrimaryKey (inl a) columnNames r = (Throw e, r')
  \/ MysqlSchema.updatePrimaryKeys (inl a) columns r = (Throw e, r')
  \/ MysqlSchema.dropPrimaryKey (inl a) r = (Throw e, r')
  \/ MysqlSchema.renameTable (inl a) newTableName r = (Throw e, r') ->
  tables r' = tables r /\ loadedTables r' = loadedTables r.
Proof.
  intros Hl.
  assert (Hread : readTable a r = (Return tb, r)) by (by apply readTable_some).
  intros [Hrun | [Hrun | [Hrun | [Hrun | [Hrun | Hrun]]]]]; revert Hrun.
  - unfold MysqlSchema.addColumn, resolveTable.
    erewrite bind_return by reflexivity. erewrite bind_return by exact Hread.
    apply execute_then_tail_throws. intros r0 c r1 Ht.
    exact (swap_tail_returns a tb _ r r0 r1 c Hl Ht).
  - unfold MysqlSchema.dropColumn, resolveTable.
    erewrite bind_return by reflexivity. erewrite bind_return by exact Hread.
    unfold bind at 1, MysqlSchema.lift.
    destruct (MysqlSchema.dropColumn_plan tb column) as [p | e0 |];
      [| by intros [= <- <-] | discriminate].
    apply execute_then_tail_throws. intros r0 c r1 Ht.
    exact (swap_tail_returns a tb _ r r0 r1 c Hl Ht).
  - unfold MysqlSchema.createPrimaryKey, resolveTable.
    erewrite bind_return by reflexivity. erewrite bind_return by exact Hread.
    apply execute_then_tail_throws. intros r0 c r1 Ht.
    exact (swap_tail_returns a tb _ r r0 r1 c Hl Ht).
  - unfold MysqlSchema.updatePrimaryKeys, resolveTable.
    erewrite bind_return by reflexivity. erewrite bind_return by exact Hread.
    unfold bind at 1, MysqlSchema.lift.
    destruct (MysqlSchema.updatePrimaryKeys_plan tb columns) as [p | e0 |];
      [| by intros [= <- <-] | discriminate].
    apply execute_then_tail_throws. intros r0 c r1 Ht.
    exact (swap_tail_returns a tb _ r r0 r1 c Hl Ht).
  - unfold MysqlSchema.dropPrimaryKey, resolveTable.
    erewrite bind_return by reflexivity. erewrite bind_return by exact Hread.
    apply execute_then_tail_throws. intros r0 c r1 Ht.
    unfold bind, readTable, writeTable, modify. rewrite Ht, Hl. by intros [= <- _].
  - unfold MysqlSchema.renameTable, resolveTable.
    erewrite bind_return by reflexivity. erewrite bind_return by exact Hread.
    apply execute_then_tail_throws. intros r0 c r1 Ht.
    unfold bind at 1, readTable. rewrite Ht, Hl.
    unfold bind at 1, writeTable, modify.
    set (renamed := Table.with_name _ tb).
    set (r2 := set_tables (<[a := renamed]> (tables r0)) r0).
    assert (Hl2 : tables r2 !! a = Some renamed).
    { cbn. apply list_lookup_insert_eq. rewrite Ht. by apply lookup_lt_Some in Hl. }
    exact (swap_tail_returns a renamed _ r2 r2 r1 c Hl2 eq_refl).
Qed.

Lemma mysql_failed_change_leaves_the_cache_witness :
  let H := Sample.readOnly in
  let N := Fixture.naming in
  let D := Fixture.diff in
  let r := Fixture.runnerWith Fixture.t0 in
  let failed := MysqlSchema.addColumn (inl 0%nat) Fixture.email r in
  fst failed = Throw (QueryFailedError
                        (AlterAdd "t" (buildCreateColumnSql Fixture.email true false))
                        "read only")
  /\ tables (snd failed) = tables r /\ loadedTables (snd failed) = loadedTables r.
Proof.
  intros H N D r failed.
  assert (Hthrows : MysqlSchema.addColumn (inl 0%nat) Fixture.email r
                    = (Throw (QueryFailedError
                                (AlterAdd "t" (buildCreateColumnSql Fixture.email true false))
                                "read only"), snd failed))
    by (vm_compute; reflexivity).
  split; [vm_compute; reflexivity |].
  exact (@mysql_failed_change_leaves_the_cache H N D 0 Fixture.t0 Fixture.email [] [] "u"
           _ r (snd failed) eq_refl (or_introl Hthrows)).
Defined.

(** ** The queue of the SQL Server runner, further *)

(** X21. Three calls of query on one SQL Server session, each made before
    the one before it has been answered, all of them succeeding.  After
    the three calls only the first statement is with the driver; each
    callback lets exactly the next one through; in the end the driver has
    received the statements in the order of the calls, each caller has
    the rows of its own statement, and the chain is empty. *)
Theorem sqlserver_overlapping_queries_in_order `{Driver} (q1 q2 q3 : Query)
    (rows1 rows2 rows3 : list string) :
  obtainMasterConnection = None ->
  answer [] q1 = Rows rows1 ->
  answer [q1] q2 = Rows rows2 ->
  answer [q1; q2] q3 = Rows rows3 ->
  let submitted := Chain.run [Chain.Submit q1; Chain.Submit q2; Chain.Submit q3] Chain.start in
  let once := Chain.run [Chain.Callback] submitted in
  let twice := Chain.run [Chain.Callback] once in
  let s := Chain.run [Chain.Callback] twice in
  Chain.received submitted = [q1]
  /\ Chain.received once = [q1; q2]
  /\ Chain.received twice = [q1; q2; q3]
  /\ Chain.received s = [q1; q2; q3]
  /\ Chain.outcome 0 s = Some (Return rows1)
  /\ Chain.outcome 1 s = Some (Return rows2)
  /\ Chain.outcome 2 s = Some (Return rows3)
  /\ Chain.queryResponsibilityChain s = [].
Proof.
  intros Hpool H1 H2 H3 submitted once twice s.
  destruct H as [pool reply db connected subscribers].
  cbn in Hpool, H1, H2, H3. subst pool.
  assert (Hsubmitted : submitted
    = Chain.mkSession false
        [Chain.promise 0; Chain.waitingPromise 1; Chain.waitingPromise 2] []
        [Chain.mkCall q1 (Chain.InFlight (Rows rows1));
         Chain.mkCall q2 (Chain.Awaiting [Chain.promise 0]);
         Chain.mkCall q3 (Chain.Awaiting [Chain.promise 0; Chain.waitingPromise 1])]
        [q1]).
  { subst submitted. vm_compute. rewrite H1. reflexivity. }
  assert (Honce : once
    = Chain.mkSession false
        [Chain.waitingPromise 1; Chain.waitingPromise 2; Chain.promise 1]
        [(Chain.promise 0, None); (Chain.waitingPromise 0, None)]
        [Chain.mkCall q1 (Chain.Finished (Return rows1));
         Chain.mkCall q2 (Chain.InFlight (Rows rows2));
         Chain.mkCall q3 (Chain.Awaiting [Chain.promise 0; Chain.waitingPromise 1])]
        [q1; q2]).
  { subst once. rewrite Hsubmitted. vm_compute. rewrite H2. reflexivity. }
  assert (Htwice : twice
    = Chain.mkSession false
        [Chain.waitingPromise 2; Chain.promise 2]
        [(Chain.promise 0, None); (Chain.waitingPromise 0, None);
         (Chain.promise 1, None); (Chain.waitingPromise 1, None)]
        [Chain.mkCall q1 (Chain.Finished (Return rows1));
         Chain.mkCall q2 (Chain.Finished (Return rows2));
         Chain.mkCall q3 (Chain.InFlight (Rows rows3))]
        [q1; q2; q3]).
  { subst twice. rewrite Honce. vm_compute. rewrite H3. reflexivity. }
  assert (Hs : s
    = Chain.mkSession false []
        [(Chain.promise 0, None); (Chain.waitingPromise 0, None);
         (Chain.promise 1, None); (Chain.waitingPromise 1, None);
         (Chain.promise 2, None); (Chain.waitingPromise 2, None)]
        [Chain.mkCall q1 (Chain.Finished (Return rows1));
         Chain.mkCall q2 (Chain.Finished (Return rows2));
         Chain.mkCall q3 (Chain.Finished (Return rows3))]
        [q1; q2; q3]).
  { subst s. rewrite Htwice. vm_compute. reflexivity. }
  rewrite Hsubmitted, Honce, Htwice, Hs. repeat split.
Qed.

Lemma sqlserver_overlapping_queries_in_order_witness :
  let H := Fixture.accepting in
  let s := Chain.run [Chain.Submit (Verbatim "a"); Chain.Submit (Verbatim "b");
                      Chain.Submit (Verbatim "c"); Chain.Callback; Chain.Callback;
                      Chain.Callback] Chain.start in
  Chain.received s = [Verbatim "a"; Verbatim "b"; Verbatim "c"]
  /\ Chain.queryResponsibilityChain s = [].
Proof.
  intros H s.
  destruct (@sqlserver_overlapping_queries_in_order H (Verbatim "a") (Verbatim "b")
              (Verbatim "c") [] [] [] eq_refl eq_refl eq_refl eq_refl)
    as (_ & _ & _ & Hreceived & _ & _ & _ & Hchain).
  split; [exact Hreceived | exact Hchain].
Defined.

Section OneAtATimeFacts.
Context `{Driver}.
Hypothesis Hpool : obtainMasterConnection = None.

Lemma indexOfFirst_absent {A} (p : A -> bool) (l : list A) :
  (forall x, In x l -> p x = false) -> indexOfFirst p l = (-1)%Z.
Proof.
  induction l as [| y l IH]; [reflexivity |].
  intros Hall. cbn. rewrite (Hall y) by (by left).
  rewrite IH by (intros x Hx; apply Hall; by right). reflexivity.
Qed.

Lemma indexOfFirst_last {A} (p : A -> bool) (l : list A) (y : A) :
  (forall x, In x l -> p x = false) -> p y = true ->
  indexOfFirst p (l ++ [y]) = Z.of_nat (List.length l).
Proof.
  induction l as [| z l IH]; intros Hall Hy.
  - cbn. by rewrite Hy.
  - cbn [app indexOfFirst List.length]. rewrite (Hall z) by (by left).
    rewrite IH by (try done; intros x Hx; apply Hall; by right).
    destruct (Z.ltb_spec (Z.of_nat (List.length l)) 0); lia.
Qed.

Lemma finished_snoc (history qs : list Query) (q : Query) :
  finished history (qs ++ [q])
  = finished history qs
    ++ [Chain.mkCall q (Chain.Finished (completionOf q (answer (history ++ qs) q)))].
Proof.
  revert history. induction qs as [| x qs IH]; intros history; cbn.
  - by rewrite app_nil_r.
  - rewrite IH, <- app_assoc. reflexivity.
Qed.

Lemma finished_length (history qs : list Query) :
  List.length (finished history qs) = List.length qs.
Proof.
  revert history. induction qs as [| x qs IH]; intros history; cbn; [done |].
  by rewrite IH.
Qed.

Lemma finished_not_in_flight (history qs : list Query) (c : Chain.Call) :
  In c (finished history qs) -> Chain.isInFlight c = false.
Proof.
  revert history. induction qs as [| x qs IH]; intros history; cbn; [done |].
  intros [<- | Hin]; [reflexivity | by apply (IH _ Hin)].
Qed.

Lemma finished_lookup (history qs : list Query) (k : nat) (q : Query) :
  qs !! k = Some q ->
  finished history qs !! k
  = Some (Chain.mkCall q
            (Chain.Finished (completionOf q (answer (history ++ take k qs) q)))).
Proof.
  revert history k. induction qs as [| x qs IH]; intros history k; [done |].
  destruct k as [| k]; cbn.
  - intros [= ->]. by rewrite app_nil_r.
  - intros Hq. rewrite (IH _ _ Hq), <- app_assoc. reflexivity.
Qed.

(** On a session whose calls have all finished no continuation is
    waiting: draining changes nothing. *)
Lemma drain_finished (s : Chain.Session) (history qs : list Query) :
  Chain.calls s = finished history qs -> Chain.drain s = s.
Proof.
  intros Hcalls. unfold Chain.drain.
  generalize (seq 0 (List.length (Chain.calls s))). intros ks.
  induction ks as [| k ks IH]; [reflexivity |].
  cbn [fold_left].
  assert (Hresume : Chain.resume k s = s).
  { unfold Chain.resume. rewrite Hcalls.
    destruct (finished history qs !! k) as [[q ph] |] eqn:Hk; [| reflexivity].
    apply list_elem_of_lookup_2, list_elem_of_In in Hk.
    clear -Hk. revert history Hk.
    induction qs as [| x qs IH]; intros history; cbn; [done |].
    intros [[= <- <-] | Hin]; [reflexivity | by apply (IH _ Hin)]. }
  rewrite Hresume. exact IH.
Qed.

(** One query on a session at rest: submitted and answered, it leaves the
    session at rest with one more finished call. *)
Lemma one_query_step (s : Chain.Session) (qs : list Query) (q : Query) :
  Chain.isReleased s = false ->
  Chain.queryResponsibilityChain s = [] ->
  Chain.received s = qs ->
  Chain.calls s = finished [] qs ->
  let s' := Chain.callback (Chain.submit q s) in
  Chain.isReleased s' = false
  /\ Chain.queryResponsibilityChain s' = []
  /\ Chain.received s' = qs ++ [q]
  /\ Chain.calls s' = finished [] (qs ++ [q]).
Proof.
  intros Hr Hchain Hrec Hcalls.
  destruct s as [released chain settled calls received]. cbn in Hr, Hchain, Hrec, Hcalls.
  subst released chain received calls.
  set (k := List.length (finished [] qs)).
  assert (Hsubmit : Chain.submit q (Chain.mkSession false [] settled (finished [] qs) qs)
    = Chain.mkSession false [Chain.promise k] settled
        (finished [] qs ++ [Chain.mkCall q (Chain.InFlight (answer qs q))]) (qs ++ [q])).
  { unfold Chain.submit, Chain.issue. cbn. rewrite Hpool. fold k.
    unfold Chain.setPhase. cbn.
    rewrite lookup_app_r by (subst k; lia).
    replace (k - List.length (finished [] qs))%nat with 0%nat by (subst k; lia). cbn.
    f_equal. subst k. rewrite insert_app_r_alt by lia.
    replace (List.length (finished [] qs) - List.length (finished [] qs))%nat
      with 0%nat by lia. reflexivity. }
  rewrite Hsubmit. clear Hsubmit.
  unfold Chain.callback. cbn [Chain.calls].
  rewrite (indexOfFirst_last Chain.isInFlight (finished [] qs))
    by (try reflexivity; intros c Hc; by apply (finished_not_in_flight [] qs)).
  fold k.
  destruct (Z.ltb_spec (Z.of_nat k) 0) as [Hneg | _]; [lia |].
  rewrite Nat2Z.id.
  rewrite lookup_app_r by (subst k; lia).
  replace (k - List.length (finished [] qs))%nat with 0%nat by (subst k; lia).
  cbn [lookup list_lookup Chain.queryResponsibilityChain Chain.settled Chain.received
       Chain.isReleased Chain.calls].
  assert (Hresolve : Chain.resolveChain k [Chain.promise k] = []).
  { unfold Chain.resolveChain. cbn. rewrite Nat.eqb_refl. reflexivity. }
  rewrite Hresolve.
  assert (Hset : forall res log,
    Chain.setPhase k (Chain.Finished res)
      (Chain.mkSession false [] log
         (finished [] qs ++ [Chain.mkCall q (Chain.InFlight (answer qs q))]) (qs ++ [q]))
    = Chain.mkSession false [] log
        (finished [] qs ++ [Chain.mkCall q (Chain.Finished res)]) (qs ++ [q])).
  { intros res log. unfold Chain.setPhase. cbn.
    rewrite lookup_app_r by (subst k; lia).
    replace (k - List.length (finished [] qs))%nat with 0%nat by (subst k; lia). cbn.
    f_equal. subst k. rewrite insert_app_r_alt by lia.
    replace (List.length (finished [] qs) - List.length (finished [] qs))%nat
      with 0%nat by lia. reflexivity. }
  assert (Hdone : forall log,
    Chain.drain (Chain.mkSession false [] log
                   (finished [] (qs ++ [q])) (qs ++ [q]))
    = Chain.mkSession false [] log (finished [] (qs ++ [q])) (qs ++ [q])).
  { intros log. by apply (drain_finished _ [] (qs ++ [q])). }
  rewrite finished_snoc in Hdone |- *. cbn [app] in Hdone |- *.
  destruct (answer qs q) as [raw | err]; rewrite Hset, Hdone; repeat split.
Qed.
End OneAtATimeFacts.

(** X22. A SQL Server session on which every query is answered before
    the next one is made, however many there are and whichever of them
    fail: the driver receives the statements in the order of the calls,
    every caller gets the reply to its own statement (the rows, or the
    wrapped error), and the chain is empty in the end: a failure blocks
    nothing that is submitted after it. *)
Theorem sqlserver_one_at_a_time `{Driver} (qs : list Query) :
  obtainMasterConnection = None ->
  let s := Chain.run (flat_map (fun q => [Chain.Submit q; Chain.Callback]) qs) Chain.start in
  Chain.received s = qs
  /\ Chain.queryResponsibilityChain s = []
  /\ forall k q, qs !! k = Some q ->
       Chain.outcome k s = Some (completionOf q (answer (take k qs) q)).
Proof.
  intros Hpool.
  assert (Hinv : let s := Chain.run (flat_map (fun q => [Chain.Submit q; Chain.Callback]) qs)
                            Chain.start in
                 Chain.isReleased s = false
                 /\ Chain.queryResponsibilityChain s = []
                 /\ Chain.received s = qs
                 /\ Chain.calls s = finished [] qs).
  { induction qs as [| q qs IH] using rev_ind; [repeat split |].
    rewrite flat_map_app. unfold Chain.run in *. rewrite fold_left_app. cbn [flat_map app fold_left].
    destruct IH as (Hr & Hc & Hrec & Hcalls).
    exact (one_query_step Hpool _ qs q Hr Hc Hrec Hcalls). }
  cbv zeta in Hinv |- *. destruct Hinv as (_ & Hchain & Hrec & Hcalls).
  split; [exact Hrec |]. split; [exact Hchain |].
  intros k q Hq. unfold Chain.outcome. rewrite Hcalls.
  by rewrite (finished_lookup [] qs k q Hq).
Qed.

Lemma sqlserver_one_at_a_time_witness :
  let H := Fixture.failingStatement in
  let s := Chain.run [Chain.Submit (Verbatim "boom"); Chain.Callback;
                      Chain.Submit (Verbatim "SELECT 1"); Chain.Callback] Chain.start in
  Chain.received s = [Verbatim "boom"; Verbatim "SELECT 1"]
  /\ Chain.queryResponsibilityChain s = []
  /\ Chain.outcome 0 s = Some (Throw (QueryFailedError (Verbatim "boom") "syntax error"))
  /\ Chain.outcome 1 s = Some (Return []).
Proof.
  intros H s.
  destruct (@sqlserver_one_at_a_time H [Verbatim "boom"; Verbatim "SELECT 1"] eq_refl)
    as (Hreceived & Hchain & Houtcome).
  split; [exact Hreceived |]. split; [exact Hchain |].
  split; [exact (Houtcome 0%nat _ eq_refl) | exact (Houtcome 1%nat _ eq_refl)].
Defined.

(** ** Changes that change nothing, and changes undone *)

Section NoChangeFacts.
Context `{Driver} `{NamingStrategy} `{ColumnDiff}.

Lemma mustRecreate_same (c : TableColumn.t) : MysqlSchema.mustRecreate c c = false.
Proof.
  unfold MysqlSchema.mustRecreate.
  rewrite Bool.eqb_reflx, !String.eqb_refl. cbn.
  destruct (TableColumn.generatedType c); cbn; [by rewrite String.eqb_refl | done].
Qed.

Lemma changeColumn_rest_same (t : string) (c : TableColumn.t) (p : Plan) :
  isColumnChanged c c true true = false ->
  MysqlSchema.changeColumn_rest t c c p = Return p.
Proof.
  intros Hsame. unfold MysqlSchema.changeColumn_rest.
  by rewrite Hsame, !Bool.eqb_reflx.
Qed.
End NoChangeFacts.

(** X23. changeColumn of the MySQL runner with a new column that is the
    old one, when isColumnChanged sees no difference: the call returns,
    no statement is sent or recorded, the table passed in holds what it
    held, and the cache holds under its name a table equal to the one it
    held; when the table passed in is the cached object, no Table object
    has changed. *)
Theorem mysql_changeColumn_without_change `{Driver} `{NamingStrategy} `{ColumnDiff}
    (a : nat) (tb : Table.t) (column : TableColumn.t) (r : QueryRunner) :
  tables r !! a = Some tb ->
  isColumnChanged column column true true = false ->
  exists r',
    MysqlSchema.changeColumn (inl a) (inl column) column r = (Return tt, r')
    /\ wire r' = wire r
    /\ upQueries r' = upQueries r /\ downQueries r' = downQueries r
    /\ loadedTables r' = loadedTables r
    /\ tables r' !! a = Some tb
    /\ (In a (loadedTables r) -> cachedTable (Table.name tb) r' = Some tb)
    /\ (getCachedTable (Table.name tb) r = (Return a, r) -> tables r' = tables r).
Proof.
  intros Hl Hsame.
  set (r0 := set_sqlInMemory (upQueries r ++ []) (downQueries r ++ []) r).
  assert (Hl0 : tables r0 !! a = Some tb) by exact Hl.
  assert (Hrun : MysqlSchema.changeColumn (inl a) (inl column) column r
                 = replaceCachedTable a tb r0).
  { unfold MysqlSchema.changeColumn, resolveTable.
    erewrite bind_return by reflexivity.
    erewrite bind_return by (by apply readTable_some).
    rewrite mustRecreate_same, String.eqb_refl. cbn [negb].
    erewrite bind_return by reflexivity. cbn [fst snd].
    unfold MysqlSchema.lift at 1.
    erewrite bind_return by (by rewrite changeColumn_rest_same).
    reflexivity. }
  destruct (replaceCachedTable a tb r0) as [c r'] eqn:Hswap.
  exists r'. rewrite Hrun.
  pose proof (replaceCachedTable_fields _ _ _ _ _ Hswap) as (Hw & _ & _ & Hc & Hu & Hd & _).
  pose proof (replace_cached a tb tb r0 r' c Hl0 eq_refl Hswap) as (-> & Hcached & Hobject).
  apply (replaceCachedTable_inv a tb) in Hswap as [_ Hr']; [| exact Hl0].
  split; [reflexivity |]. split; [exact Hw |].
  split; [rewrite Hu; cbn; apply app_nil_r |].
  split; [rewrite Hd; cbn; apply app_nil_r |].
  split; [exact Hc |]. split; [| split].
  - rewrite Hr'. destruct (List.find _ _) as [found |]; [| exact Hl].
    cbn. destruct (decide (found = a)) as [-> | Hne].
    + apply list_lookup_insert_eq. by apply lookup_lt_Some in Hl.
    + by rewrite list_lookup_insert_ne.
  - exact Hcached.
  - intros Hget.
    assert (Hget0 : getCachedTable (Table.name tb) r0 = (Return a, r0)).
    { revert Hget. unfold getCachedTable. cbn.
      destruct (List.find _ _); [| discriminate]. by intros [= ->]. }
    destruct (Hobject Hget0) as [-> _]. cbn. by apply list_insert_id.
Qed.

Lemma mysql_changeColumn_without_change_witness :
  let H := Fixture.accepting in
  let N := Fixture.naming in
  let D := Fixture.diff in
  let r := Fixture.runnerWith Fixture.withEmail in
  exists r',
    MysqlSchema.changeColumn (inl 0%nat) (inl Fixture.email) Fixture.email r = (Return tt, r')
    /\ wire r' = []
    /\ cachedTable "t" r' = Some Fixture.withEmail
    /\ tables r' = [Fixture.withEmail].
Proof.
  intros H N D r.
  destruct (@mysql_changeColumn_without_change H N D 0 Fixture.withEmail Fixture.email r
              eq_refl ltac:(vm_compute; reflexivity))
    as (r' & Hrun & Hwire & _ & _ & _ & _ & Hcached & Hstore).
  exists r'. split; [exact Hrun |]. split; [exact Hwire |].
  split; [apply Hcached; left; reflexivity |].
  apply Hstore. vm_compute. reflexivity.
Defined.

Section RenameTableFacts.
Context `{NamingStrategy}.

Lemma renameTableIndices_snd (n : string) (ixs : list TableIndex.t) :
  snd (MysqlSchema.renameTableIndices n ixs)
  = List.map (fun index =>
                TableIndex.with_name
                  (indexName n (TableIndex.columnNames index) (TableIndex.where_ index)) index)
             ixs.
Proof.
  induction ixs as [| index rest IH]; [reflexivity |].
  cbn. destruct (MysqlSchema.renameTableIndices n rest). cbn in *. by rewrite IH.
Qed.

Lemma renameTableForeignKeys_snd (n : string) (fks : list TableForeignKey.t) :
  snd (MysqlSchema.renameTableForeignKeys n fks)
  = List.map (fun fk =>
                TableForeignKey.with_name
                  (foreignKeyName n (TableForeignKey.columnNames fk)
                     (TableForeignKey.referencedTableName fk)
                     (TableForeignKey.referencedColumnNames fk)) fk)
             fks.
Proof.
  induction fks as [| fk rest IH]; [reflexivity |].
  cbn. destruct (MysqlSchema.renameTableForeignKeys n rest). cbn in *. by rewrite IH.
Qed.

(** The table renameTable puts in the cache. *)
Lemma renameTable_plan_table (tb : Table.t) (newTableName : string) :
  truthy_opt (beforeDot (Table.name tb)) = false ->
  clonedTable (MysqlSchema.renameTable_plan tb newTableName)
  = Table.with_foreignKeys
      (snd (MysqlSchema.renameTableForeignKeys newTableName (Table.foreignKeys tb)))
      (Table.with_indices
         (snd (MysqlSchema.renameTableIndices newTableName (Table.indices tb)))
         (Table.with_name newTableName tb)).
Proof.
  intros Hplain. unfold MysqlSchema.renameTable_plan, Table.clone. rewrite Hplain.
  cbn [clonedTable push Table.indices Table.with_name].
  destruct (MysqlSchema.renameTableIndices newTableName (Table.indices tb)) as [iqs ixs'].
  cbn [clonedTable edit MysqlSchema.pushAll Table.foreignKeys Table.with_indices
       Table.with_name push].
  destruct (MysqlSchema.renameTableForeignKeys newTableName (Table.foreignKeys tb))
    as [fqs fks'].
  reflexivity.
Qed.
End RenameTableFacts.

(** X24. renameTable of the MySQL runner, there and back.  For a table
    without a database in its name whose indices and foreign keys carry
    the names the naming strategy gives them, the table renameTable builds
    has the new name and every index and foreign key renamed by the
    strategy for it; renaming that table back to the old name gives the
    table it started from. *)
Theorem mysql_renameTable_and_back `{NamingStrategy} (tb : Table.t) (newTableName : string) :
  truthy_opt (beforeDot (Table.name tb)) = false ->
  truthy_opt (beforeDot newTableName) = false ->
  (forall index, In index (Table.indices tb) ->
     TableIndex.name index
     = indexName (Table.name tb) (TableIndex.columnNames index) (TableIndex.where_ index)) ->
  (forall fk, In fk (Table.foreignKeys tb) ->
     TableForeignKey.name fk
     = foreignKeyName (Table.name tb) (TableForeignKey.columnNames fk)
         (TableForeignKey.referencedTableName fk)
         (TableForeignKey.referencedColumnNames fk)) ->
  let there := clonedTable (MysqlSchema.renameTable_plan tb newTableName) in
  Table.name there = newTableName
  /\ (forall index, In index (Table.indices there) ->
        TableIndex.name index
        = indexName newTableName (TableIndex.columnNames index) (TableIndex.where_ index))
  /\ clonedTable (MysqlSchema.renameTable_plan there (Table.name tb)) = tb.
Proof.
  intros Hplain Hplain' Hindices Hfks there.
  assert (Hthere : there
    = Table.with_foreignKeys
        (snd (MysqlSchema.renameTableForeignKeys newTableName (Table.foreignKeys tb)))
        (Table.with_indices
           (snd (MysqlSchema.renameTableIndices newTableName (Table.indices tb)))
           (Table.with_name newTableName tb)))
    by (by apply renameTable_plan_table).
  split; [by rewrite Hthere |]. split.
  - intros index. rewrite Hthere. cbn [Table.indices Table.with_foreignKeys Table.with_indices].
    rewrite renameTableIndices_snd. intros (i & <- & _)%in_map_iff. reflexivity.
  - rewrite renameTable_plan_table by (by rewrite Hthere).
    rewrite Hthere, !renameTableIndices_snd, !renameTableForeignKeys_snd.
    clear there Hthere.
    destruct tb as [n cols ixs fks us cs es eng].
    unfold Table.with_foreignKeys, Table.with_indices, Table.with_name.
    cbn in Hindices, Hfks |- *. rewrite !List.map_map.
    rewrite (map_ext_in _ id ixs), (map_ext_in _ id fks), !List.map_id; [reflexivity | |].
    + intros fk Hin. cbn. rewrite <- (Hfks fk Hin). by destruct fk.
    + intros i Hin. cbn. rewrite <- (Hindices i Hin). by destruct i.
Qed.

Lemma mysql_renameTable_and_back_witness :
  let N := Fixture.naming in
  let there := clonedTable (MysqlSchema.renameTable_plan Fixture.withEmail "u") in
  Table.name there = "u"
  /\ clonedTable (MysqlSchema.renameTable_plan there "t") = Fixture.withEmail.
Proof.
  intros N there.
  assert (Hindices : forall index, In index (Table.indices Fixture.withEmail) ->
     TableIndex.name index
     = indexName (Table.name Fixture.withEmail) (TableIndex.columnNames index)
         (TableIndex.where_ index)).
  { intros index [<- | []]. vm_compute. reflexivity. }
  destruct (@mysql_renameTable_and_back N Fixture.withEmail "u" eq_refl eq_refl Hindices
              ltac:(intros fk [])) as (Hname & _ & Hback).
  split; [exact Hname | exact Hback].
Defined.

Section KeyRoundTrip.
Context `{Driver} `{NamingStrategy} `{ColumnDiff}.
Variable reply : Query -> list string.
Hypothesis Hpool : obtainMasterConnection = None.
Hypothesis Hreply : forall h q, answer h q = Rows (reply q).

Lemma accepting_forEachAwait (qs : list Query) (r : QueryRunner) :
  isReleased r = false ->
  forEachAwait Mysql.query_ qs r = (Return tt, afterSendAll qs r).
Proof.
  revert r. induction qs as [| q qs IH]; intros r Hr; [reflexivity |].
  cbn [forEachAwait]. erewrite bind_return; [apply IH; exact Hr |].
  rewrite mysql_query__live by done. by rewrite Hreply.
Qed.

Lemma accepting_executeQueries (upQ downQ : list Query) (r : QueryRunner) :
  isReleased r = false ->
  MysqlSchema.executeQueries upQ downQ r
  = (Return tt,
     afterSendAll upQ (set_sqlInMemory (upQueries r ++ upQ) (downQueries r ++ downQ) r)).
Proof.
  intros Hr. unfold MysqlSchema.executeQueries.
  erewrite bind_return by reflexivity. by apply accepting_forEachAwait.
Qed.

Lemma afterSendAll_store (qs : list Query) (r : QueryRunner) :
  tables (afterSendAll qs r) = tables r
  /\ loadedTables (afterSendAll qs r) = loadedTables r.
Proof.
  revert r. induction qs as [| q qs IH]; intros r; [done |].
  destruct (IH (afterSend q r)) as [Ht Hl]. unfold afterSendAll in *. cbn.
  rewrite Ht, Hl. done.
Qed.

(** Editing an object without renaming it does not change which objects
    carry a name. *)
Lemma isNamed_insert (store : list Table.t) (i : nat) (old new : Table.t) (n : string) :
  store !! i = Some old -> Table.name new = Table.name old ->
  forall b, isNamed (<[i := new]> store) n b = isNamed store n b.
Proof.
  intros Hold Hname b. unfold isNamed.
  destruct (decide (b = i)) as [-> | Hne].
  - rewrite list_lookup_insert_eq by (by apply lookup_lt_Some in Hold).
    by rewrite Hold, Hname.
  - by rewrite list_lookup_insert_ne.
Qed.

Lemma find_agree {A} (f g : A -> bool) (l : list A) :
  (forall x, f x = g x) -> List.find f l = List.find g l.
Proof.
  intros Hfg. induction l as [| x l IH]; [reflexivity |].
  cbn. by rewrite Hfg, IH.
Qed.

(** The runner after the statements of an executeQueries is a live one
    with the same store and cache. *)
Lemma getCachedTable_same_store (n : string) (a : nat) (r r0 : QueryRunner) :
  tables r0 = tables r -> loadedTables r0 = loadedTables r ->
  getCachedTable n r = (Return a, r) ->
  getCachedTable n r0 = (Return a, r0).
Proof.
  intros Ht Hc. unfold getCachedTable. rewrite Ht, Hc.
  destruct (List.find _ _); [| discriminate]. by intros [= ->].
Qed.

Lemma unmark_marked (names : list string) (cols : list TableColumn.t) :
  List.filter TableColumn.isPrimary cols = [] ->
  List.map (fun column => if TableColumn.isPrimary column
                          then TableColumn.with_isPrimary false column else column)
           (List.map (fun column => if MysqlSchema.findsName names column
                                    then TableColumn.with_isPrimary true column else column)
                     cols)
  = cols.
Proof.
  induction cols as [| c cols IH]; [reflexivity |].
  cbn [List.filter List.map]. destruct (TableColumn.isPrimary c) eqn:Hc; [discriminate |].
  intros Hrest. rewrite (IH Hrest).
  destruct (MysqlSchema.findsName names c); cbn; [| by rewrite Hc].
  f_equal. destruct c. cbn in *. by subst.
Qed.
End KeyRoundTrip.

(** X25. createPrimaryKey and then dropPrimaryKey on the MySQL runner, on
    a live session whose driver accepts the statements, for the cached
    table, which has no primary key.  Both calls return, ADD PRIMARY KEY
    and DROP PRIMARY KEY went out in this order; between the calls the
    cached object is the table with the named columns marked primary;
    after them every Table object holds what it held at the start, and so
    does the cache. *)
Theorem mysql_primary_key_created_and_dropped `{Driver} `{NamingStrategy} `{ColumnDiff}
    (reply : Query -> list string) (a : nat) (tb : Table.t) (columnNames : list string)
    (r : QueryRunner) :
  obtainMasterConnection = None ->
  (forall h q, answer h q = Rows (reply q)) ->
  isReleased r = false ->
  tables r !! a = Some tb ->
  getCachedTable (Table.name tb) r = (Return a, r) ->
  Table.primaryColumns tb = [] ->
  let keyed :=
    Table.with_columns
      (List.map (fun column => if MysqlSchema.findsName columnNames column
                               then TableColumn.with_isPrimary true column else column)
                (Table.columns tb)) tb in
  exists r1 r2,
    MysqlSchema.createPrimaryKey (inl a) columnNames r = (Return tt, r1)
    /\ tables r1 = <[a := keyed]> (tables r)
    /\ cachedTable (Table.name tb) r1 = Some keyed
    /\ MysqlSchema.dropPrimaryKey (inr (Table.name tb)) r1 = (Return tt, r2)
    /\ wire r2 = wire r ++ [AlterAddPrimaryKey (Table.name tb) columnNames;
                            AlterDropPrimaryKey (Table.name tb)]
    /\ cachedTable (Table.name tb) r2 = Some tb
    /\ tables r2 = tables r
    /\ loadedTables r2 = loadedTables r.
Proof.
  intros Hpool Hreply Hr Hl Hget Hnokey post.
  set (add := AlterAddPrimaryKey (Table.name tb) columnNames).
  set (drop := AlterDropPrimaryKey (Table.name tb)).
  set (r0 := afterSendAll [add]
               (set_sqlInMemory (upQueries r ++ [add]) (downQueries r ++ [drop]) r)).
  assert (Hl0 : tables r0 !! a = Some tb) by exact Hl.
  assert (Hget0 : getCachedTable (Table.name tb) r0 = (Return a, r0))
    by (by apply (getCachedTable_same_store _ _ r)).
  assert (Hin0 : In a (loadedTables r0)).
  { revert Hget. unfold getCachedTable.
    destruct (List.find _ (loadedTables r)) as [a' |] eqn:Hfind; [| discriminate].
    intros [= ->]. by apply find_some in Hfind as [? _]. }
  destruct (replaceCachedTable a post r0) as [c r1] eqn:Hswap.
  pose proof (replaceCachedTable_fields _ _ _ _ _ Hswap) as (Hwire1 & Hr1 & _ & Hc1 & _).
  destruct (replace_cached a tb post r0 r1 c Hl0 eq_refl Hswap)
    as (-> & Hcached1 & Hobject1).
  destruct (Hobject1 Hget0) as [Hstore1 Hget1].
  assert (Hcreate : MysqlSchema.createPrimaryKey (inl a) columnNames r = (Return tt, r1)).
  { unfold MysqlSchema.createPrimaryKey, resolveTable.
    erewrite bind_return by reflexivity.
    erewrite bind_return by (by apply readTable_some).
    erewrite bind_return by (by apply (accepting_executeQueries reply)).
    exact Hswap. }
  assert (Hl1 : tables r1 !! a = Some post).
  { rewrite Hstore1. apply list_lookup_insert_eq. by apply lookup_lt_Some in Hl0. }
  set (r1e := afterSendAll [drop]
                (set_sqlInMemory (upQueries r1 ++ [drop])
                   (downQueries r1
                    ++ [MysqlSchema.createPrimaryKeySql post
                          (List.map TableColumn.name (Table.primaryColumns post))]) r1)).
  assert (Hl1e : tables r1e !! a = Some post) by exact Hl1.
  set (post' := Table.with_columns
                  (List.map (fun column => if TableColumn.isPrimary column
                                           then TableColumn.with_isPrimary false column
                                           else column) (Table.columns post)) post).
  assert (Hback : post' = tb).
  { subst post' post. unfold Table.with_columns. cbn.
    rewrite unmark_marked by exact Hnokey. by destruct tb. }
  assert (Hstore2 : <[a := post']> (tables r1e) = tables r).
  { change (tables r1e) with (tables r1). rewrite Hstore1, Hback.
    change (tables r0) with (tables r).
    rewrite list_insert_insert_eq. by apply list_insert_id. }
  exists r1, (set_tables (<[a := post']> (tables r1e)) r1e).
  split; [exact Hcreate |]. split; [exact Hstore1 |].
  split; [exact (Hcached1 Hin0) |]. split; [| split; [| split; [| split]]].
  - unfold MysqlSchema.dropPrimaryKey, resolveTable.
    erewrite bind_return by exact Hget1.
    erewrite bind_return by (by apply readTable_some).
    erewrite bind_return
      by (apply (accepting_executeQueries reply);
          [exact Hpool | exact Hreply | rewrite Hr1; exact Hr]).
    fold drop. fold r1e.
    erewrite bind_return by (by apply readTable_some).
    reflexivity.
  - change (wire r1 ++ [drop] = wire r ++ [add; drop]).
    rewrite Hwire1. change (wire r0) with (wire r ++ [add]). by rewrite <- app_assoc.
  - unfold cachedTable. cbn [tables loadedTables set_tables].
    rewrite Hstore2. change (loadedTables r1e) with (loadedTables r1). rewrite Hc1.
    change (loadedTables r0) with (loadedTables r).
    revert Hget. unfold getCachedTable.
    destruct (List.find _ (loadedTables r)) as [a' |]; [| discriminate].
    by intros [= ->].
  - exact Hstore2.
  - change (loadedTables r1 = loadedTables r). exact Hc1.
Qed.

Lemma mysql_primary_key_created_and_dropped_witness :
  let H := Fixture.accepting in
  let N := Fixture.naming in
  let D := Fixture.diff in
  let tb := Table.mk "log" [Fixture.column "at" "datetime" EmptyString false false]
              [] [] [] [] [] None in
  let keyed := Table.mk "log" [Fixture.column "at" "datetime" EmptyString true false]
                 [] [] [] [] [] None in
  let r := Fixture.runnerWith tb in
  exists r1 r2,
    MysqlSchema.createPrimaryKey (inl 0%nat) ["at"] r = (Return tt, r1)
    /\ tables r1 = [keyed]
    /\ MysqlSchema.dropPrimaryKey (inr "log") r1 = (Return tt, r2)
    /\ wire r2 = [AlterAddPrimaryKey "log" ["at"]; AlterDropPrimaryKey "log"]
    /\ cachedTable "log" r2 = Some tb
    /\ tables r2 = [tb].
Proof.
  intros H N D tb keyed r.
  destruct (@mysql_primary_key_created_and_dropped H N D (fun _ => []) 0 tb ["at"] r
              eq_refl (fun _ _ => eq_refl) eq_refl eq_refl eq_refl eq_refl)
    as (r1 & r2 & Hcreate & Hkeyed & _ & Hdrop & Hwire & Hcached & Hstore & _).
  exists r1, r2. repeat split; assumption.
Defined.

Section ColumnRoundTrip.
Context `{Driver} `{NamingStrategy} `{ColumnDiff}.

Lemma find_app_last {A} (p : A -> bool) (l : list A) (y : A) :
  List.find p l = None -> p y = true -> List.find p (l ++ [y]) = Some y.
Proof.
  induction l as [| x l IH]; cbn; [by intros _ -> |].
  destruct (p x); [discriminate |]. exact IH.
Qed.

Lemma find_none_all {A} (p : A -> bool) (l : list A) :
  List.find p l = None -> forall x, In x l -> p x = false.
Proof. intros Hnone x Hx. by apply (find_none p l Hnone). Qed.

Lemma splice1_last {A} (l : list A) (y : A) :
  splice1 (Z.of_nat (List.length l)) (l ++ [y]) = l.
Proof.
  unfold splice1.
  destruct (Z.ltb_spec (Z.of_nat (List.length l)) 0) as [Hneg | _]; [lia |].
  rewrite Nat2Z.id. induction l as [| x l IH]; [reflexivity |].
  cbn [List.length app]. change (delete (S (List.length l)) (x :: (l ++ [y])))
    with (x :: delete (List.length l) (l ++ [y])). by rewrite IH.
Qed.

Lemma removeColumn_added (column : TableColumn.t) (tb : Table.t) :
  Table.findColumnByName (TableColumn.name column) tb = None ->
  Table.removeColumn column (Table.addColumn column tb) = tb.
Proof.
  intros Hnone. unfold Table.removeColumn, Table.addColumn, Table.findColumnByName in *.
  cbn [Table.columns Table.with_columns].
  rewrite indexOfFirst_last
    by (try apply String.eqb_refl; by apply find_none_all).
  destruct (Z.ltb_spec (Z.of_nat (List.length (Table.columns tb))) 0) as [Hneg | _]; [lia |].
  rewrite splice1_last. by destruct tb.
Qed.

Lemma addColumn_plan_plain (tb : Table.t) (column : TableColumn.t) :
  TableColumn.isPrimary column = false -> TableColumn.isUnique column = false ->
  List.find (isColumnIndex (TableColumn.name column)) (Table.indices tb) = None ->
  MysqlSchema.addColumn_plan tb column
  = mkPlan [AlterAdd (Table.name tb)
              (buildCreateColumnSql column
                 (Nat.ltb 0 (List.length (Table.primaryColumns tb))) false)]
           [AlterDropColumn (Table.name tb) (TableColumn.name column)] tb.
Proof.
  intros Hprimary Hunique Hindex.
  unfold MysqlSchema.addColumn_plan, MysqlSchema.addColumn_index, Table.clone.
  rewrite Hprimary. cbn [andb clonedTable push]. by rewrite Hindex, Hunique.
Qed.

Lemma dropColumn_plan_plain (tb : Table.t) (column : TableColumn.t) :
  TableColumn.isPrimary column = false -> TableColumn.isUnique column = false ->
  List.find (isColumnIndex (TableColumn.name column)) (Table.indices tb) = None ->
  MysqlSchema.dropColumn_plan tb column
  = Return (mkPlan [AlterDropColumn (Table.name tb) (TableColumn.name column)]
                   [AlterAdd (Table.name tb) (buildCreateColumnSql column true false)] tb).
Proof.
  intros Hprimary Hunique Hindex.
  unfold MysqlSchema.dropColumn_plan, MysqlSchema.dropColumn_index, Table.clone.
  rewrite Hprimary. cbn [clonedTable push]. by rewrite Hindex, Hunique.
Qed.

End ColumnRoundTrip.

(** X26. addColumn and then dropColumn on the MySQL runner for a plain
    column (not primary, not unique, with no index and no namesake in the
    table), on a live session whose driver accepts the statements, for the
    cached table.  Both calls return, ADD and DROP COLUMN went out in this
    order; between the calls the cached object is the table with the
    column; after them every Table object holds what it held at the start,
    and so does the cache. *)
Theorem mysql_plain_column_added_and_dropped `{Driver} `{NamingStrategy} `{ColumnDiff}
    (reply : Query -> list string) (a : nat) (tb : Table.t) (column : TableColumn.t)
    (r : QueryRunner) :
  obtainMasterConnection = None ->
  (forall h q, answer h q = Rows (reply q)) ->
  isReleased r = false ->
  tables r !! a = Some tb ->
  getCachedTable (Table.name tb) r = (Return a, r) ->
  TableColumn.isPrimary column = false -> TableColumn.isUnique column = false ->
  Table.findColumnByName (TableColumn.name column) tb = None ->
  List.find (isColumnIndex (TableColumn.name column)) (Table.indices tb) = None ->
  exists r1 r2,
    MysqlSchema.addColumn (inl a) column r = (Return tt, r1)
    /\ tables r1 = <[a := Table.addColumn column tb]> (tables r)
    /\ cachedTable (Table.name tb) r1 = Some (Table.addColumn column tb)
    /\ MysqlSchema.dropColumn (inr (Table.name tb)) (inr (TableColumn.name column)) r1
       = (Return tt, r2)
    /\ wire r2 = wire r
                 ++ [AlterAdd (Table.name tb)
                       (buildCreateColumnSql column
                          (Nat.ltb 0 (List.length (Table.primaryColumns tb))) false);
                     AlterDropColumn (Table.name tb) (TableColumn.name column)]
    /\ cachedTable (Table.name tb) r2 = Some tb
    /\ tables r2 = tables r
    /\ loadedTables r2 = loadedTables r.
Proof.
  intros Hpool Hreply Hr Hl Hget Hprimary Hunique Hfresh Hindex.
  set (add := AlterAdd (Table.name tb)
                (buildCreateColumnSql column
                   (Nat.ltb 0 (List.length (Table.primaryColumns tb))) false)).
  set (dropc := AlterDropColumn (Table.name tb) (TableColumn.name column)).
  set (post := Table.addColumn column tb).
  set (r0 := afterSendAll [add]
               (set_sqlInMemory (upQueries r ++ [add]) (downQueries r ++ [dropc]) r)).
  assert (Hl0 : tables r0 !! a = Some tb) by exact Hl.
  assert (Hget0 : getCachedTable (Table.name tb) r0 = (Return a, r0))
    by (by apply (getCachedTable_same_store _ _ r)).
  assert (Hin0 : In a (loadedTables r0)).
  { revert Hget. unfold getCachedTable.
    destruct (List.find _ (loadedTables r)) as [a' |] eqn:Hfind; [| discriminate].
    intros [= ->]. by apply find_some in Hfind as [? _]. }
  destruct (replaceCachedTable a post r0) as [c r1] eqn:Hswap.
  pose proof (replaceCachedTable_fields _ _ _ _ _ Hswap) as (Hwire1 & Hr1 & _ & Hc1 & _).
  destruct (replace_cached a tb post r0 r1 c Hl0 eq_refl Hswap)
    as (-> & Hcached1 & Hobject1).
  destruct (Hobject1 Hget0) as [Hstore1 Hget1].
  assert (Hadd : MysqlSchema.addColumn (inl a) column r = (Return tt, r1)).
  { unfold MysqlSchema.addColumn, resolveTable.
    erewrite bind_return by reflexivity.
    erewrite bind_return by (by apply readTable_some).
    rewrite addColumn_plan_plain by done. cbn [up down clonedTable].
    erewrite bind_return by (by apply (accepting_executeQueries reply)).
    exact Hswap. }
  assert (Hl1 : tables r1 !! a = Some post).
  { rewrite Hstore1. apply list_lookup_insert_eq. by apply lookup_lt_Some in Hl0. }
  set (readd := AlterAdd (Table.name tb) (buildCreateColumnSql column true false)).
  set (r1e := afterSendAll [dropc]
                (set_sqlInMemory (upQueries r1 ++ [dropc]) (downQueries r1 ++ [readd]) r1)).
  assert (Hl1e : tables r1e !! a = Some post) by exact Hl1.
  assert (Hget1e : getCachedTable (Table.name post) r1e = (Return a, r1e))
    by (by apply (getCachedTable_same_store _ _ r1)).
  destruct (replaceCachedTable a tb r1e) as [c r2] eqn:Hswap2.
  pose proof (replaceCachedTable_fields _ _ _ _ _ Hswap2) as (Hwire2 & _ & _ & Hc2 & _).
  destruct (replace_cached a post tb r1e r2 c Hl1e eq_refl Hswap2)
    as (-> & _ & Hobject2).
  destruct (Hobject2 Hget1e) as [Hstore2 Hget2].
  assert (Hstore : tables r2 = tables r).
  { rewrite Hstore2. change (tables r1e) with (tables r1). rewrite Hstore1.
    change (tables r0) with (tables r).
    rewrite list_insert_insert_eq. by apply list_insert_id. }
  assert (Hcache : loadedTables r2 = loadedTables r).
  { rewrite Hc2. change (loadedTables r1e) with (loadedTables r1). by rewrite Hc1. }
  exists r1, r2.
  split; [exact Hadd |]. split; [exact Hstore1 |].
  split; [exact (Hcached1 Hin0) |]. split; [| split; [| split; [| split]]].
  - unfold MysqlSchema.dropColumn, resolveTable.
    erewrite bind_return by exact Hget1.
    erewrite bind_return by (by apply readTable_some).
    assert (Hfound : Table.findColumnByName (TableColumn.name column) post = Some column).
    { unfold Table.findColumnByName, post, Table.addColumn. cbn [Table.columns Table.with_columns].
      apply find_app_last; [exact Hfresh | apply String.eqb_refl]. }
    rewrite Hfound. unfold MysqlSchema.lift at 1.
    erewrite bind_return by (by rewrite (dropColumn_plan_plain post column)).
    cbn [up down clonedTable].
    erewrite bind_return
      by (apply (accepting_executeQueries reply);
          [exact Hpool | exact Hreply | rewrite Hr1; exact Hr]).
    change (Table.name post) with (Table.name tb). fold dropc readd r1e.
    subst post. rewrite removeColumn_added by exact Hfresh. exact Hswap2.
  - rewrite Hwire2. change (wire r1e) with (wire r1 ++ [dropc]).
    rewrite Hwire1. change (wire r0) with (wire r ++ [add]). by rewrite <- app_assoc.
  - unfold cachedTable. rewrite Hstore, Hcache.
    revert Hget. unfold getCachedTable.
    destruct (List.find _ (loadedTables r)) as [a' |]; [| discriminate].
    by intros [= ->].
  - exact Hstore.
  - exact Hcache.
Qed.

Lemma mysql_plain_column_added_and_dropped_witness :
  let H := Fixture.accepting in
  let N := Fixture.naming in
  let D := Fixture.diff in
  let note := Fixture.column "note" "text" EmptyString false false in
  let r := Fixture.runnerWith Fixture.t0 in
  exists r1 r2,
    MysqlSchema.addColumn (inl 0%nat) note r = (Return tt, r1)
    /\ tables r1 = [Table.addColumn note Fixture.t0]
    /\ MysqlSchema.dropColumn (inr "t") (inr "note") r1 = (Return tt, r2)
    /\ wire r2 = [AlterAdd "t" (buildCreateColumnSql note true false);
                  AlterDropColumn "t" "note"]
    /\ cachedTable "t" r2 = Some Fixture.t0
    /\ tables r2 = [Fixture.t0].
Proof.
  intros H N D note r.
  destruct (@mysql_plain_column_added_and_dropped H N D (fun _ => []) 0 Fixture.t0 note r
              eq_refl (fun _ _ => eq_refl) eq_refl eq_refl eq_refl
              eq_refl eq_refl eq_refl eq_refl)
    as (r1 & r2 & Hadd & Hbetween & _ & Hdrop & Hwire & Hcached & Hstore & _).
  exists r1, r2. repeat split; assumption.
Defined.
